(** * Agent cluster install manifest: derivation, defaulting, validation, load

    A shallow embedding of
    [pkg/asset/agent/manifests/agentclusterinstall.go] together with the
    pieces of the Go standard library ([strings], [net], [os]) and of the
    Kubernetes [field] package that the file calls.  Go strings are byte
    sequences, modelled as [string]; bytes of an address are [Z] values in
    [0, 255]; a Go [int] is a 64-bit two's complement integer, modelled as a
    [Z] with the wrap-around written out. *)

From Stdlib Require Import ZArith List String Ascii Bool Lia DecimalString.
Import ListNotations.

Local Open Scope string_scope.
Local Open Scope Z_scope.

(** ** Go [strings] *)

Module strings.

(** Byte membership in a cutset, as the ASCII set of [strings.Trim]. *)
Fixpoint inCutset (cutset : string) (c : ascii) : bool :=
  match cutset with
  | EmptyString => false
  | String k rest => if Ascii.eqb c k then true else inCutset rest c
  end.

(** [strings.TrimLeft]: drop the leading bytes contained in the cutset. *)
Fixpoint TrimLeft (s cutset : string) : string :=
  match s with
  | EmptyString => EmptyString
  | String c rest => if inCutset cutset c then TrimLeft rest cutset else s
  end.

(** [strings.TrimRight]: drop the trailing bytes contained in the cutset. *)
Fixpoint TrimRight (s cutset : string) : string :=
  match s with
  | EmptyString => EmptyString
  | String c rest =>
      match TrimRight rest cutset with
      | EmptyString => if inCutset cutset c then EmptyString
                       else String c EmptyString
      | kept => String c kept
      end
  end.

(** [strings.Trim(s, cutset)]: all leading and trailing bytes contained in
    the cutset removed; the right end is trimmed first. *)
Definition Trim (s cutset : string) : string :=
  TrimLeft (TrimRight s cutset) cutset.

(** First and last byte of a string, when it has one. *)
Definition first (s : string) : option ascii :=
  match s with
  | EmptyString => None
  | String c _ => Some c
  end.

Fixpoint last (s : string) : option ascii :=
  match s with
  | EmptyString => None
  | String c EmptyString => Some c
  | String _ rest => last rest
  end.

(** Every byte of the string lies in the cutset. *)
Fixpoint allIn (cutset s : string) : bool :=
  match s with
  | EmptyString => true
  | String c rest => inCutset cutset c && allIn cutset rest
  end.

(** The string does not start with a cutset byte. *)
Definition startsClean (cutset s : string) : bool :=
  match first s with
  | Some c => negb (inCutset cutset c)
  | None => true
  end.

(** The string does not end with a cutset byte. *)
Definition endsClean (cutset s : string) : bool :=
  match last s with
  | Some c => negb (inCutset cutset c)
  | None => true
  end.

End strings.

(** ** Go errors

    The error values that flow through the manifest code: plain messages
    ([errors.New], [fmt.Errorf]), messages wrapped around a cause
    ([errors.Wrap] and [errors.Wrapf] of [github.com/pkg/errors]), the parse
    error of package [net], the file-system errors that [os.IsNotExist]
    inspects, and the aggregate built from a [field.ErrorList]. *)

Module field.

Inductive ErrorType : Type :=
| ErrorTypeNotFound
| ErrorTypeRequired
| ErrorTypeDuplicate
| ErrorTypeInvalid
| ErrorTypeNotSupported
| ErrorTypeForbidden
| ErrorTypeTooLong
| ErrorTypeTooMany
| ErrorTypeInternal.

Definition ErrorType_eqb (a b : ErrorType) : bool :=
  match a, b with
  | ErrorTypeNotFound, ErrorTypeNotFound
  | ErrorTypeRequired, ErrorTypeRequired
  | ErrorTypeDuplicate, ErrorTypeDuplicate
  | ErrorTypeInvalid, ErrorTypeInvalid
  | ErrorTypeNotSupported, ErrorTypeNotSupported
  | ErrorTypeForbidden, ErrorTypeForbidden
  | ErrorTypeTooLong, ErrorTypeTooLong
  | ErrorTypeTooMany, ErrorTypeTooMany
  | ErrorTypeInternal, ErrorTypeInternal => true
  | _, _ => false
  end.

(** A path is the list of its element names, root first;
    [NewPath "spec" ["networking"; "networkType"]] prints as
    [spec.networking.networkType]. *)
Definition Path := list string.

Definition NewPath (name : string) (moreNames : list string) : Path :=
  name :: moreNames.

Fixpoint Path_String (p : Path) : string :=
  match p with
  | [] => ""
  | [name] => name
  | name :: rest => name ++ "." ++ Path_String rest
  end.

(** [field.Error]: the bad value of a [Required] error is the empty
    string. *)
Record Error : Type := mkError {
  Type_ : ErrorType;
  Field : string;
  BadValue : string;
  Detail : string
}.

Definition ErrorList := list Error.

(** [field.Required(path, detail)]. *)
Definition Required (p : Path) (detail : string) : Error :=
  {| Type_ := ErrorTypeRequired; Field := Path_String p;
     BadValue := ""; Detail := detail |}.

Definition ErrorType_String (t : ErrorType) : string :=
  match t with
  | ErrorTypeNotFound => "Not found"
  | ErrorTypeRequired => "Required value"
  | ErrorTypeDuplicate => "Duplicate value"
  | ErrorTypeInvalid => "Invalid value"
  | ErrorTypeNotSupported => "Unsupported value"
  | ErrorTypeForbidden => "Forbidden"
  | ErrorTypeTooLong => "Too long"
  | ErrorTypeTooMany => "Too many"
  | ErrorTypeInternal => "Internal error"
  end.

(** [Error.Error()]: field, type and detail.  Only [Required] errors are
    built by the manifest code; for the types that print a bad value the
    value is printed after the type. *)
Definition Error_String (e : Error) : string :=
  let body :=
    match Type_ e with
    | ErrorTypeRequired | ErrorTypeForbidden | ErrorTypeTooLong
    | ErrorTypeInternal => ErrorType_String (Type_ e)
    | _ => ErrorType_String (Type_ e) ++ ": " ++ BadValue e
    end in
  let body := if String.eqb (Detail e) "" then body
              else body ++ ": " ++ Detail e in
  Field e ++ ": " ++ body.

(** Number of errors of the list with the given type at the given path. *)
Definition countAt (t : ErrorType) (p : Path) (l : ErrorList) : nat :=
  List.length
    (List.filter
       (fun e => ErrorType_eqb (Type_ e) t && String.eqb (Field e) (Path_String p))
       l).

End field.

#[warnings="-register-all"]
Inductive error : Type :=
| errorString (msg : string)
| withMessage (cause : error) (msg : string)
| ParseError (Type_ Text : string)
| ErrNotExist
| Errno (code : Z)
| PathError (Op Path : string) (Err : error)
| LinkError (Op Old New : string) (Err : error)
| SyscallError (Syscall : string) (Err : error)
| FieldError (e : field.Error)
| Aggregate (errs : list error).

Module errors.

(** [errors.New(msg)]. *)
Definition New (msg : string) : error := errorString msg.

(** [errors.Wrap(err, msg)] for a non-nil [err]. *)
Definition Wrap (err : error) (msg : string) : error := withMessage err msg.

End errors.

Module os.

Definition ENOENT : Z := 2.

(** [underlyingError]: only the three historical wrappers are opened. *)
Definition underlyingError (err : error) : error :=
  match err with
  | PathError _ _ e => e
  | LinkError _ _ _ e => e
  | SyscallError _ e => e
  | _ => err
  end.

(** [os.IsNotExist(err)]. *)
Definition IsNotExist (err : error) : bool :=
  match underlyingError err with
  | ErrNotExist => true
  | Errno code => code =? ENOENT
  | _ => false
  end.

End os.

(** ** Go [net]: addresses, masks and CIDR parsing

    An [IP] is the byte slice of the address; the empty list stands for the
    nil slice.  [ParseCIDR] follows the standard library: the text before
    the slash is parsed as a dotted-decimal IPv4 or a colon-hexadecimal IPv6
    address (no zone allowed), the text after it as a decimal prefix
    length. *)

Module net.

Local Open Scope list_scope.

Definition IP := list Z.
Definition IPMask := list Z.

Record IPNet : Type := mkIPNet {
  IPNet_IP : IP;
  IPNet_Mask : IPMask
}.

Definition IPv4len : nat := 4.
Definition IPv6len : nat := 16.

Definition v4InV6Prefix : list Z := [0; 0; 0; 0; 0; 0; 0; 0; 0; 0; 255; 255].

Definition bytes_eqb (a b : list Z) : bool :=
  Nat.eqb (List.length a) (List.length b)
  && forallb (fun p => fst p =? snd p) (combine a b).

(** [IPv4(a, b, c, d)]: the 16-byte form of an IPv4 address. *)
Definition IPv4 (a b c d : Z) : IP := v4InV6Prefix ++ [a; b; c; d].

(** [ip.To4()]: [None] is the nil result. *)
Definition To4 (ip : IP) : option IP :=
  if Nat.eqb (List.length ip) IPv4len then Some ip
  else if Nat.eqb (List.length ip) IPv6len
          && forallb (Z.eqb 0) (firstn 10 ip)
          && (nth 10 ip 0 =? 255) && (nth 11 ip 0 =? 255)
       then Some (skipn 12 ip)
       else None.

(** [ip.To16()]: [None] is the nil result. *)
Definition To16 (ip : IP) : option IP :=
  if Nat.eqb (List.length ip) IPv4len
  then Some (IPv4 (nth 0 ip 0) (nth 1 ip 0) (nth 2 ip 0) (nth 3 ip 0))
  else if Nat.eqb (List.length ip) IPv6len then Some ip
       else None.

(** [CIDRMask(ones, bits)] for [bits] 32 or 128 and [0 <= ones <= bits]. *)
Fixpoint CIDRMask_bytes (l : nat) (n : Z) : IPMask :=
  match l with
  | O => []
  | S l' =>
      if 8 <=? n then 255 :: CIDRMask_bytes l' (n - 8)
      else Z.lxor 255 (Z.shiftr 255 n) :: CIDRMask_bytes l' 0
  end.

Definition CIDRMask (ones bits : Z) : option IPMask :=
  if negb (bits =? 32) && negb (bits =? 128) then None
  else if (ones <? 0) || (bits <? ones) then None
       else Some (CIDRMask_bytes (Z.to_nat (bits / 8)) ones).

(** [ip.Mask(mask)]: [None] is the nil result. *)
Definition Mask (ip : IP) (mask : IPMask) : option IP :=
  let mask :=
    if Nat.eqb (List.length mask) IPv6len && Nat.eqb (List.length ip) IPv4len
       && forallb (Z.eqb 255) (firstn 12 mask)
    then skipn 12 mask else mask in
  let ip :=
    if Nat.eqb (List.length mask) IPv4len && Nat.eqb (List.length ip) IPv6len
       && bytes_eqb (firstn 12 ip) v4InV6Prefix
    then skipn 12 ip else ip in
  if Nat.eqb (List.length ip) (List.length mask)
  then Some (map (fun p => Z.land (fst p) (snd p)) (combine ip mask))
  else None.

(** *** Scanning *)

Definition isDigit (c : ascii) : bool :=
  let n := nat_of_ascii c in Nat.leb 48 n && Nat.leb n 57.

Definition digitVal (c : ascii) : Z := Z.of_nat (nat_of_ascii c) - 48.

(** Value of a hexadecimal digit, [None] for any other byte. *)
Definition hexVal (c : ascii) : option Z :=
  let n := nat_of_ascii c in
  if Nat.leb 48 n && Nat.leb n 57 then Some (Z.of_nat n - 48)
  else if Nat.leb 97 n && Nat.leb n 102 then Some (Z.of_nat n - 97 + 10)
  else if Nat.leb 65 n && Nat.leb n 70 then Some (Z.of_nat n - 65 + 10)
  else None.

Definition big : Z := 16777215.

(** [dtoi(s)]: the decimal number at the start of [s], the number of
    bytes consumed, and whether a number was read without overflow. *)
Fixpoint dtoi_loop (s : list ascii) (n i : Z) : Z * Z * bool :=
  match s with
  | c :: rest =>
      if isDigit c then
        let n' := n * 10 + digitVal c in
        if big <=? n' then (big, i, false)
        else dtoi_loop rest n' (i + 1)
      else if i =? 0 then (0, 0, false) else (n, i, true)
  | [] => if i =? 0 then (0, 0, false) else (n, i, true)
  end.

Definition dtoi (s : list ascii) : Z * Z * bool := dtoi_loop s 0 0.

(** [parseIPv4Fields]: four decimal fields separated by dots, each at
    most 255 and without a leading zero.  [prev] is the byte before the
    current one ([None] at the start). *)
Fixpoint parseIPv4Fields_loop (s : list ascii) (prev : option ascii)
         (val digLen : Z) (fields : list Z) : option (list Z) :=
  match s with
  | [] =>
      if Nat.ltb (List.length fields) 3 then None else Some (fields ++ [val])
  | c :: rest =>
      if isDigit c then
        if (digLen =? 1) && (val =? 0) then None
        else
          let val' := val * 10 + digitVal c in
          if 255 <? val' then None
          else parseIPv4Fields_loop rest (Some c) val' (digLen + 1) fields
      else if Ascii.eqb c "." then
        let atStart := match prev with None => true | Some _ => false end in
        let atEnd := match rest with [] => true | _ => false end in
        let afterDot := match prev with
                        | Some p => Ascii.eqb p "."
                        | None => false
                        end in
        if atStart || atEnd || afterDot then None
        else if Nat.eqb (List.length fields) 3 then None
             else parseIPv4Fields_loop rest (Some c) 0 0 (fields ++ [val])
      else None
  end.

Definition parseIPv4Fields (s : list ascii) : option (list Z) :=
  parseIPv4Fields_loop s None 0 0 [].

(** The hexadecimal number at the start of [s]: the number of digits, the
    value and the rest; [None] on a fifth digit or a value over 16 bits. *)
Fixpoint scanHex (s : list ascii) (off acc : Z)
  : option (Z * Z * list ascii) :=
  match s with
  | c :: rest =>
      match hexVal c with
      | Some v =>
          let acc' := Z.shiftl acc 4 + v in
          if 3 <? off then None
          else if 65535 <? acc' then None
               else scanHex rest (off + 1) acc'
      | None => Some (off, acc, s)
      end
  | [] => Some (off, acc, s)
  end.

(** Split at the first occurrence of a byte. *)
Fixpoint cut (sep : ascii) (s : list ascii)
  : option (list ascii * list ascii) :=
  match s with
  | [] => None
  | c :: rest =>
      if Ascii.eqb c sep then Some ([], rest)
      else match cut sep rest with
           | Some (before, after) => Some (c :: before, after)
           | None => None
           end
  end.

(** The state of the group loop of [parseIPv6] when it is left: the text
    not consumed, the bytes written so far and the place of the
    ellipsis. *)
Inductive loopExit : Type :=
| LoopErr
| LoopDone (s : list ascii) (ip : list Z) (ellipsis : option nat).

(** One round of the loop either leaves it or goes on with a new state. *)
Inductive loopStep : Type :=
| Exit (r : loopExit)
| Continue (s : list ascii) (ip : list Z) (ellipsis : option nat).

(** The body of the group loop, with the test [i < 16] of its head: a
    hexadecimal group, then either an embedded IPv4 address, the end of the
    text, or a colon, maybe the second of an ellipsis. *)
Definition parseIPv6_step (s : list ascii) (ip : list Z)
           (ellipsis : option nat) : loopStep :=
  if negb (Nat.ltb (List.length ip) 16) then Exit (LoopDone s ip ellipsis)
  else
    match scanHex s 0 0 with
    | None => Exit LoopErr
    | Some (off, acc, rest) =>
        if off =? 0 then Exit LoopErr
        else
          match rest with
          | "."%char :: _ =>
              let misplaced :=
                match ellipsis with
                | None => negb (Nat.eqb (List.length ip) 12)
                | Some _ => false
                end in
              if misplaced then Exit LoopErr
              else if Nat.ltb 16 (List.length ip + 4) then Exit LoopErr
              else match parseIPv4Fields s with
                   | None => Exit LoopErr
                   | Some fields => Exit (LoopDone [] (ip ++ fields) ellipsis)
                   end
          | _ =>
              let ip' := ip ++ [Z.shiftr acc 8; Z.land acc 255] in
              match rest with
              | [] => Exit (LoopDone [] ip' ellipsis)
              | c :: rest1 =>
                  if negb (Ascii.eqb c ":") then Exit LoopErr
                  else
                    match rest1 with
                    | [] => Exit LoopErr
                    | ":"%char :: rest2 =>
                        match ellipsis with
                        | Some _ => Exit LoopErr
                        | None =>
                            match rest2 with
                            | [] => Exit (LoopDone [] ip' (Some (List.length ip')))
                            | _ => Continue rest2 ip' (Some (List.length ip'))
                            end
                        end
                    | _ => Continue rest1 ip' ellipsis
                    end
              end
          end
    end.

(** The group loop.  Every round that goes on writes two bytes, so eight
    rounds reach the sixteen bytes at which the loop stops. *)
Fixpoint parseIPv6_loop (fuel : nat) (s : list ascii) (ip : list Z)
         (ellipsis : option nat) : loopExit :=
  match fuel with
  | O => LoopDone s ip ellipsis
  | S fuel' =>
      match parseIPv6_step s ip ellipsis with
      | Exit r => r
      | Continue s' ip' ellipsis' => parseIPv6_loop fuel' s' ip' ellipsis'
      end
  end.

(** [parseIPv6]: the 16 bytes and the zone. *)
Definition parseIPv6 (input : list ascii) : option (list Z * list ascii) :=
  let split :=
    match cut "%" input with
    | Some (before, zone) =>
        match zone with
        | [] => None
        | _ => Some (before, zone)
        end
    | None => Some (input, [])
    end in
  match split with
  | None => None
  | Some (s, zone) =>
      let finish (r : loopExit) :=
        match r with
        | LoopErr => None
        | LoopDone (_ :: _) _ _ => None
        | LoopDone [] ip ellipsis =>
            if Nat.ltb (List.length ip) 16 then
              match ellipsis with
              | None => None
              | Some e =>
                  Some (firstn e ip ++ repeat 0 (16 - List.length ip)
                          ++ skipn e ip, zone)
              end
            else match ellipsis with
                 | Some _ => None
                 | None => Some (ip, zone)
                 end
        end in
      match s with
      | ":"%char :: ":"%char :: rest =>
          match rest with
          | [] => Some (repeat 0 16, zone)
          | _ => finish (parseIPv6_loop 8 rest [] (Some 0%nat))
          end
      | _ => finish (parseIPv6_loop 8 s [] None)
      end
  end.

(** [netip.ParseAddr]: the 16-byte form, the bit List.length of the family and
    the zone. *)
Fixpoint ParseAddr_scan (whole s : list ascii)
  : option (list Z * Z * list ascii) :=
  match s with
  | [] => None
  | c :: rest =>
      if Ascii.eqb c "." then
        match parseIPv4Fields whole with
        | Some fields => Some (v4InV6Prefix ++ fields, 32, [])
        | None => None
        end
      else if Ascii.eqb c ":" then
        match parseIPv6 whole with
        | Some (ip, zone) => Some (ip, 128, zone)
        | None => None
        end
      else if Ascii.eqb c "%" then None
      else ParseAddr_scan whole rest
  end.

Definition ParseAddr (s : list ascii) : option (list Z * Z * list ascii) :=
  ParseAddr_scan s s.

(** [net.ParseCIDR(s)]: the address, the network and the error; on
    failure the address is nil and there is no network. *)
Definition ParseCIDR (s : string) : IP * option IPNet * option error :=
  let failure := ([], None, Some (ParseError "CIDR address"%string s)) in
  match cut "/" (list_ascii_of_string s) with
  | None => failure
  | Some (addr, mask) =>
      match ParseAddr addr with
      | None => failure
      | Some (_, _, _ :: _) => failure
      | Some (addr16, bitLen, []) =>
          let '(n, i, ok) := dtoi mask in
          if negb ok || negb (i =? Z.of_nat (List.length mask))
             || (n <? 0) || (bitLen <? n)
          then failure
          else
            match CIDRMask n bitLen with
            | None => failure
            | Some m =>
                match Mask addr16 m with
                | None => failure
                | Some network =>
                    (addr16, Some (mkIPNet network m), None)
                end
            end
      end
  end.

(** *** Printing *)

Local Infix "+++" := String.append (at level 60, right associativity).

(** [uitoa]: decimal text of a non-negative number. *)
Definition uitoa (n : Z) : string :=
  NilZero.string_of_uint (N.to_uint (Z.to_N n)).

Definition hexDigit (v : Z) : ascii :=
  if v <? 10 then ascii_of_nat (Z.to_nat v + 48)
  else ascii_of_nat (Z.to_nat v - 10 + 97).

(** [appendHex]: a 16-bit group in lower-case hexadecimal without leading
    zeros. *)
Definition appendHex (x : Z) : string :=
  ((if 4096 <=? x then String (hexDigit (Z.shiftr x 12)) "" else "")
   +++ (if 256 <=? x then String (hexDigit (Z.land (Z.shiftr x 8) 15)) "" else "")
   +++ (if 16 <=? x then String (hexDigit (Z.land (Z.shiftr x 4) 15)) "" else "")
   +++ String (hexDigit (Z.land x 15)) "").

(** [hexString]: two hexadecimal digits per byte. *)
Fixpoint hexString (b : list Z) : string :=
  match b with
  | [] => ""%string
  | v :: rest =>
      String (hexDigit (Z.shiftr v 4))
        (String (hexDigit (Z.land v 15)) (hexString rest))
  end.

(** Dotted-decimal text of four bytes. *)
Definition string4 (p : list Z) : string :=
  (uitoa (nth 0 p 0) +++ "." +++ uitoa (nth 1 p 0) +++ "."
   +++ uitoa (nth 2 p 0) +++ "." +++ uitoa (nth 3 p 0)).

(** The eight 16-bit groups of a 16-byte address. *)
Fixpoint v6u16 (ip : list Z) : list Z :=
  match ip with
  | hi :: lo :: rest => (Z.shiftl hi 8 + lo) :: v6u16 rest
  | _ => []
  end.

(** Number of zero groups at the head of a list of groups. *)
Fixpoint zeroRun (groups : list Z) : nat :=
  match groups with
  | g :: rest => if g =? 0 then S (zeroRun rest) else O
  | [] => O
  end.

(** The longest run of at least two zero groups, the first one on a tie:
    its start and its end, both 255 when there is none. *)
Definition longestZeroRun (groups : list Z) : nat * nat :=
  fold_left
    (fun (z : nat * nat) (i : nat) =>
       let l := zeroRun (skipn i groups) in
       if Nat.leb 2 l && Nat.ltb (snd z - fst z) l then (i, (i + l)%nat)
       else z)
    (seq 0 8) (255%nat, 255%nat).

Fixpoint string6_loop (fuel : nat) (groups : list Z) (zeroStart zeroEnd i : nat)
  : string :=
  match fuel with
  | O => ""%string
  | S fuel' =>
      if negb (Nat.ltb i 8) then ""%string
      else if Nat.eqb i zeroStart then
        if Nat.leb 8 zeroEnd then "::"%string
        else ("::" +++ appendHex (nth zeroEnd groups 0)
              +++ string6_loop fuel' groups zeroStart zeroEnd (S zeroEnd))
      else ((if Nat.ltb 0 i then ":" else "")
            +++ appendHex (nth i groups 0)
            +++ string6_loop fuel' groups zeroStart zeroEnd (S i))
  end.

(** Colon-hexadecimal text of a 16-byte address. *)
Definition string6 (ip : list Z) : string :=
  let groups := v6u16 ip in
  let '(zeroStart, zeroEnd) := longestZeroRun groups in
  string6_loop 8 groups zeroStart zeroEnd 0.

(** [ip.String()]. *)
Definition IP_String (ip : IP) : string :=
  match ip with
  | [] => "<nil>"%string
  | _ =>
      if negb (Nat.eqb (List.length ip) IPv4len)
         && negb (Nat.eqb (List.length ip) IPv6len)
      then ("?" +++ hexString ip)
      else match To4 ip with
           | Some p4 => string4 p4
           | None => string6 ip
           end
  end.

(** [simpleMaskLength]: the number of leading ones of a mask made of ones
    followed by zeros, and -1 for any other mask. *)
Fixpoint leadingOnes (fuel : nat) (v : Z) : Z * Z :=
  match fuel with
  | O => (0, v)
  | S fuel' =>
      if negb (Z.land v 128 =? 0) then
        let '(n, v') := leadingOnes fuel' (Z.land (Z.shiftl v 1) 255) in
        (n + 1, v')
      else (0, v)
  end.

Fixpoint simpleMaskLength (mask : IPMask) : Z :=
  match mask with
  | [] => 0
  | v :: rest =>
      if v =? 255 then
        let n := simpleMaskLength rest in
        if n =? -1 then -1 else 8 + n
      else
        let '(n, v') := leadingOnes 8 v in
        if negb (v' =? 0) then -1
        else if forallb (Z.eqb 0) rest then n else -1
  end.

(** [networkNumberAndMask]. *)
Definition networkNumberAndMask (n : IPNet) : option (IP * IPMask) :=
  let ip :=
    match To4 (IPNet_IP n) with
    | Some p4 => Some p4
    | None => if Nat.eqb (List.length (IPNet_IP n)) IPv6len
              then Some (IPNet_IP n) else None
    end in
  match ip with
  | None => None
  | Some ip =>
      let m := IPNet_Mask n in
      if Nat.eqb (List.length m) IPv4len then
        if Nat.eqb (List.length ip) IPv4len then Some (ip, m) else None
      else if Nat.eqb (List.length m) IPv6len then
        if Nat.eqb (List.length ip) IPv4len then Some (ip, skipn 12 m)
        else Some (ip, m)
      else None
  end.

(** [n.String()] of a non-nil network. *)
Definition IPNet_String (n : IPNet) : string :=
  match networkNumberAndMask n with
  | None => "<nil>"%string
  | Some (nn, m) =>
      let l := simpleMaskLength m in
      if l =? -1 then (IP_String nn +++ "/" +++ hexString m)
      else (IP_String nn +++ "/" +++ uitoa l)
  end.

End net.

(** ** Outcomes

    A Go call either returns or panics on a nil pointer dereference. *)

Inductive outcome (A : Type) : Type :=
| Returned (a : A)
| Panic.

Arguments Returned {A} a.
Arguments Panic {A}.

Definition bind {A B : Type} (m : outcome A) (k : A -> outcome B) : outcome B :=
  match m with
  | Returned a => k a
  | Panic => Panic
  end.

Notation "x <- m ;; k" := (bind m (fun x => k))
  (at level 61, m at next level, right associativity).
Notation "' p <- m ;; k" := (bind m (fun x => let p := x in k))
  (at level 61, p pattern, m at next level, right associativity).

(** Dereference of a pointer that may be nil. *)
Definition deref {A : Type} (p : option A) : outcome A :=
  match p with
  | Some a => Returned a
  | None => Panic
  end.

(** A Go [int] on a 64-bit platform. *)
Definition wrap64 (z : Z) : Z := (z + 2 ^ 63) mod 2 ^ 64 - 2 ^ 63.

(** ** The descriptor: [hiveext.AgentClusterInstall]

    The fields of the assisted-service types that the manifest code reads
    or writes. *)

Module hiveext.

Record ClusterNetworkEntry : Type := mkClusterNetworkEntry {
  CIDR : string;
  HostPrefix : Z
}.

Record Networking : Type := mkNetworking {
  ClusterNetwork : list ClusterNetworkEntry;
  ServiceNetwork : list string;
  NetworkType : string
}.

Record ProvisionRequirements : Type := mkProvisionRequirements {
  ControlPlaneAgents : Z;
  WorkerAgents : Z
}.

Record ObjectMeta : Type := mkObjectMeta {
  Name : string;
  Namespace : string
}.

Record AgentClusterInstallSpec : Type := mkSpec {
  ImageSetRef : option string;
  ClusterDeploymentRef : string;
  Networking_ : Networking;
  SSHPublicKey : string;
  ProvisionRequirements_ : ProvisionRequirements;
  APIVIP : string;
  IngressVIP : string
}.

Record AgentClusterInstall : Type := mkAgentClusterInstall {
  ObjectMeta_ : ObjectMeta;
  Spec : AgentClusterInstallSpec
}.

(** The zero value, [&hiveext.AgentClusterInstall{}]. *)
Definition zero : AgentClusterInstall :=
  {| ObjectMeta_ := {| Name := ""; Namespace := "" |};
     Spec := {| ImageSetRef := None; ClusterDeploymentRef := "";
                Networking_ := {| ClusterNetwork := []; ServiceNetwork := [];
                                  NetworkType := "" |};
                SSHPublicKey := "";
                ProvisionRequirements_ := {| ControlPlaneAgents := 0;
                                             WorkerAgents := 0 |};
                APIVIP := ""; IngressVIP := "" |} |}.

(** Assignment to [aci.Spec.Networking.NetworkType]. *)
Definition setNetworkTypeField (aci : AgentClusterInstall) (t : string)
  : AgentClusterInstall :=
  let s := Spec aci in
  let n := Networking_ s in
  {| ObjectMeta_ := ObjectMeta_ aci;
     Spec := {| ImageSetRef := ImageSetRef s;
                ClusterDeploymentRef := ClusterDeploymentRef s;
                Networking_ := {| ClusterNetwork := ClusterNetwork n;
                                  ServiceNetwork := ServiceNetwork n;
                                  NetworkType := t |};
                SSHPublicKey := SSHPublicKey s;
                ProvisionRequirements_ := ProvisionRequirements_ s;
                APIVIP := APIVIP s;
                IngressVIP := IngressVIP s |} |}.

(** Assignment to [aci.Spec.APIVIP] and [aci.Spec.IngressVIP]. *)
Definition setVIPs (aci : AgentClusterInstall) (apiVIP ingressVIP : string)
  : AgentClusterInstall :=
  let s := Spec aci in
  {| ObjectMeta_ := ObjectMeta_ aci;
     Spec := {| ImageSetRef := ImageSetRef s;
                ClusterDeploymentRef := ClusterDeploymentRef s;
                Networking_ := Networking_ s;
                SSHPublicKey := SSHPublicKey s;
                ProvisionRequirements_ := ProvisionRequirements_ s;
                APIVIP := apiVIP;
                IngressVIP := ingressVIP |} |}.

End hiveext.

(** [operv1.NetworkTypeOpenShiftSDN]. *)
Definition NetworkTypeOpenShiftSDN : string := "OpenShiftSDN".

(** ** [pkg/ipnet] and [pkg/validate] *)

Module ipnet.

(** [ipnet.IPNet] wraps a [net.IPNet]. *)
Definition IPNet := net.IPNet.

Definition String_ (n : IPNet) : string := net.IPNet_String n.

(** Modelled from the spec: [ipnet.ParseCIDR] is not among the sources;
    the builder uses it to "parse and normalize the CIDR representation"
    of a service network.  The text is parsed by [net.ParseCIDR]; the
    result keeps the parsed address and the mask, and prints in the
    canonical form. *)
Definition ParseCIDR (s : string) : option IPNet * option error :=
  match net.ParseCIDR s with
  | (ip, Some cidr, None) =>
      (Some (net.mkIPNet ip (net.IPNet_Mask cidr)), None)
  | (_, _, Some err) => (None, Some err)
  | (_, None, None) => (None, Some (ParseError "CIDR address" s))
  end.

End ipnet.

Module validate.

(** Modelled from the spec: [validate.SubnetCIDR] is not among the
    sources; it "rejects a CIDR whose host bits are non-zero (e.g.
    10.0.0.5/24 is rejected; 10.0.0.0/24 accepted)". *)
Definition SubnetCIDR (cidr : net.IPNet) : option error :=
  match net.Mask (net.IPNet_IP cidr) (net.IPNet_Mask cidr) with
  | Some nip =>
      if net.bytes_eqb nip (net.IPNet_IP cidr) then None
      else Some (errorString
                   ("invalid network address. got " ++ net.IPNet_String cidr
                    ++ ", expecting "
                    ++ net.IPNet_String (net.mkIPNet nip (net.IPNet_Mask cidr))))
  | None =>
      Some (errorString
              ("invalid network address. got " ++ net.IPNet_String cidr
               ++ ", expecting <nil>"))
  end.

End validate.

(** ** The install configuration: [types.InstallConfig]

    The platform section is kept abstract: the manifest code only hands it
    to [getVIPs]. *)

Module types.

Record MachinePool : Type := mkMachinePool {
  Replicas : option Z
}.

Record ClusterNetworkEntry : Type := mkClusterNetworkEntry {
  CIDR : ipnet.IPNet;
  HostPrefix : Z
}.

Record Networking : Type := mkNetworking {
  NetworkType : string;
  ClusterNetwork : list ClusterNetworkEntry;
  ServiceNetwork : list ipnet.IPNet
}.

Record InstallConfig (Platform : Type) : Type := mkInstallConfig {
  SSHKey : string;
  Networking_ : option Networking;
  ControlPlane : option MachinePool;
  Compute : list MachinePool;
  Platform_ : Platform
}.

Arguments mkInstallConfig {Platform}.
Arguments SSHKey {Platform}.
Arguments Networking_ {Platform}.
Arguments ControlPlane {Platform}.
Arguments Compute {Platform}.
Arguments Platform_ {Platform}.

(** The zero value, [&types.InstallConfig{}], over the zero value of the
    platform section. *)
Definition zero {Platform : Type} (zeroPlatform : Platform)
  : InstallConfig Platform :=
  {| SSHKey := ""; Networking_ := None; ControlPlane := None;
     Compute := []; Platform_ := zeroPlatform |}.

(** Assignment to the embedded [*Networking] pointer. *)
Definition setNetworking {Platform : Type} (c : InstallConfig Platform)
           (n : Networking) : InstallConfig Platform :=
  {| SSHKey := SSHKey c; Networking_ := Some n;
     ControlPlane := ControlPlane c; Compute := Compute c;
     Platform_ := Platform_ c |}.

End types.

Module defaults.

(** The system default network type; the comment above [setNetworkType]
    names it. *)
Definition defaultNetworkType : string := "OVNKubernetes".

(** Modelled from the spec: [defaults.SetInstallConfigDefaults] is not
    among the sources; it is the default-policy function that "mutates a
    (possibly blank) install configuration in place to populate its
    network type". *)
Definition SetInstallConfigDefaults {Platform : Type}
           (c : types.InstallConfig Platform) : types.InstallConfig Platform :=
  let n := match types.Networking_ c with
           | Some n => n
           | None => {| types.NetworkType := ""; types.ClusterNetwork := [];
                        types.ServiceNetwork := [] |}
           end in
  if String.eqb (types.NetworkType n) "" then
    types.setNetworking c
      {| types.NetworkType := defaultNetworkType;
         types.ClusterNetwork := types.ClusterNetwork n;
         types.ServiceNetwork := types.ServiceNetwork n |}
  else types.setNetworking c n.

End defaults.

Module asset.

Record File : Type := mkFile {
  Filename : string;
  Data : string
}.

(** [asset.FileFetcher]: the one method the loader calls, returning the
    file pointer and the error. *)
Record FileFetcher : Type := mkFileFetcher {
  FetchByName : string -> option File * option error
}.

End asset.

Module agent.

(** [agent.OptionalInstallConfig]: [Config] is nil when no install
    configuration was supplied. *)
Record OptionalInstallConfig (Platform : Type) : Type := mkOptionalInstallConfig {
  Config : option (types.InstallConfig Platform)
}.

Arguments mkOptionalInstallConfig {Platform}.
Arguments Config {Platform}.

End agent.

(** [field.ErrorList.ToAggregate]: nil for an empty list, otherwise the
    aggregate of the errors with the repeated messages dropped. *)
Fixpoint ToAggregate_loop (errs : field.ErrorList) (errorMsgs : list string)
  : list error :=
  match errs with
  | [] => []
  | err :: rest =>
      let msg := field.Error_String err in
      if existsb (String.eqb msg) errorMsgs then ToAggregate_loop rest errorMsgs
      else FieldError err :: ToAggregate_loop rest (msg :: errorMsgs)
  end.

Definition ToAggregate (errs : field.ErrorList) : option error :=
  match errs with
  | [] => None
  | _ => Some (Aggregate (ToAggregate_loop errs []))
  end.

(** ** The manifest asset: [manifests.AgentClusterInstall] *)

(** [AgentClusterInstall] generates the agent-cluster-install.yaml file;
    both fields are pointers. *)
Record AgentClusterInstall : Type := mkAsset {
  File : option asset.File;
  Config : option hiveext.AgentClusterInstall
}.

(** [Name] returns a human friendly name for the asset. *)
Definition Name (a : AgentClusterInstall) : string := "AgentClusterInstall Config".

(** [Files] returns the files generated by the asset. *)
Definition Files (a : AgentClusterInstall) : list asset.File :=
  match File a with
  | Some f => [f]
  | None => []
  end.

Definition isIPv6 (ipAddress : net.IP) : bool :=
  match net.To16 ipAddress with
  | Some _ => true
  | None => false
  end.

Definition fieldPath : field.Path :=
  field.NewPath "spec" ["networking"; "networkType"].
Definition clusterNetworkPath : field.Path :=
  field.NewPath "spec" ["networking"; "clusterNetwork"].
Definition serviceNetworkPath : field.Path :=
  field.NewPath "spec" ["networking"; "serviceNetwork"].

(** One round of a CIDR loop of the validator: the error list and the
    [hasIPv6] flag after the entry [cidr] has been looked at. *)
Definition checkCIDR (path : field.Path) (st : field.ErrorList * bool)
           (cidr : string) : field.ErrorList * bool :=
  let '(allErrs, hasIPv6) := st in
  let '(ip, _, errCIDR) := net.ParseCIDR cidr in
  let allErrs :=
    match errCIDR with
    | Some _ =>
        (allErrs ++ [field.Required path "error parsing the clusterNetwork CIDR"])%list
    | None => allErrs
    end in
  let hasIPv6 := if isIPv6 ip then true else hasIPv6 in
  (allErrs, hasIPv6).

Definition validateIPAddressAndNetworkType (a : AgentClusterInstall)
  : outcome field.ErrorList :=
  let allErrs : field.ErrorList := [] in
  config <- deref (Config a) ;;
  let networking := hiveext.Networking_ (hiveext.Spec config) in
  if String.eqb (hiveext.NetworkType networking) NetworkTypeOpenShiftSDN then
    let '(allErrs, hasIPv6) :=
      fold_left
        (fun st cn => checkCIDR clusterNetworkPath st (hiveext.CIDR cn))
        (hiveext.ClusterNetwork networking) (allErrs, false) in
    let allErrs :=
      if hasIPv6 then
        (allErrs ++ [field.Required fieldPath
           ("clusterNetwork CIDR is IPv6 and is not compatible with networkType "
            ++ NetworkTypeOpenShiftSDN)])%list
      else allErrs in
    let '(allErrs, hasIPv6) :=
      fold_left
        (fun st cidr => checkCIDR serviceNetworkPath st cidr)
        (hiveext.ServiceNetwork networking) (allErrs, false) in
    let allErrs :=
      if hasIPv6 then
        (allErrs ++ [field.Required fieldPath
           ("serviceNetwork CIDR is IPv6 and is not compatible with networkType "
            ++ NetworkTypeOpenShiftSDN)])%list
      else allErrs in
    Returned allErrs
  else Returned allErrs.

Definition finish (a : AgentClusterInstall) : outcome (option error) :=
  match Config a with
  | None => Returned (Some (errors.New "missing configuration or manifest file"))
  | Some _ =>
      errs <- validateIPAddressAndNetworkType a ;;
      match ToAggregate errs with
      | Some err => Returned (Some (errors.Wrap err "invalid NetworkType configured"))
      | None => Returned None
      end
  end.

(** The cutset of the SSH key trimming, ["|\n\t"]: the pipe, the newline
    and the tab. *)
Definition sshKeyCutset : string := String "|" (String "010" (String "009" "")).

(** The control-plane replica count as the builder reads it: the value
    behind [installConfig.Config.ControlPlane.Replicas] converted to [int],
    when both pointers are set. *)
Definition controlPlaneReplicas {Platform : Type}
           (config : types.InstallConfig Platform) : option Z :=
  match types.ControlPlane config with
  | Some controlPlane =>
      match types.Replicas controlPlane with
      | Some replicas => Some (wrap64 replicas)
      | None => None
      end
  | None => None
  end.

(** The install configuration of the single-node scenario: the given
    number of control-plane replicas, two compute pools of 3 replicas,
    the cluster network 10.128.0.0/14 with host prefix 23, the service
    network 172.30.0.0/16 and no network type. *)
Definition scenarioConfig {Platform : Type} (platform : Platform)
           (sshKey : string) (controlPlaneReplicas : Z)
  : agent.OptionalInstallConfig Platform :=
  {| agent.Config :=
       Some {| types.SSHKey := sshKey;
               types.Networking_ :=
                 Some {| types.NetworkType := "";
                         types.ClusterNetwork :=
                           [{| types.CIDR := net.mkIPNet [10; 128; 0; 0] [255; 252; 0; 0];
                               types.HostPrefix := 23 |}];
                         types.ServiceNetwork :=
                           [net.mkIPNet [172; 30; 0; 0] [255; 255; 0; 0]] |};
               types.ControlPlane := Some {| types.Replicas := Some controlPlaneReplicas |};
               types.Compute := [{| types.Replicas := Some 3 |};
                                 {| types.Replicas := Some 3 |}];
               types.Platform_ := platform |} |}.

Section Manifests.

(** The collaborators of the manifest code that live outside this file:
    the platform section of the install configuration with its zero
    value and its VIP accessor, the naming helpers of the package, the
    path of the manifest file and the YAML codec. *)
Variable Platform : Type.
Variable zeroPlatform : Platform.
Variable getVIPs : Platform -> string * string.
Variable getAgentClusterInstallName : agent.OptionalInstallConfig Platform -> string.
Variable getObjectMetaNamespace : agent.OptionalInstallConfig Platform -> string.
Variable getClusterImageSetReferenceName : string.
Variable getClusterDeploymentName : agent.OptionalInstallConfig Platform -> string.
Variable agentClusterInstallFilename : string.
Variable yaml_Marshal : hiveext.AgentClusterInstall -> string * option error.
Variable yaml_UnmarshalStrict : string -> hiveext.AgentClusterInstall * option error.

(** What a call of [setNetworkType] leaves behind: the descriptor and the
    install configuration behind the two pointers, and the lines
    logged. *)
Record resolved : Type := mkResolved {
  res_aci : hiveext.AgentClusterInstall;
  res_installConfig : option (types.InstallConfig Platform);
  res_log : list string
}.

(** Sets the default network type to OVNKubernetes if it is unspecified
    in the AgentClusterInstall or InstallConfig. *)
Definition setNetworkType (aci : hiveext.AgentClusterInstall)
           (installConfig : option (types.InstallConfig Platform))
           (warningMessage : string) : outcome resolved :=
  if negb (String.eqb
             (hiveext.NetworkType (hiveext.Networking_ (hiveext.Spec aci))) "")
  then Returned (mkResolved aci installConfig [])
  else
    let specified :=
      match installConfig with
      | Some c =>
          match types.Networking_ c with
          | Some n =>
              if negb (String.eqb (types.NetworkType n) "")
              then Some (types.NetworkType n) else None
          | None => None
          end
      | None => None
      end in
    match specified with
    | Some networkType =>
        Returned (mkResolved (hiveext.setNetworkTypeField aci networkType)
                             installConfig [])
    | None =>
        c <- deref installConfig ;;
        let c := defaults.SetInstallConfigDefaults c in
        n <- deref (types.Networking_ c) ;;
        Returned
          (mkResolved
             (hiveext.setNetworkTypeField aci (types.NetworkType n))
             (Some c)
             [warningMessage ++ " Defaulting NetworkType to "
              ++ types.NetworkType n ++ "."])
    end.

(** The worker count loop of [Generate]. *)
Fixpoint sumReplicas (compute : list types.MachinePool) (numberOfWorkers : Z)
  : outcome Z :=
  match compute with
  | [] => Returned numberOfWorkers
  | pool :: rest =>
      replicas <- deref (types.Replicas pool) ;;
      sumReplicas rest (wrap64 (numberOfWorkers + wrap64 replicas))
  end.

(** The cluster network loop of [Generate]: the first failure ends it. *)
Fixpoint clusterNetworkEntries (entries : list types.ClusterNetworkEntry)
         (clusterNetwork : list hiveext.ClusterNetworkEntry)
  : error + list hiveext.ClusterNetworkEntry :=
  match entries with
  | [] => inr clusterNetwork
  | cn :: rest =>
      match net.ParseCIDR (ipnet.String_ (types.CIDR cn)) with
      | (_, _, Some err) => inl (errors.Wrap err "failed to parse ClusterNetwork CIDR")
      | (_, None, None) =>
          inl (errors.Wrap (ParseError "CIDR address" (ipnet.String_ (types.CIDR cn)))
                           "failed to parse ClusterNetwork CIDR")
      | (_, Some cidr, None) =>
          match validate.SubnetCIDR cidr with
          | Some err => inl (errors.Wrap err "failed to validate ClusterNetwork CIDR")
          | None =>
              let entry := {| hiveext.CIDR := net.IPNet_String cidr;
                              hiveext.HostPrefix := types.HostPrefix cn |} in
              clusterNetworkEntries rest (clusterNetwork ++ [entry])%list
          end
      end
  end.

(** The service network loop of [Generate]. *)
Fixpoint serviceNetworkEntries (entries : list ipnet.IPNet)
         (serviceNetwork : list string) : error + list string :=
  match entries with
  | [] => inr serviceNetwork
  | sn :: rest =>
      match ipnet.ParseCIDR (ipnet.String_ sn) with
      | (_, Some err) => inl (errors.Wrap err "failed to parse ServiceNetwork CIDR")
      | (None, None) =>
          inl (errors.Wrap (ParseError "CIDR address" (ipnet.String_ sn))
                           "failed to parse ServiceNetwork CIDR")
      | (Some cidr, None) =>
          serviceNetworkEntries rest (serviceNetwork ++ [ipnet.String_ cidr])%list
      end
  end.

(** What a call of [Generate] leaves behind: the asset, the dependency
    (its configuration may have been given defaults), the lines logged
    and the error returned. *)
Record generated : Type := mkGenerated {
  gen_asset : AgentClusterInstall;
  gen_installConfig : agent.OptionalInstallConfig Platform;
  gen_log : list string;
  gen_err : option error
}.

(** [Generate] generates the AgentClusterInstall manifest. *)
Definition Generate (a : AgentClusterInstall)
           (installConfig : agent.OptionalInstallConfig Platform)
  : outcome generated :=
  match agent.Config installConfig with
  | Some config =>
      numberOfWorkers <- sumReplicas (types.Compute config) 0 ;;
      networking <- deref (types.Networking_ config) ;;
      match clusterNetworkEntries (types.ClusterNetwork networking) [] with
      | inl err => Returned (mkGenerated a installConfig [] (Some err))
      | inr clusterNetwork =>
          match serviceNetworkEntries (types.ServiceNetwork networking) [] with
          | inl err => Returned (mkGenerated a installConfig [] (Some err))
          | inr serviceNetwork =>
              controlPlane <- deref (types.ControlPlane config) ;;
              replicas <- deref (types.Replicas controlPlane) ;;
              let agentClusterInstall :=
                {| hiveext.ObjectMeta_ :=
                     {| hiveext.Name := getAgentClusterInstallName installConfig;
                        hiveext.Namespace := getObjectMetaNamespace installConfig |};
                   hiveext.Spec :=
                     {| hiveext.ImageSetRef := Some getClusterImageSetReferenceName;
                        hiveext.ClusterDeploymentRef :=
                          getClusterDeploymentName installConfig;
                        hiveext.Networking_ :=
                          {| hiveext.ClusterNetwork := clusterNetwork;
                             hiveext.ServiceNetwork := serviceNetwork;
                             hiveext.NetworkType := "" |};
                        hiveext.SSHPublicKey :=
                          strings.Trim (types.SSHKey config) sshKeyCutset;
                        hiveext.ProvisionRequirements_ :=
                          {| hiveext.ControlPlaneAgents := wrap64 replicas;
                             hiveext.WorkerAgents := numberOfWorkers |};
                        hiveext.APIVIP := "";
                        hiveext.IngressVIP := "" |} |} in
              r <- setNetworkType agentClusterInstall (Some config)
                     "NetworkType is not specified in InstallConfig." ;;
              let agentClusterInstall := res_aci r in
              config <- deref (res_installConfig r) ;;
              let installConfig := agent.mkOptionalInstallConfig (Some config) in
              let '(apiVIP, ingressVIP) := getVIPs (types.Platform_ config) in
              controlPlane <- deref (types.ControlPlane config) ;;
              replicas <- deref (types.Replicas controlPlane) ;;
              let agentClusterInstall :=
                if (1 <? wrap64 replicas) && negb (String.eqb apiVIP "")
                   && negb (String.eqb ingressVIP "")
                then hiveext.setVIPs agentClusterInstall apiVIP ingressVIP
                else agentClusterInstall in
              let a := {| File := File a; Config := Some agentClusterInstall |} in
              match yaml_Marshal agentClusterInstall with
              | (_, Some err) =>
                  Returned
                    (mkGenerated a installConfig (res_log r)
                       (Some (errors.Wrap err
                          "failed to marshal agent installer AgentClusterInstall")))
              | (agentClusterInstallData, None) =>
                  let a :=
                    {| File := Some {| asset.Filename := agentClusterInstallFilename;
                                       asset.Data := agentClusterInstallData |};
                       Config := Config a |} in
                  err <- finish a ;;
                  Returned (mkGenerated a installConfig (res_log r) err)
              end
          end
      end
  | None =>
      err <- finish a ;;
      Returned (mkGenerated a installConfig [] err)
  end.

(** What a call of [Load] leaves behind: the asset, the lines logged and
    the two results. *)
Record loaded : Type := mkLoaded {
  load_asset : AgentClusterInstall;
  load_log : list string;
  load_found : bool;
  load_err : option error
}.

(** [Load] returns agentclusterinstall asset from the disk. *)
Definition Load (a : AgentClusterInstall) (f : asset.FileFetcher)
  : outcome loaded :=
  let '(agentClusterInstallFile, err) :=
    asset.FetchByName f agentClusterInstallFilename in
  match err with
  | Some err =>
      if os.IsNotExist err then Returned (mkLoaded a [] false None)
      else Returned
             (mkLoaded a [] false
                (Some (errors.Wrap err
                   ("failed to load " ++ agentClusterInstallFilename ++ " file"))))
  | None =>
      let a := {| File := agentClusterInstallFile; Config := Config a |} in
      file <- deref agentClusterInstallFile ;;
      match yaml_UnmarshalStrict (asset.Data file) with
      | (_, Some err) =>
          Returned
            (mkLoaded a [] false
               (Some (errors.Wrap err
                  ("failed to unmarshal " ++ agentClusterInstallFilename))))
      | (agentClusterInstall, None) =>
          r <- setNetworkType agentClusterInstall
                 (Some (types.zero zeroPlatform))
                 "NetworkType is not specified in AgentClusterInstall." ;;
          let a := {| File := File a; Config := Some (res_aci r) |} in
          err <- finish a ;;
          match err with
          | Some err => Returned (mkLoaded a (res_log r) false (Some err))
          | None => Returned (mkLoaded a (res_log r) true None)
          end
      end
  end.

End Manifests.

Arguments mkResolved {Platform}.
Arguments res_aci {Platform}.
Arguments res_installConfig {Platform}.
Arguments res_log {Platform}.
Arguments setNetworkType {Platform}.
Arguments mkGenerated {Platform}.
Arguments gen_asset {Platform}.
Arguments gen_installConfig {Platform}.
Arguments gen_log {Platform}.
Arguments gen_err {Platform}.


(** ** Notions used in the statements *)

(** The network type that a descriptor carries. *)
Definition networkTypeOf (aci : hiveext.AgentClusterInstall) : string :=
  hiveext.NetworkType (hiveext.Networking_ (hiveext.Spec aci)).

(** The descriptor with the given networking block and all other fields at
    their zero values. *)
Definition descriptorWith (networkType : string)
           (clusterNetwork : list hiveext.ClusterNetworkEntry)
           (serviceNetwork : list string) : hiveext.AgentClusterInstall :=
  {| hiveext.ObjectMeta_ := hiveext.ObjectMeta_ hiveext.zero;
     hiveext.Spec :=
       {| hiveext.ImageSetRef := None;
          hiveext.ClusterDeploymentRef := "";
          hiveext.Networking_ :=
            {| hiveext.ClusterNetwork := clusterNetwork;
               hiveext.ServiceNetwork := serviceNetwork;
               hiveext.NetworkType := networkType |};
          hiveext.SSHPublicKey := "";
          hiveext.ProvisionRequirements_ :=
            hiveext.ProvisionRequirements_ (hiveext.Spec hiveext.zero);
          hiveext.APIVIP := "";
          hiveext.IngressVIP := "" |} |}.

(** Whether [net.ParseCIDR] rejects the text. *)
Definition unparsable (cidr : string) : bool :=
  match net.ParseCIDR cidr with
  | (_, _, Some _) => true
  | (_, _, None) => false
  end.

(** Whether [net.ParseCIDR] accepts the text, whatever the family. *)
Definition parsable (cidr : string) : bool := negb (unparsable cidr).

Inductive IPFamily : Type := IPv4 | IPv6 | invalid.

(** Modelled from the spec: the contract
    [classifyIPFamily(address) -> {IPv4, IPv6, invalid}] of the CIDR
    utilities; no function of that name is among the sources.  A text that
    does not parse is invalid, an address with a 4-byte form is IPv4, any
    other address is IPv6. *)
Definition classifyIPFamily (cidr : string) : IPFamily :=
  match net.ParseCIDR cidr with
  | (_, _, Some _) => invalid
  | (ip, _, None) =>
      match net.To4 ip with
      | Some _ => IPv4
      | None => IPv6
      end
  end.

Definition parseError (path : field.Path) : field.Error :=
  field.Required path "error parsing the clusterNetwork CIDR".

Definition clusterIncompatible : field.Error :=
  field.Required fieldPath
    "clusterNetwork CIDR is IPv6 and is not compatible with networkType OpenShiftSDN".

Definition serviceIncompatible : field.Error :=
  field.Required fieldPath
    "serviceNetwork CIDR is IPv6 and is not compatible with networkType OpenShiftSDN".

(** The error list of the validator for the restricted plugin, written
    out. *)
Definition restrictedErrors (clusterCIDRs serviceCIDRs : list string)
  : field.ErrorList :=
  (map (fun _ => parseError clusterNetworkPath) (filter unparsable clusterCIDRs)
   ++ (if existsb parsable clusterCIDRs then [clusterIncompatible] else [])
   ++ map (fun _ => parseError serviceNetworkPath) (filter unparsable serviceCIDRs)
   ++ (if existsb parsable serviceCIDRs then [serviceIncompatible] else []))%list.

(** ** Sample collaborators

    The simplest collaborators to run the builder and the loader with: a
    platform section that is just its pair of VIPs, constant names, a
    marshaller that never fails, and fetchers and a parser for the cases of
    the loader. *)

Definition pairPlatform : Type := (string * string)%type.

Definition pairVIPs (p : pairPlatform) : string * string := p.

Definition sampleName (_ : agent.OptionalInstallConfig pairPlatform) : string :=
  "cluster".

Definition sampleFilename : string := "cluster-manifests/agent-cluster-install.yaml".

Definition sampleMarshal (_ : hiveext.AgentClusterInstall) : string * option error :=
  ("", None).

Definition sampleGenerate : AgentClusterInstall ->
                            agent.OptionalInstallConfig pairPlatform ->
                            outcome (generated pairPlatform) :=
  Generate pairPlatform pairVIPs sampleName sampleName "openshift-v4" sampleName
    sampleFilename sampleMarshal.

(** A fetcher of a store without the manifest file, and one of a store that
    cannot be read. *)
Definition missingFetcher : asset.FileFetcher :=
  {| asset.FetchByName := fun name =>
       (None, Some (PathError "open" name ErrNotExist)) |}.

Definition brokenFetcher : asset.FileFetcher :=
  {| asset.FetchByName := fun name =>
       (None, Some (PathError "open" name (errorString "permission denied"))) |}.

(** A fetcher that returns a file with the given content. *)
Definition contentFetcher (data : string) : asset.FileFetcher :=
  {| asset.FetchByName := fun name =>
       (Some {| asset.Filename := name; asset.Data := data |}, None) |}.

(** A strict parser that knows three documents: a descriptor with the
    restricted plugin and an IPv6 cluster network, a descriptor without a
    network type, and anything else, which it rejects. *)
Definition sampleUnmarshalStrict (data : string)
  : hiveext.AgentClusterInstall * option error :=
  if String.eqb data "sdn-ipv6" then
    (descriptorWith NetworkTypeOpenShiftSDN
       [hiveext.mkClusterNetworkEntry "fd01::/48" 64] [], None)
  else if String.eqb data "untyped" then
    (descriptorWith "" [hiveext.mkClusterNetworkEntry "fd01::/48" 64]
       ["172.30.0.0/16"], None)
  else (hiveext.zero, Some (errorString "unknown field")).

Definition sampleLoad : AgentClusterInstall -> asset.FileFetcher -> outcome loaded :=
  Load pairPlatform ("", "") sampleFilename sampleUnmarshalStrict.

(** ** Notions used in the further statements *)

(** The network type that an install configuration specifies, the empty
    string when it has no networking block. *)
Definition specifiedNetworkType {Platform : Type}
           (c : types.InstallConfig Platform) : string :=
  match types.Networking_ c with
  | Some n => types.NetworkType n
  | None => ""
  end.

(** The three tiers of the resolver: the type of the descriptor, else the
    type of the install configuration, else the default. *)
Definition resolvedNetworkType {Platform : Type}
           (aci : hiveext.AgentClusterInstall)
           (c : types.InstallConfig Platform) : string :=
  if negb (String.eqb (networkTypeOf aci) "") then networkTypeOf aci
  else if negb (String.eqb (specifiedNetworkType c) "") then specifiedNetworkType c
       else defaults.defaultNetworkType.

(** Whether the resolver has to fall back on the default. *)
Definition defaulted {Platform : Type} (aci : hiveext.AgentClusterInstall)
           (c : types.InstallConfig Platform) : bool :=
  String.eqb (networkTypeOf aci) "" && String.eqb (specifiedNetworkType c) "".

(** Sum of a list of integers. *)
Definition sumZ (l : list Z) : Z := fold_right Z.add 0 l.

(** The replica counts of the compute pools, when every pool has one. *)
Fixpoint computeReplicas (compute : list types.MachinePool) : option (list Z) :=
  match compute with
  | [] => Some []
  | pool :: rest =>
      match types.Replicas pool, computeReplicas rest with
      | Some r, Some rs => Some (r :: rs)
      | _, _ => None
      end
  end.

(** The range of a Go [int64]. *)
Definition int64 (z : Z) : Prop := - 2 ^ 63 <= z < 2 ^ 63.

(** The descriptor that the builder assembles before it resolves the
    network type and assigns the VIPs, and the VIP assignment under its
    guard. *)
Definition baseDescriptor (name namespace imageSet clusterDeployment : string)
           (clusterNetwork : list hiveext.ClusterNetworkEntry)
           (serviceNetwork : list string) (sshKey : string)
           (controlPlaneAgents workerAgents : Z) : hiveext.AgentClusterInstall :=
  {| hiveext.ObjectMeta_ := {| hiveext.Name := name; hiveext.Namespace := namespace |};
     hiveext.Spec :=
       {| hiveext.ImageSetRef := Some imageSet;
          hiveext.ClusterDeploymentRef := clusterDeployment;
          hiveext.Networking_ :=
            {| hiveext.ClusterNetwork := clusterNetwork;
               hiveext.ServiceNetwork := serviceNetwork;
               hiveext.NetworkType := "" |};
          hiveext.SSHPublicKey := strings.Trim sshKey sshKeyCutset;
          hiveext.ProvisionRequirements_ :=
            {| hiveext.ControlPlaneAgents := controlPlaneAgents;
               hiveext.WorkerAgents := workerAgents |};
          hiveext.APIVIP := "";
          hiveext.IngressVIP := "" |} |}.

Definition withVIPs (replicas : Z) (vips : string * string)
           (aci : hiveext.AgentClusterInstall) : hiveext.AgentClusterInstall :=
  if (1 <? replicas) && negb (String.eqb (fst vips) "")
     && negb (String.eqb (snd vips) "")
  then hiveext.setVIPs aci (fst vips) (snd vips)
  else aci.

(** ** Further sample collaborators *)

(** A fetcher that returns neither a file nor an error. *)
Definition emptyFetcher : asset.FileFetcher :=
  {| asset.FetchByName := fun _ => (None, None) |}.

(** A marshaller that always fails. *)
Definition failingMarshal (_ : hiveext.AgentClusterInstall) : string * option error :=
  ("", Some (errorString "cannot marshal")).

Definition failingGenerate : AgentClusterInstall ->
                             agent.OptionalInstallConfig pairPlatform ->
                             outcome (generated pairPlatform) :=
  Generate pairPlatform pairVIPs sampleName sampleName "openshift-v4" sampleName
    sampleFilename failingMarshal.

(** The scenario with a cluster network that was never set: the zero value
    of a network prints as ["<nil>"]. *)
Definition unsetNetworkConfig : agent.OptionalInstallConfig pairPlatform :=
  {| agent.Config :=
       Some {| types.SSHKey := "";
               types.Networking_ :=
                 Some {| types.NetworkType := "";
                         types.ClusterNetwork :=
                           [{| types.CIDR := net.mkIPNet [] [];
                               types.HostPrefix := 23 |}];
                         types.ServiceNetwork := [] |};
               types.ControlPlane := Some {| types.Replicas := Some 1 |};
               types.Compute := [];
               types.Platform_ := ("", "") |} |}.

(** A configuration with a compute pool that has no replica count, and one
    without a control plane. *)
Definition nilReplicasConfig : agent.OptionalInstallConfig pairPlatform :=
  {| agent.Config :=
       Some {| types.SSHKey := "";
               types.Networking_ := None;
               types.ControlPlane := Some {| types.Replicas := Some 1 |};
               types.Compute := [{| types.Replicas := Some 2 |};
                                 {| types.Replicas := None |}];
               types.Platform_ := ("", "") |} |}.

Definition noControlPlaneConfig : agent.OptionalInstallConfig pairPlatform :=
  {| agent.Config :=
       Some {| types.SSHKey := "";
               types.Networking_ :=
                 Some {| types.NetworkType := ""; types.ClusterNetwork := [];
                         types.ServiceNetwork := [net.mkIPNet [] []] |};
               types.ControlPlane := None;
               types.Compute := [];
               types.Platform_ := ("", "") |} |}.

(** The scenario with three control-plane replicas, one compute pool of 2
    replicas and the network type OVNKubernetes specified. *)
Definition typedScenarioConfig : agent.OptionalInstallConfig pairPlatform :=
  {| agent.Config :=
       Some {| types.SSHKey := "ssh-rsa AAAA";
               types.Networking_ :=
                 Some {| types.NetworkType := "OVNKubernetes";
                         types.ClusterNetwork :=
                           [{| types.CIDR := net.mkIPNet [10; 128; 0; 0] [255; 252; 0; 0];
                               types.HostPrefix := 23 |}];
                         types.ServiceNetwork :=
                           [net.mkIPNet [172; 30; 0; 0] [255; 255; 0; 0]] |};
               types.ControlPlane := Some {| types.Replicas := Some 3 |};
               types.Compute := [{| types.Replicas := Some 2 |}];
               types.Platform_ := ("192.168.1.10", "192.168.1.11") |} |}.

(** The descriptor that the sample builder builds from a configuration,
    the zero descriptor when it builds none; a fetcher of the file that it
    recorded; and a strict parser that reads that descriptor back. *)
Definition builtDescriptor (installConfig : agent.OptionalInstallConfig pairPlatform)
  : hiveext.AgentClusterInstall :=
  match sampleGenerate (mkAsset None None) installConfig with
  | Returned r =>
      match Config (gen_asset r) with
      | Some d => d
      | None => hiveext.zero
      end
  | Panic => hiveext.zero
  end.

Definition builtFetcher (installConfig : agent.OptionalInstallConfig pairPlatform)
  : asset.FileFetcher :=
  {| asset.FetchByName := fun _ =>
       match sampleGenerate (mkAsset None None) installConfig with
       | Returned r => (File (gen_asset r), None)
       | Panic => (None, None)
       end |}.

Definition builtLoad (installConfig : agent.OptionalInstallConfig pairPlatform)
  : AgentClusterInstall -> asset.FileFetcher -> outcome loaded :=
  Load pairPlatform ("", "") sampleFilename
    (fun _ => (builtDescriptor installConfig, None)).

(** * Properties *)

(** ** CIDR parsing *)

(** A round of the group loop that goes on has written two more bytes. *)
Lemma parseIPv6_step_continue (s : list ascii) (ip : list Z) (ellipsis : option nat)
      (s' : list ascii) (ip' : list Z) (ellipsis' : option nat) :
  net.parseIPv6_step s ip ellipsis = net.Continue s' ip' ellipsis' ->
  List.length ip' = (List.length ip + 2)%nat.
Proof.
  unfold net.parseIPv6_step.
  repeat match goal with
         | |- context [match ?x with _ => _ end] => destruct x
         end;
    try discriminate;
    intros [= <- <- <-]; rewrite length_app; reflexivity.
Qed.

(** The group loop does not run out of rounds: with enough of them to reach
    sixteen bytes, one more changes nothing.  Eight are enough from the
    start. *)
Lemma parseIPv6_loop_fuel (fuel : nat) :
  forall (s : list ascii) (ip : list Z) (ellipsis : option nat),
    (16 <= List.length ip + 2 * fuel)%nat ->
    net.parseIPv6_loop (S fuel) s ip ellipsis = net.parseIPv6_loop fuel s ip ellipsis.
Proof.
  induction fuel as [|fuel IH]; intros s ip ellipsis Hlen.
  - cbn [net.parseIPv6_loop]. unfold net.parseIPv6_step.
    destruct (Nat.ltb_spec (List.length ip) 16) as [Hlt|_]; [lia|reflexivity].
  - change (net.parseIPv6_loop (S (S fuel)) s ip ellipsis)
      with (match net.parseIPv6_step s ip ellipsis with
            | net.Exit r => r
            | net.Continue s' ip' ellipsis' =>
                net.parseIPv6_loop (S fuel) s' ip' ellipsis'
            end).
    change (net.parseIPv6_loop (S fuel) s ip ellipsis)
      with (match net.parseIPv6_step s ip ellipsis with
            | net.Exit r => r
            | net.Continue s' ip' ellipsis' =>
                net.parseIPv6_loop fuel s' ip' ellipsis'
            end).
    destruct (net.parseIPv6_step s ip ellipsis) as [r|s' ip' ellipsis'] eqn:Hstep;
      [reflexivity|].
    apply IH. rewrite (parseIPv6_step_continue _ _ _ _ _ _ Hstep). lia.
Qed.

(** ** The validator *)

Lemma Mask_length (ip : net.IP) (m : net.IPMask) (out : net.IP) :
  net.Mask ip m = Some out ->
  (List.length m = 4%nat \/ List.length m = 16%nat) ->
  List.length ip = 4%nat \/ List.length ip = 16%nat.
Proof.
  unfold net.Mask, net.IPv4len, net.IPv6len.
  intros H Hm.
  destruct (Nat.eqb_spec (List.length ip) 4) as [|N4]; [now left|].
  destruct (Nat.eqb_spec (List.length ip) 16) as [|N16]; [now right|].
  exfalso.
  rewrite andb_false_r in H; cbn [andb] in H.
  rewrite andb_false_r in H; cbn [andb] in H.
  destruct (Nat.eqb_spec (List.length ip) (List.length m)); [|discriminate].
  lia.
Qed.

Lemma CIDRMask_bytes_length (l : nat) (n : Z) :
  List.length (net.CIDRMask_bytes l n) = l.
Proof.
  revert n; induction l as [|l IH]; intros n; cbn; [reflexivity|].
  destruct (8 <=? n); cbn; now rewrite IH.
Qed.

Lemma CIDRMask_length (ones bits : Z) (m : net.IPMask) :
  net.CIDRMask ones bits = Some m ->
  List.length m = 4%nat \/ List.length m = 16%nat.
Proof.
  unfold net.CIDRMask.
  destruct (Z.eqb_spec bits 32) as [->|]; cbn [negb andb].
  - destruct (_ || _); [discriminate|].
    intros H; left.
    replace m with (net.CIDRMask_bytes (Z.to_nat (32 / 8)) ones) by congruence.
    now rewrite CIDRMask_bytes_length.
  - destruct (Z.eqb_spec bits 128) as [->|]; cbn [negb andb]; [|discriminate].
    destruct (_ || _); [discriminate|].
    intros H; right.
    replace m with (net.CIDRMask_bytes (Z.to_nat (128 / 8)) ones) by congruence.
    now rewrite CIDRMask_bytes_length.
Qed.

(** A text that [net.ParseCIDR] accepts yields an address of 4 or 16 bytes,
    a text that it rejects yields the nil address. *)
Lemma ParseCIDR_address (s : string) :
  match net.ParseCIDR s with
  | (ip, _, None) => List.length ip = 4%nat \/ List.length ip = 16%nat
  | (ip, _, Some _) => ip = []
  end.
Proof.
  unfold net.ParseCIDR.
  destruct (net.cut _ _) as [[addr mask]|]; [|reflexivity].
  destruct (net.ParseAddr addr) as [[[addr16 bitLen] [|z zone]]|];
    try reflexivity.
  destruct (net.dtoi mask) as [[n i] ok].
  destruct (_ || _); [reflexivity|].
  destruct (net.CIDRMask n bitLen) as [m|] eqn:Hm; [|reflexivity].
  destruct (net.Mask addr16 m) as [network|] eqn:Hk; [|reflexivity].
  eapply Mask_length; [exact Hk|].
  eapply CIDRMask_length; exact Hm.
Qed.

(** [isIPv6] answers true for every address that [net.ParseCIDR] returns
    without an error, and false for the nil address of a failed parse. *)
Lemma isIPv6_ParseCIDR (s : string) :
  isIPv6 (fst (fst (net.ParseCIDR s))) = parsable s.
Proof.
  unfold parsable, unparsable.
  pose proof (ParseCIDR_address s) as H.
  destruct (net.ParseCIDR s) as [[ip n] [e|]]; cbn [fst negb].
  - now subst ip.
  - unfold isIPv6, net.To16, net.IPv4len, net.IPv6len.
    destruct H as [-> | ->]; reflexivity.
Qed.

(** One round of a CIDR loop: a parse error when the entry is rejected, the
    flag raised when it is accepted. *)
Lemma checkCIDR_step (path : field.Path) (c : string)
      (allErrs : field.ErrorList) (hasIPv6 : bool) :
  checkCIDR path (allErrs, hasIPv6) c
  = ((allErrs ++ (if unparsable c then [parseError path] else []))%list,
     hasIPv6 || parsable c).
Proof.
  unfold checkCIDR.
  pose proof (isIPv6_ParseCIDR c) as Hv.
  unfold parsable in *. unfold unparsable in *.
  destruct (net.ParseCIDR c) as [[ip n] [e|]]; cbn [fst negb] in *; rewrite Hv.
  - now rewrite orb_false_r.
  - rewrite app_nil_r. now destruct hasIPv6.
Qed.

(** A CIDR loop of the validator adds one parse error per rejected entry,
    in order, and raises the flag when some entry is accepted. *)
Lemma checkCIDR_fold (path : field.Path) (cidrs : list string)
      (allErrs : field.ErrorList) (hasIPv6 : bool) :
  fold_left (checkCIDR path) cidrs (allErrs, hasIPv6)
  = ((allErrs ++ map (fun _ => parseError path) (filter unparsable cidrs))%list,
     hasIPv6 || existsb parsable cidrs).
Proof.
  revert allErrs hasIPv6.
  induction cidrs as [|c rest IH]; intros allErrs hasIPv6; cbn [fold_left].
  - cbn. now rewrite app_nil_r, orb_false_r.
  - rewrite checkCIDR_step, IH. cbn [filter existsb].
    rewrite <- app_assoc, orb_assoc.
    now destruct (unparsable c).
Qed.

Lemma fold_left_map_CIDR (path : field.Path)
      (entries : list hiveext.ClusterNetworkEntry) (st : field.ErrorList * bool) :
  fold_left (fun st cn => checkCIDR path st (hiveext.CIDR cn)) entries st
  = fold_left (checkCIDR path) (map hiveext.CIDR entries) st.
Proof.
  revert st; induction entries as [|cn rest IH]; intros st; cbn; auto.
Qed.

Lemma validate_restricted (a : AgentClusterInstall)
      (config : hiveext.AgentClusterInstall) :
  Config a = Some config ->
  hiveext.NetworkType (hiveext.Networking_ (hiveext.Spec config))
  = NetworkTypeOpenShiftSDN ->
  validateIPAddressAndNetworkType a
  = Returned
      (restrictedErrors
         (map hiveext.CIDR
              (hiveext.ClusterNetwork (hiveext.Networking_ (hiveext.Spec config))))
         (hiveext.ServiceNetwork (hiveext.Networking_ (hiveext.Spec config)))).
Proof.
  intros Ha Ht.
  unfold validateIPAddressAndNetworkType, restrictedErrors.
  rewrite Ha; cbn [deref bind].
  rewrite Ht, String.eqb_refl.
  rewrite fold_left_map_CIDR, checkCIDR_fold.
  cbn [orb app].
  destruct (existsb parsable (map hiveext.CIDR _)).
  - rewrite checkCIDR_fold. cbn [orb].
    destruct (existsb parsable _); cbn [app];
      rewrite <- ?app_assoc; cbn [app]; try reflexivity.
    now rewrite app_nil_r.
  - rewrite checkCIDR_fold. cbn [orb app].
    destruct (existsb parsable _); cbn [app];
      rewrite <- ?app_assoc; cbn [app]; try reflexivity.
    now rewrite app_nil_r.
Qed.

(** Without the restricted plugin the validator looks at no CIDR. *)
Lemma validate_unrestricted (a : AgentClusterInstall)
      (config : hiveext.AgentClusterInstall) :
  Config a = Some config ->
  hiveext.NetworkType (hiveext.Networking_ (hiveext.Spec config))
  <> NetworkTypeOpenShiftSDN ->
  validateIPAddressAndNetworkType a = Returned [].
Proof.
  intros Ha Ht.
  unfold validateIPAddressAndNetworkType.
  rewrite Ha; cbn [deref bind].
  destruct (String.eqb_spec
              (hiveext.NetworkType (hiveext.Networking_ (hiveext.Spec config)))
              NetworkTypeOpenShiftSDN) as [E|_]; [contradiction|reflexivity].
Qed.

Lemma countAt_app (t : field.ErrorType) (p : field.Path) (l1 l2 : field.ErrorList) :
  field.countAt t p (l1 ++ l2)%list = (field.countAt t p l1 + field.countAt t p l2)%nat.
Proof.
  unfold field.countAt. now rewrite filter_app, length_app.
Qed.

Lemma countAt_const (t : field.ErrorType) (p : field.Path) (e : field.Error)
      (A : Type) (l : list A) :
  field.countAt t p (map (fun _ => e) l)
  = if field.ErrorType_eqb (field.Type_ e) t
       && String.eqb (field.Field e) (field.Path_String p)
    then List.length l else 0%nat.
Proof.
  unfold field.countAt.
  induction l as [|x l IH]; cbn [map filter].
  - now destruct (_ && _).
  - destruct (_ && _); cbn [List.length]; [now rewrite IH | exact IH].
Qed.

(** C1, at a failing input.  With the restricted plugin (OpenShiftSDN), one
    cluster network 10.128.0.0/14 and one service network 172.30.0.0/16,
    both of which classify as IPv4, the validator does not return the empty
    list: it reports the cluster-network and the service-network
    incompatibility errors at the network-type field path, because
    [isIPv6] answers true for every address that parses. *)
Theorem validate_flags_IPv4_ranges_as_IPv6 :
  classifyIPFamily "10.128.0.0/14" = IPv4
  /\ classifyIPFamily "172.30.0.0/16" = IPv4
  /\ validateIPAddressAndNetworkType
       (mkAsset None
          (Some (descriptorWith NetworkTypeOpenShiftSDN
                   [hiveext.mkClusterNetworkEntry "10.128.0.0/14" 23]
                   ["172.30.0.0/16"])))
     = Returned [clusterIncompatible; serviceIncompatible].
Proof.
  repeat split; vm_compute; reflexivity.
Qed.

(** C2.  With the restricted plugin, the single cluster network fd01::/48
    and no service network, the validator returns exactly one error; it is
    at the network-type field path, and no error is at the cluster-network
    field path. *)
Theorem validate_IPv6_cluster_network_scenario :
  exists errs : field.ErrorList,
    validateIPAddressAndNetworkType
      (mkAsset None
         (Some (descriptorWith NetworkTypeOpenShiftSDN
                  [hiveext.mkClusterNetworkEntry "fd01::/48" 64] [])))
    = Returned errs
    /\ List.length errs = 1%nat
    /\ field.countAt field.ErrorTypeRequired fieldPath errs = 1%nat
    /\ field.countAt field.ErrorTypeRequired clusterNetworkPath errs = 0%nat
    /\ classifyIPFamily "fd01::/48" = IPv6.
Proof.
  exists [clusterIncompatible].
  repeat split; vm_compute; reflexivity.
Qed.

(** C3.  For a descriptor whose network type is not the restricted plugin
    identifier, the validator returns the empty error list, whatever the
    cluster-network and service-network CIDRs are. *)
Theorem validate_other_network_type_empty :
  forall (a : AgentClusterInstall) (config : hiveext.AgentClusterInstall),
    Config a = Some config ->
    hiveext.NetworkType (hiveext.Networking_ (hiveext.Spec config))
    <> NetworkTypeOpenShiftSDN ->
    validateIPAddressAndNetworkType a = Returned [].
Proof.
  exact validate_unrestricted.
Qed.

Lemma validate_other_network_type_empty_witness :
  validateIPAddressAndNetworkType
    (mkAsset None
       (Some (descriptorWith "OVNKubernetes"
                [hiveext.mkClusterNetworkEntry "fd01::/48" 64;
                 hiveext.mkClusterNetworkEntry "not a range" 0]
                ["172.30.0.0/16"; "fd02::/112"])))
  = Returned [].
Proof.
  apply (validate_other_network_type_empty
           (mkAsset None
              (Some (descriptorWith "OVNKubernetes"
                       [hiveext.mkClusterNetworkEntry "fd01::/48" 64;
                        hiveext.mkClusterNetworkEntry "not a range" 0]
                       ["172.30.0.0/16"; "fd02::/112"])))
           (descriptorWith "OVNKubernetes"
              [hiveext.mkClusterNetworkEntry "fd01::/48" 64;
               hiveext.mkClusterNetworkEntry "not a range" 0]
              ["172.30.0.0/16"; "fd02::/112"])).
  - reflexivity.
  - vm_compute. discriminate.
Defined.

(** C4.  For a descriptor with the restricted plugin the validator always
    returns, and the number of required-field errors that it reports at
    the cluster-network field path is the number of cluster-network
    entries whose CIDR does not parse; likewise for the service-network
    field path and the service-network entries. *)
Theorem validate_counts_parse_failures :
  forall (a : AgentClusterInstall) (config : hiveext.AgentClusterInstall),
    Config a = Some config ->
    hiveext.NetworkType (hiveext.Networking_ (hiveext.Spec config))
    = NetworkTypeOpenShiftSDN ->
    exists errs : field.ErrorList,
      validateIPAddressAndNetworkType a = Returned errs
      /\ field.countAt field.ErrorTypeRequired clusterNetworkPath errs
         = List.length
             (filter (fun cn => unparsable (hiveext.CIDR cn))
                (hiveext.ClusterNetwork (hiveext.Networking_ (hiveext.Spec config))))
      /\ field.countAt field.ErrorTypeRequired serviceNetworkPath errs
         = List.length
             (filter unparsable
                (hiveext.ServiceNetwork (hiveext.Networking_ (hiveext.Spec config)))).
Proof.
  intros a config Ha Ht.
  eexists; split; [exact (validate_restricted a config Ha Ht)|].
  unfold restrictedErrors.
  rewrite !countAt_app, !countAt_const.
  set (cs := hiveext.ClusterNetwork _).
  set (ss := hiveext.ServiceNetwork _).
  assert (Hc : List.length (filter unparsable (map hiveext.CIDR cs))
               = List.length (filter (fun cn => unparsable (hiveext.CIDR cn)) cs)).
  { induction cs as [|c cs IH]; cbn [map filter]; [reflexivity|].
    destruct (unparsable (hiveext.CIDR c)); cbn [List.length]; now rewrite IH. }
  rewrite Hc.
  change (field.ErrorType_eqb (field.Type_ (parseError clusterNetworkPath))
            field.ErrorTypeRequired
          && (field.Field (parseError clusterNetworkPath)
              =? field.Path_String clusterNetworkPath)%string) with true.
  change (field.ErrorType_eqb (field.Type_ (parseError serviceNetworkPath))
            field.ErrorTypeRequired
          && (field.Field (parseError serviceNetworkPath)
              =? field.Path_String serviceNetworkPath)%string) with true.
  change (field.ErrorType_eqb (field.Type_ (parseError serviceNetworkPath))
            field.ErrorTypeRequired
          && (field.Field (parseError serviceNetworkPath)
              =? field.Path_String clusterNetworkPath)%string) with false.
  change (field.ErrorType_eqb (field.Type_ (parseError clusterNetworkPath))
            field.ErrorTypeRequired
          && (field.Field (parseError clusterNetworkPath)
              =? field.Path_String serviceNetworkPath)%string) with false.
  cbv iota.
  assert (Hi1 : forall b : bool,
             field.countAt field.ErrorTypeRequired clusterNetworkPath
               (if b then [clusterIncompatible] else []) = 0%nat)
    by (intros [|]; reflexivity).
  assert (Hi2 : forall b : bool,
             field.countAt field.ErrorTypeRequired clusterNetworkPath
               (if b then [serviceIncompatible] else []) = 0%nat)
    by (intros [|]; reflexivity).
  assert (Hi3 : forall b : bool,
             field.countAt field.ErrorTypeRequired serviceNetworkPath
               (if b then [clusterIncompatible] else []) = 0%nat)
    by (intros [|]; reflexivity).
  assert (Hi4 : forall b : bool,
             field.countAt field.ErrorTypeRequired serviceNetworkPath
               (if b then [serviceIncompatible] else []) = 0%nat)
    by (intros [|]; reflexivity).
  rewrite !Hi1, !Hi2, !Hi3, !Hi4.
  split; lia.
Qed.

Lemma validate_counts_parse_failures_witness :
  exists errs : field.ErrorList,
    validateIPAddressAndNetworkType
      (mkAsset None
         (Some (descriptorWith NetworkTypeOpenShiftSDN
                  [hiveext.mkClusterNetworkEntry "10.128.0.0/14" 23;
                   hiveext.mkClusterNetworkEntry "10.128.0.0" 23]
                  ["172.30.0.0/16"; "172.30.0.0/33"; "fd02::/200"])))
    = Returned errs
    /\ field.countAt field.ErrorTypeRequired clusterNetworkPath errs = 1%nat
    /\ field.countAt field.ErrorTypeRequired serviceNetworkPath errs = 2%nat.
Proof.
  exact (validate_counts_parse_failures
           (mkAsset None
              (Some (descriptorWith NetworkTypeOpenShiftSDN
                       [hiveext.mkClusterNetworkEntry "10.128.0.0/14" 23;
                        hiveext.mkClusterNetworkEntry "10.128.0.0" 23]
                       ["172.30.0.0/16"; "172.30.0.0/33"; "fd02::/200"])))
           (descriptorWith NetworkTypeOpenShiftSDN
              [hiveext.mkClusterNetworkEntry "10.128.0.0/14" 23;
               hiveext.mkClusterNetworkEntry "10.128.0.0" 23]
              ["172.30.0.0/16"; "172.30.0.0/33"; "fd02::/200"])
           eq_refl eq_refl).
Defined.

(** ** Trimming *)

Lemma append_assoc (a b c : string) : (a ++ b) ++ c = a ++ b ++ c.
Proof.
  induction a as [|x a IH]; cbn; [reflexivity|now rewrite IH].
Qed.

Section Trim.

Variable cutset : string.

Lemma TrimLeft_split (s : string) :
  exists pre : string,
    s = pre ++ strings.TrimLeft s cutset
    /\ strings.allIn cutset pre = true
    /\ strings.startsClean cutset (strings.TrimLeft s cutset) = true.
Proof.
  induction s as [|c rest IH].
  - exists "". now cbn.
  - cbn [strings.TrimLeft].
    destruct (strings.inCutset cutset c) eqn:Hc.
    + destruct IH as (pre & Hs & Hpre & Hclean).
      exists (String c pre). cbn. rewrite Hc, Hpre. repeat split; auto.
      now rewrite <- Hs.
    + exists "". cbn. unfold strings.startsClean. cbn. now rewrite Hc.
Qed.

Lemma TrimRight_split (s : string) :
  exists suf : string,
    s = strings.TrimRight s cutset ++ suf
    /\ strings.allIn cutset suf = true
    /\ strings.endsClean cutset (strings.TrimRight s cutset) = true.
Proof.
  induction s as [|c rest IH].
  - exists "". now cbn.
  - destruct IH as (suf & Hs & Hsuf & Hclean).
    cbn [strings.TrimRight].
    destruct (strings.TrimRight rest cutset) as [|k kept] eqn:Hk.
    + cbn in Hs. subst suf.
      destruct (strings.inCutset cutset c) eqn:Hc.
      * exists (String c rest). cbn. rewrite Hc, Hsuf. now repeat split.
      * exists rest. cbn. unfold strings.endsClean. cbn. rewrite Hc.
        now repeat split.
    + exists suf.
      split; [cbn; now rewrite Hs | split; [exact Hsuf | exact Hclean]].
Qed.

(** What [TrimLeft] keeps ends as the string ends. *)
Lemma TrimLeft_endsClean (s : string) :
  strings.endsClean cutset s = true ->
  strings.endsClean cutset (strings.TrimLeft s cutset) = true.
Proof.
  unfold strings.endsClean.
  induction s as [|c rest IH]; [reflexivity|].
  cbn [strings.TrimLeft].
  destruct (strings.inCutset cutset c); [|trivial].
  destruct rest as [|k kept]; [reflexivity|].
  exact IH.
Qed.

Lemma TrimLeft_clean (s : string) :
  strings.startsClean cutset s = true -> strings.TrimLeft s cutset = s.
Proof.
  destruct s as [|c rest]; [reflexivity|].
  unfold strings.startsClean; cbn.
  now destruct (strings.inCutset cutset c).
Qed.

Lemma TrimRight_clean (s : string) :
  strings.endsClean cutset s = true -> strings.TrimRight s cutset = s.
Proof.
  unfold strings.endsClean.
  induction s as [|c rest IH]; [reflexivity|].
  cbn [strings.TrimRight strings.last].
  destruct rest as [|k kept].
  - cbn. now destruct (strings.inCutset cutset c).
  - intros H. rewrite (IH H). reflexivity.
Qed.

(** [Trim] removes a run of cutset bytes from each end and nothing else,
    and what it returns has no cutset byte at either end. *)
Lemma Trim_split (s : string) :
  exists pre suf : string,
    s = pre ++ strings.Trim s cutset ++ suf
    /\ strings.allIn cutset pre = true
    /\ strings.allIn cutset suf = true
    /\ strings.startsClean cutset (strings.Trim s cutset) = true
    /\ strings.endsClean cutset (strings.Trim s cutset) = true.
Proof.
  unfold strings.Trim.
  destruct (TrimRight_split s) as (suf & Hs & Hsuf & Hend).
  destruct (TrimLeft_split (strings.TrimRight s cutset)) as (pre & Ht & Hpre & Hstart).
  exists pre, suf. repeat split; auto.
  - rewrite <- append_assoc, <- Ht. exact Hs.
  - now apply TrimLeft_endsClean.
Qed.

(** Trimming what [Trim] returned changes nothing. *)
Lemma Trim_idempotent (s : string) :
  strings.Trim (strings.Trim s cutset) cutset = strings.Trim s cutset.
Proof.
  destruct (Trim_split s) as (pre & suf & _ & _ & _ & Hstart & Hend).
  unfold strings.Trim at 1.
  rewrite (TrimRight_clean _ Hend).
  now apply TrimLeft_clean.
Qed.

End Trim.

(** ** Network type resolution *)

Section Resolver.

Variable Platform : Type.

Lemma setNetworkTypeField_networkType (aci : hiveext.AgentClusterInstall) (t : string) :
  networkTypeOf (hiveext.setNetworkTypeField aci t) = t.
Proof. reflexivity. Qed.

(** A descriptor that carries a network type is left as it is: nothing is
    written to either object and nothing is logged. *)
Lemma setNetworkType_populated (aci : hiveext.AgentClusterInstall)
      (installConfig : option (types.InstallConfig Platform))
      (warningMessage : string) :
  networkTypeOf aci <> "" ->
  setNetworkType aci installConfig warningMessage
  = Returned (mkResolved aci installConfig []).
Proof.
  intros H. unfold setNetworkType. fold (networkTypeOf aci).
  destruct (String.eqb_spec (networkTypeOf aci) ""); [contradiction|reflexivity].
Qed.

(** The default policy leaves a networking block with a network type. *)
Lemma SetInstallConfigDefaults_networkType (c : types.InstallConfig Platform) :
  exists n : types.Networking,
    types.Networking_ (defaults.SetInstallConfigDefaults c) = Some n
    /\ types.NetworkType n <> "".
Proof.
  unfold defaults.SetInstallConfigDefaults.
  destruct (types.Networking_ c) as [n|]; cbn.
  - destruct (String.eqb_spec (types.NetworkType n) "").
    + eexists; split; [reflexivity|]. cbn. discriminate.
    + eexists; split; [reflexivity|]. assumption.
  - eexists; split; [reflexivity|]. cbn. discriminate.
Qed.

(** With an install configuration at hand the resolver returns. *)
Lemma setNetworkType_returns (aci : hiveext.AgentClusterInstall)
      (c : types.InstallConfig Platform) (warningMessage : string) :
  exists r, setNetworkType aci (Some c) warningMessage = Returned r.
Proof.
  unfold setNetworkType.
  destruct (negb _); [eexists; reflexivity|].
  destruct (types.Networking_ c) as [n|] eqn:Hn.
  - destruct (negb (types.NetworkType n =? "")%string) eqn:Hs;
      [eexists; reflexivity|].
    cbn [deref bind].
    destruct (SetInstallConfigDefaults_networkType c) as (n' & Hn' & _).
    rewrite Hn'. cbn [deref bind]. eexists; reflexivity.
  - cbn [deref bind].
    destruct (SetInstallConfigDefaults_networkType c) as (n' & Hn' & _).
    rewrite Hn'. cbn [deref bind]. eexists; reflexivity.
Qed.

(** Once the resolver has returned, the descriptor carries a network
    type. *)
Lemma setNetworkType_resolved (aci : hiveext.AgentClusterInstall)
      (installConfig : option (types.InstallConfig Platform))
      (warningMessage : string) (r : resolved Platform) :
  setNetworkType aci installConfig warningMessage = Returned r ->
  networkTypeOf (res_aci r) <> "".
Proof.
  unfold setNetworkType. fold (networkTypeOf aci).
  destruct (String.eqb_spec (networkTypeOf aci) "") as [E|N]; cbn [negb].
  2: { intros [= <-]. exact N. }
  destruct installConfig as [c|]; [|discriminate].
  destruct (SetInstallConfigDefaults_networkType c) as (n' & Hn' & Hne).
  destruct (types.Networking_ c) as [n|] eqn:Hn.
  - destruct (String.eqb_spec (types.NetworkType n) "") as [E'|N']; cbn [negb].
    + cbn [deref bind]. rewrite Hn'. cbn [deref bind].
      intros [= <-]. exact Hne.
    + intros [= <-]. exact N'.
  - cbn [deref bind]. rewrite Hn'. cbn [deref bind].
    intros [= <-]. exact Hne.
Qed.

(** C7.  Running the resolver a second time, on the descriptor and the
    install configuration that the first run left, yields the descriptor
    of the first run, hence the same network type; with an install
    configuration at hand the resolver returns; and on a descriptor that
    already carries a network type it changes nothing. *)
Theorem setNetworkType_idempotent :
  forall (aci : hiveext.AgentClusterInstall)
         (installConfig : option (types.InstallConfig Platform))
         (warningMessage : string),
    (r <- setNetworkType aci installConfig warningMessage ;;
     r' <- setNetworkType (res_aci r) (res_installConfig r) warningMessage ;;
     Returned (res_aci r'))
    = (r <- setNetworkType aci installConfig warningMessage ;;
       Returned (res_aci r))
    /\ (installConfig <> None ->
        exists r, setNetworkType aci installConfig warningMessage = Returned r)
    /\ (networkTypeOf aci <> "" ->
        setNetworkType aci installConfig warningMessage
        = Returned (mkResolved aci installConfig [])).
Proof.
  intros aci installConfig warningMessage. repeat split.
  - destruct (setNetworkType aci installConfig warningMessage) as [r|] eqn:H;
      [|reflexivity].
    cbn [bind].
    rewrite (setNetworkType_populated _ _ _ (setNetworkType_resolved _ _ _ _ H)).
    reflexivity.
  - destruct installConfig as [c|]; [intros _|intros H; now elim H].
    apply setNetworkType_returns.
  - apply setNetworkType_populated.
Qed.

End Resolver.

(** ** The builder *)

Section Builder.

Variable Platform : Type.
Variable getVIPs : Platform -> string * string.
Variable getAgentClusterInstallName : agent.OptionalInstallConfig Platform -> string.
Variable getObjectMetaNamespace : agent.OptionalInstallConfig Platform -> string.
Variable getClusterImageSetReferenceName : string.
Variable getClusterDeploymentName : agent.OptionalInstallConfig Platform -> string.
Variable agentClusterInstallFilename : string.
Variable yaml_Marshal : hiveext.AgentClusterInstall -> string * option error.

Local Abbreviation build :=
  (Generate Platform getVIPs getAgentClusterInstallName getObjectMetaNamespace
     getClusterImageSetReferenceName getClusterDeploymentName
     agentClusterInstallFilename yaml_Marshal).

(** On a descriptor without a network type the resolver writes a network
    type and nothing else; the platform section and the control plane of
    the install configuration stay as they were. *)
Lemma setNetworkType_unset (aci : hiveext.AgentClusterInstall)
      (c : types.InstallConfig Platform) (warningMessage : string)
      (r : resolved Platform) :
  networkTypeOf aci = "" ->
  setNetworkType aci (Some c) warningMessage = Returned r ->
  exists (t : string) (c' : types.InstallConfig Platform),
    res_aci r = hiveext.setNetworkTypeField aci t
    /\ res_installConfig r = Some c'
    /\ types.Platform_ c' = types.Platform_ c
    /\ types.ControlPlane c' = types.ControlPlane c.
Proof.
  intros Ht. unfold setNetworkType. fold (networkTypeOf aci). rewrite Ht.
  cbn [String.eqb negb].
  assert (Hd : types.Platform_ (defaults.SetInstallConfigDefaults c)
               = types.Platform_ c
               /\ types.ControlPlane (defaults.SetInstallConfigDefaults c)
                  = types.ControlPlane c).
  { unfold defaults.SetInstallConfigDefaults.
    destruct (String.eqb _ _); split; reflexivity. }
  destruct (SetInstallConfigDefaults_networkType Platform c) as (n' & Hn' & _).
  destruct (types.Networking_ c) as [n|].
  - destruct (negb (types.NetworkType n =? "")%string).
    + intros [= <-]. exists (types.NetworkType n), c. now cbn.
    + cbn [deref bind]. rewrite Hn'. cbn [deref bind].
      intros [= <-]. eexists _, _. cbn. repeat split; apply Hd.
  - cbn [deref bind]. rewrite Hn'. cbn [deref bind].
    intros [= <-]. eexists _, _. cbn. repeat split; apply Hd.
Qed.

(** What an accepted build has done: the control-plane replica count was
    there, and the descriptor adopted by the asset carries the trimmed SSH
    key, the replica count, and the VIP pair of the platform accessor when
    the guard of the builder holds, no VIP otherwise. *)
Lemma Generate_accepted (a : AgentClusterInstall)
      (installConfig : agent.OptionalInstallConfig Platform)
      (config : types.InstallConfig Platform) (r : generated Platform) :
  agent.Config installConfig = Some config ->
  build a installConfig = Returned r ->
  gen_err r = None ->
  exists (d : hiveext.AgentClusterInstall) (replicas : Z),
    Config (gen_asset r) = Some d
    /\ controlPlaneReplicas config = Some replicas
    /\ hiveext.ControlPlaneAgents (hiveext.ProvisionRequirements_ (hiveext.Spec d))
       = replicas
    /\ hiveext.SSHPublicKey (hiveext.Spec d)
       = strings.Trim (types.SSHKey config) sshKeyCutset
    /\ (hiveext.APIVIP (hiveext.Spec d), hiveext.IngressVIP (hiveext.Spec d))
       = (if (1 <? replicas)
             && negb (String.eqb (fst (getVIPs (types.Platform_ config))) "")
             && negb (String.eqb (snd (getVIPs (types.Platform_ config))) "")
          then getVIPs (types.Platform_ config)
          else ("", "")).
Proof.
  intros Hc. unfold Generate, controlPlaneReplicas. rewrite Hc.
  destruct (sumReplicas _ _) as [numberOfWorkers|]; [|discriminate].
  cbn [bind].
  destruct (types.Networking_ config) as [networking|]; [|discriminate].
  cbn [deref bind].
  destruct (clusterNetworkEntries _ _) as [err|clusterNetwork];
    [intros [= <-]; discriminate|].
  destruct (serviceNetworkEntries _ _) as [err|serviceNetwork];
    [intros [= <-]; discriminate|].
  destruct (types.ControlPlane config) as [controlPlane|] eqn:Hcp; [|discriminate].
  cbn [deref bind].
  destruct (types.Replicas controlPlane) as [replicas|] eqn:Hr; [|discriminate].
  cbn [deref bind].
  match goal with
  | |- context [setNetworkType ?aci ?ic ?msg] =>
      destruct (setNetworkType aci ic msg) as [res|] eqn:Hres; [|discriminate];
      destruct (setNetworkType_unset aci config msg res eq_refl Hres)
        as (t & c' & Haci & Hic & Hp & Hcp')
  end.
  cbn [bind]. rewrite Hic, Haci. cbn [deref bind]. rewrite Hp, Hcp', Hcp.
  destruct (getVIPs (types.Platform_ config)) as [apiVIP ingressVIP].
  cbn [deref bind fst snd]. rewrite Hr. cbn [deref bind].
  destruct (yaml_Marshal _) as [data [err|]]; [intros [= <-]; discriminate|].
  cbn [Config File].
  destruct (finish _) as [err|]; [|discriminate].
  cbn [bind]. intros [= <-] _. cbn [gen_asset Config].
  eexists _, _. split; [reflexivity|]. split; [reflexivity|].
  destruct ((1 <? wrap64 replicas) && _ && _); cbn; auto.
Qed.

(** C5.  In the descriptor of an accepted build an API or Ingress VIP
    field is non-empty only if the control-plane replica count exceeds 1
    and both VIPs of the platform accessor are non-empty; with a replica
    count of 1 both fields are empty, whatever the accessor returns. *)
Theorem Generate_VIPs_only_for_several_replicas :
  forall (a : AgentClusterInstall)
         (installConfig : agent.OptionalInstallConfig Platform)
         (config : types.InstallConfig Platform) (r : generated Platform),
    agent.Config installConfig = Some config ->
    build a installConfig = Returned r ->
    gen_err r = None ->
    exists (d : hiveext.AgentClusterInstall) (replicas : Z),
      Config (gen_asset r) = Some d
      /\ controlPlaneReplicas config = Some replicas
      /\ (hiveext.APIVIP (hiveext.Spec d) <> ""
          \/ hiveext.IngressVIP (hiveext.Spec d) <> "" ->
          1 < replicas
          /\ fst (getVIPs (types.Platform_ config)) <> ""
          /\ snd (getVIPs (types.Platform_ config)) <> "")
      /\ (replicas = 1 ->
          hiveext.APIVIP (hiveext.Spec d) = ""
          /\ hiveext.IngressVIP (hiveext.Spec d) = "").
Proof.
  intros a installConfig config r Hc Hg He.
  destruct (Generate_accepted a installConfig config r Hc Hg He)
    as (d & replicas & Hd & Hrep & _ & _ & Hvip).
  exists d, replicas. split; [exact Hd|]. split; [exact Hrep|].
  destruct (Z.ltb_spec 1 replicas) as [Hlt|Hge]; cbn [andb] in Hvip.
  - destruct (String.eqb_spec (fst (getVIPs (types.Platform_ config))) "")
      as [E1|N1]; cbn [negb andb] in Hvip.
    + injection Hvip as -> ->. split; [intros [H|H]; now elim H|auto].
    + destruct (String.eqb_spec (snd (getVIPs (types.Platform_ config))) "")
        as [E2|N2]; cbn [negb andb] in Hvip.
      * injection Hvip as -> ->. split; [intros [H|H]; now elim H|auto].
      * split; [intros _; auto|intros ->; lia].
  - injection Hvip as -> ->. split; [intros [H|H]; now elim H|auto].
Qed.

Lemma inCutset_sshKeyCutset (c : ascii) :
  strings.inCutset sshKeyCutset c = true
  <-> c = "|"%char \/ c = "010"%char \/ c = "009"%char.
Proof.
  unfold sshKeyCutset. cbn [strings.inCutset].
  destruct (Ascii.eqb_spec c "|"); [tauto|].
  destruct (Ascii.eqb_spec c "010"); [tauto|].
  destruct (Ascii.eqb_spec c "009"); [tauto|].
  split; [discriminate|tauto].
Qed.

(** C8.  The SSH public key of the descriptor of an accepted build is the
    SSH key of the configuration without a leading and a trailing run of
    bytes that are all pipe, newline or tab; it neither starts nor ends
    with such a byte; and trimming it again returns it unchanged. *)
Theorem Generate_trims_SSH_key :
  forall (a : AgentClusterInstall)
         (installConfig : agent.OptionalInstallConfig Platform)
         (config : types.InstallConfig Platform) (r : generated Platform),
    agent.Config installConfig = Some config ->
    build a installConfig = Returned r ->
    gen_err r = None ->
    exists (d : hiveext.AgentClusterInstall) (pre suf : string),
      Config (gen_asset r) = Some d
      /\ types.SSHKey config = pre ++ hiveext.SSHPublicKey (hiveext.Spec d) ++ suf
      /\ strings.allIn sshKeyCutset pre = true
      /\ strings.allIn sshKeyCutset suf = true
      /\ strings.startsClean sshKeyCutset (hiveext.SSHPublicKey (hiveext.Spec d)) = true
      /\ strings.endsClean sshKeyCutset (hiveext.SSHPublicKey (hiveext.Spec d)) = true
      /\ strings.Trim (hiveext.SSHPublicKey (hiveext.Spec d)) sshKeyCutset
         = hiveext.SSHPublicKey (hiveext.Spec d)
      /\ (forall c : ascii,
            strings.inCutset sshKeyCutset c = true
            <-> c = "|"%char \/ c = "010"%char \/ c = "009"%char).
Proof.
  intros a installConfig config r Hc Hg He.
  destruct (Generate_accepted a installConfig config r Hc Hg He)
    as (d & replicas & Hd & _ & _ & Hkey & _).
  destruct (Trim_split sshKeyCutset (types.SSHKey config))
    as (pre & suf & Hs & Hpre & Hsuf & Hstart & Hend).
  exists d, pre, suf. rewrite Hkey.
  repeat split; auto.
  - apply Trim_idempotent.
  - apply inCutset_sshKeyCutset.
  - apply inCutset_sshKeyCutset.
Qed.

Lemma scenario_clusterNetwork :
  clusterNetworkEntries
    [{| types.CIDR := net.mkIPNet [10; 128; 0; 0] [255; 252; 0; 0];
        types.HostPrefix := 23 |}] []
  = inr [hiveext.mkClusterNetworkEntry "10.128.0.0/14" 23].
Proof. vm_compute. reflexivity. Qed.

Lemma scenario_serviceNetwork :
  serviceNetworkEntries [net.mkIPNet [172; 30; 0; 0] [255; 255; 0; 0]] []
  = inr ["172.30.0.0/16"].
Proof. vm_compute. reflexivity. Qed.

(** C6.  The build of the single-node scenario (one control-plane
    replica, two compute pools of 3 replicas, cluster network
    10.128.0.0/14 with host prefix 23, service network 172.30.0.0/16, no
    network type, platform VIPs 192.168.1.10 and 192.168.1.11) is
    accepted when the marshalling succeeds, and its descriptor has 6
    worker agents, 1 control-plane agent, the default network type and
    empty API and Ingress VIP fields. *)
Theorem Generate_single_node_scenario :
  forall (a : AgentClusterInstall) (platform : Platform) (sshKey : string),
    getVIPs platform = ("192.168.1.10", "192.168.1.11") ->
    (forall d : hiveext.AgentClusterInstall, snd (yaml_Marshal d) = None) ->
    exists (r : generated Platform) (d : hiveext.AgentClusterInstall),
      build a (scenarioConfig platform sshKey 1) = Returned r
      /\ gen_err r = None
      /\ Config (gen_asset r) = Some d
      /\ hiveext.WorkerAgents (hiveext.ProvisionRequirements_ (hiveext.Spec d)) = 6
      /\ hiveext.ControlPlaneAgents (hiveext.ProvisionRequirements_ (hiveext.Spec d)) = 1
      /\ networkTypeOf d = defaults.defaultNetworkType
      /\ hiveext.APIVIP (hiveext.Spec d) = ""
      /\ hiveext.IngressVIP (hiveext.Spec d) = ""
      /\ hiveext.ClusterNetwork (hiveext.Networking_ (hiveext.Spec d))
         = [hiveext.mkClusterNetworkEntry "10.128.0.0/14" 23]
      /\ hiveext.ServiceNetwork (hiveext.Networking_ (hiveext.Spec d))
         = ["172.30.0.0/16"].
Proof.
  intros a platform sshKey Hvips Hm.
  unfold Generate, scenarioConfig.
  cbn [agent.Config types.Compute types.Networking_ types.ClusterNetwork
       types.ServiceNetwork types.ControlPlane types.Replicas].
  change (sumReplicas [{| types.Replicas := Some 3 |}; {| types.Replicas := Some 3 |}] 0)
    with (Returned 6).
  cbn [bind deref types.ClusterNetwork types.ServiceNetwork].
  rewrite scenario_clusterNetwork, scenario_serviceNetwork.
  cbn [bind deref types.Replicas].
  change (wrap64 1) with 1.
  unfold setNetworkType, defaults.SetInstallConfigDefaults.
  cbn -[strings.Trim wrap64 Z.ltb].
  rewrite Hvips.
  change (wrap64 1) with 1.
  match goal with
  | |- context [yaml_Marshal ?d] =>
      pose proof (Hm d) as Hy; destruct (yaml_Marshal d) as [data e]
  end.
  cbn [snd] in Hy. subst e.
  unfold finish, validateIPAddressAndNetworkType.
  cbn -[strings.Trim].
  eexists _, _. split; [reflexivity|].
  cbn -[strings.Trim]. repeat split; reflexivity.
Qed.

End Builder.

(** ** The loader *)

Lemma ToAggregate_nil (errs : field.ErrorList) :
  ToAggregate errs = None <-> errs = [].
Proof.
  destruct errs; cbn; split; try reflexivity; discriminate.
Qed.

(** On an asset with a descriptor the validator returns. *)
Lemma validate_returns (a : AgentClusterInstall) (config : hiveext.AgentClusterInstall) :
  Config a = Some config ->
  exists errs : field.ErrorList, validateIPAddressAndNetworkType a = Returned errs.
Proof.
  intros Ha.
  destruct (String.eqb_spec
              (hiveext.NetworkType (hiveext.Networking_ (hiveext.Spec config)))
              NetworkTypeOpenShiftSDN) as [E|N].
  - eexists. exact (validate_restricted a config Ha E).
  - exists []. exact (validate_unrestricted a config Ha N).
Qed.

(** [finish] on an asset with a descriptor: no error exactly when the
    validator returns the empty list. *)
Lemma finish_validated (a : AgentClusterInstall) (config : hiveext.AgentClusterInstall)
      (errs : field.ErrorList) :
  Config a = Some config ->
  validateIPAddressAndNetworkType a = Returned errs ->
  (errs = [] -> finish a = Returned None)
  /\ (errs <> [] -> exists err, finish a = Returned (Some err)).
Proof.
  intros Ha Hv. unfold finish. rewrite Ha, Hv. cbn [bind].
  split.
  - intros ->. reflexivity.
  - intros Hne. destruct errs as [|e errs]; [now elim Hne|].
    cbn. eexists; reflexivity.
Qed.

Section Loader.

Variable Platform : Type.
Variable zeroPlatform : Platform.
Variable agentClusterInstallFilename : string.
Variable yaml_UnmarshalStrict : string -> hiveext.AgentClusterInstall * option error.

Local Abbreviation load :=
  (Load Platform zeroPlatform agentClusterInstallFilename yaml_UnmarshalStrict).

Local Abbreviation resolve aci :=
  (setNetworkType aci (Some (types.zero zeroPlatform))
     "NetworkType is not specified in AgentClusterInstall.").

(** C9.  When the fetch of the manifest file fails with an error that
    [os.IsNotExist] recognises, [Load] returns found=false and no error
    and leaves the asset, hence its descriptor, as it was; when the fetch
    fails with any other error, [Load] returns found=false and that error
    wrapped. *)
Theorem Load_fetch_failure :
  forall (a : AgentClusterInstall) (f : asset.FileFetcher)
         (file : option asset.File) (err : error),
    asset.FetchByName f agentClusterInstallFilename = (file, Some err) ->
    (os.IsNotExist err = true ->
     load a f = Returned (mkLoaded a [] false None))
    /\ (os.IsNotExist err = false ->
        load a f
        = Returned
            (mkLoaded a [] false
               (Some (errors.Wrap err
                  ("failed to load " ++ agentClusterInstallFilename ++ " file"))))).
Proof.
  intros a f file err Hf. unfold Load. rewrite Hf.
  split; intros ->; reflexivity.
Qed.

(** [Load] after a fetch and a strict parse that succeeded. *)
Lemma Load_parsed (a : AgentClusterInstall) (f : asset.FileFetcher)
      (file : asset.File) (aci : hiveext.AgentClusterInstall) :
  asset.FetchByName f agentClusterInstallFilename = (Some file, None) ->
  yaml_UnmarshalStrict (asset.Data file) = (aci, None) ->
  exists (res : resolved Platform) (errs : field.ErrorList),
    resolve aci = Returned res
    /\ validateIPAddressAndNetworkType (mkAsset (Some file) (Some (res_aci res)))
       = Returned errs
    /\ (errs = [] ->
        load a f
        = Returned (mkLoaded (mkAsset (Some file) (Some (res_aci res)))
                             (res_log res) true None))
    /\ (errs <> [] ->
        exists err,
          load a f
          = Returned (mkLoaded (mkAsset (Some file) (Some (res_aci res)))
                               (res_log res) false (Some err))).
Proof.
  intros Hf Hu.
  destruct (setNetworkType_returns Platform aci (types.zero zeroPlatform)
              "NetworkType is not specified in AgentClusterInstall.")
    as (res & Hres).
  destruct (validate_returns (mkAsset (Some file) (Some (res_aci res)))
              (res_aci res) eq_refl) as (errs & Hv).
  exists res, errs. split; [exact Hres|]. split; [exact Hv|].
  destruct (finish_validated (mkAsset (Some file) (Some (res_aci res)))
              (res_aci res) errs eq_refl Hv) as (Hok & Hbad).
  unfold Load. rewrite Hf. cbn [deref bind]. rewrite Hu, Hres.
  cbn [bind File Config].
  split.
  - intros E. rewrite (Hok E). reflexivity.
  - intros N. destruct (Hbad N) as (err & Hfin). rewrite Hfin.
    exists err. reflexivity.
Qed.

(** C10.  When the manifest file is fetched and parses under the strict
    mode, the resolver and the validator return; if the validator reports
    an error for the resolved descriptor, [Load] returns found=false
    together with an error.  And whenever [Load] returns found=true, the
    fetch and the strict parse succeeded, the resolver returned, the
    validator returned the empty list, and no error is returned. *)
Theorem Load_found_only_when_valid :
  forall (a : AgentClusterInstall) (f : asset.FileFetcher),
    (forall (file : asset.File) (aci : hiveext.AgentClusterInstall),
        asset.FetchByName f agentClusterInstallFilename = (Some file, None) ->
        yaml_UnmarshalStrict (asset.Data file) = (aci, None) ->
        exists (res : resolved Platform) (errs : field.ErrorList),
          resolve aci = Returned res
          /\ validateIPAddressAndNetworkType
               (mkAsset (Some file) (Some (res_aci res))) = Returned errs
          /\ (errs <> [] ->
              exists (r : loaded) (err : error),
                load a f = Returned r
                /\ load_found r = false
                /\ load_err r = Some err))
    /\ (forall r : loaded,
           load a f = Returned r ->
           load_found r = true ->
           load_err r = None
           /\ exists (file : asset.File) (aci : hiveext.AgentClusterInstall)
                     (res : resolved Platform),
               asset.FetchByName f agentClusterInstallFilename = (Some file, None)
               /\ yaml_UnmarshalStrict (asset.Data file) = (aci, None)
               /\ resolve aci = Returned res
               /\ validateIPAddressAndNetworkType
                    (mkAsset (Some file) (Some (res_aci res))) = Returned []
               /\ load_asset r = mkAsset (Some file) (Some (res_aci res))).
Proof.
  intros a f. split.
  - intros file aci Hf Hu.
    destruct (Load_parsed a f file aci Hf Hu) as (res & errs & Hres & Hv & _ & Hbad).
    exists res, errs. split; [exact Hres|]. split; [exact Hv|].
    intros N. destruct (Hbad N) as (err & Hl).
    eexists _, err. split; [exact Hl|]. split; reflexivity.
  - intros r Hl Hfound.
    destruct (asset.FetchByName f agentClusterInstallFilename)
      as [file [err|]] eqn:Hf.
    + unfold Load in Hl. rewrite Hf in Hl.
      destruct (os.IsNotExist err); injection Hl as <-; discriminate.
    + destruct file as [file|].
      2: { unfold Load in Hl. rewrite Hf in Hl. discriminate. }
      destruct (yaml_UnmarshalStrict (asset.Data file)) as [aci [err|]] eqn:Hu.
      * unfold Load in Hl. rewrite Hf in Hl. cbn [deref bind] in Hl.
        rewrite Hu in Hl. injection Hl as <-. discriminate.
      * destruct (Load_parsed a f file aci Hf Hu)
          as (res & errs & Hres & Hv & Hok & Hbad).
        destruct errs as [|e errs].
        -- rewrite (Hok eq_refl) in Hl. injection Hl as <-.
           split; [reflexivity|].
           exists file, aci, res. repeat split; assumption.
        -- destruct (Hbad ltac:(discriminate)) as (err & Hl').
           rewrite Hl' in Hl. injection Hl as <-. discriminate.
Qed.

End Loader.


(** ** The theorems at sample inputs *)

Lemma setNetworkType_idempotent_witness :
  (exists r : resolved pairPlatform,
      setNetworkType hiveext.zero (Some (types.zero ("", ""))) "Unset."
      = Returned r)
  /\ setNetworkType (descriptorWith "OVNKubernetes" [] [])
       (@None (types.InstallConfig pairPlatform)) "Unset."
     = Returned (mkResolved (descriptorWith "OVNKubernetes" [] []) None []).
Proof.
  split.
  - apply (proj1 (proj2 (setNetworkType_idempotent pairPlatform hiveext.zero
                           (Some (types.zero ("", ""))) "Unset."))).
    discriminate.
  - apply (proj2 (proj2 (setNetworkType_idempotent pairPlatform
                           (descriptorWith "OVNKubernetes" [] []) None "Unset."))).
    vm_compute. discriminate.
Defined.

Lemma Generate_VIPs_only_for_several_replicas_witness :
  exists (r : generated pairPlatform)
         (d : hiveext.AgentClusterInstall) (replicas : Z),
    sampleGenerate (mkAsset None None)
      (scenarioConfig ("192.168.1.10", "192.168.1.11") "ssh-rsa AAAA" 3)
    = Returned r
    /\ Config (gen_asset r) = Some d
    /\ replicas = 3
    /\ (hiveext.APIVIP (hiveext.Spec d) <> ""
        \/ hiveext.IngressVIP (hiveext.Spec d) <> "" ->
        1 < replicas)
    /\ (replicas = 1 ->
        hiveext.APIVIP (hiveext.Spec d) = ""
        /\ hiveext.IngressVIP (hiveext.Spec d) = "").
Proof.
  destruct (sampleGenerate (mkAsset None None)
              (scenarioConfig ("192.168.1.10", "192.168.1.11") "ssh-rsa AAAA" 3))
    as [r|] eqn:Hg; [|vm_compute in Hg; discriminate].
  assert (He : gen_err r = None)
    by (vm_compute in Hg; injection Hg as <-; reflexivity).
  destruct (Generate_VIPs_only_for_several_replicas
              pairPlatform pairVIPs sampleName sampleName "openshift-v4" sampleName
              sampleFilename sampleMarshal (mkAsset None None)
              (scenarioConfig ("192.168.1.10", "192.168.1.11") "ssh-rsa AAAA" 3)
              _ r eq_refl Hg He)
    as (d & replicas & Hd & Hrep & Honly & Hone).
  exists r, d, replicas.
  split; [reflexivity|]. split; [exact Hd|].
  split; [vm_compute in Hrep; congruence|].
  split; [intros H; exact (proj1 (Honly H)) | exact Hone].
Defined.

Lemma Generate_single_node_scenario_witness :
  exists (r : generated pairPlatform) (d : hiveext.AgentClusterInstall),
    sampleGenerate (mkAsset None None)
      (scenarioConfig ("192.168.1.10", "192.168.1.11") "ssh-rsa AAAA" 1)
    = Returned r
    /\ gen_err r = None
    /\ Config (gen_asset r) = Some d
    /\ hiveext.WorkerAgents (hiveext.ProvisionRequirements_ (hiveext.Spec d)) = 6
    /\ hiveext.ControlPlaneAgents (hiveext.ProvisionRequirements_ (hiveext.Spec d)) = 1
    /\ networkTypeOf d = defaults.defaultNetworkType
    /\ hiveext.APIVIP (hiveext.Spec d) = ""
    /\ hiveext.IngressVIP (hiveext.Spec d) = ""
    /\ hiveext.ClusterNetwork (hiveext.Networking_ (hiveext.Spec d))
       = [hiveext.mkClusterNetworkEntry "10.128.0.0/14" 23]
    /\ hiveext.ServiceNetwork (hiveext.Networking_ (hiveext.Spec d))
       = ["172.30.0.0/16"].
Proof.
  apply (Generate_single_node_scenario
           pairPlatform pairVIPs sampleName sampleName "openshift-v4" sampleName
           sampleFilename sampleMarshal (mkAsset None None)
           ("192.168.1.10", "192.168.1.11") "ssh-rsa AAAA").
  - reflexivity.
  - intros d. reflexivity.
Defined.

Lemma Generate_trims_SSH_key_witness :
  exists (r : generated pairPlatform) (d : hiveext.AgentClusterInstall)
         (pre suf : string),
    sampleGenerate (mkAsset None None)
      (scenarioConfig ("", "")
         (String "|" (String "010" ("ssh-rsa AA|A user" ++ String "009" (String "010" ""))))
         1)
    = Returned r
    /\ Config (gen_asset r) = Some d
    /\ String "|" (String "010" ("ssh-rsa AA|A user" ++ String "009" (String "010" "")))
       = pre ++ hiveext.SSHPublicKey (hiveext.Spec d) ++ suf
    /\ strings.allIn sshKeyCutset pre = true
    /\ strings.allIn sshKeyCutset suf = true
    /\ strings.Trim (hiveext.SSHPublicKey (hiveext.Spec d)) sshKeyCutset
       = hiveext.SSHPublicKey (hiveext.Spec d).
Proof.
  destruct (sampleGenerate (mkAsset None None)
              (scenarioConfig ("", "")
                 (String "|" (String "010"
                    ("ssh-rsa AA|A user" ++ String "009" (String "010" ""))))
                 1))
    as [r|] eqn:Hg; [|vm_compute in Hg; discriminate].
  assert (He : gen_err r = None)
    by (vm_compute in Hg; injection Hg as <-; reflexivity).
  destruct (Generate_trims_SSH_key
              pairPlatform pairVIPs sampleName sampleName "openshift-v4" sampleName
              sampleFilename sampleMarshal (mkAsset None None)
              (scenarioConfig ("", "")
                 (String "|" (String "010"
                    ("ssh-rsa AA|A user" ++ String "009" (String "010" ""))))
                 1)
              _ r eq_refl Hg He)
    as (d & pre & suf & Hd & Hs & Hpre & Hsuf & _ & _ & Hidem & _).
  exists r, d, pre, suf.
  split; [reflexivity|]. split; [exact Hd|]. split; [exact Hs|].
  split; [exact Hpre|]. split; [exact Hsuf|exact Hidem].
Defined.

Lemma Load_fetch_failure_witness :
  sampleLoad (mkAsset None None) missingFetcher
  = Returned (mkLoaded (mkAsset None None) [] false None)
  /\ sampleLoad (mkAsset None None) brokenFetcher
     = Returned
         (mkLoaded (mkAsset None None) [] false
            (Some (errors.Wrap
                     (PathError "open" sampleFilename (errorString "permission denied"))
                     ("failed to load " ++ sampleFilename ++ " file")))).
Proof.
  split.
  - apply (proj1 (Load_fetch_failure pairPlatform ("", "") sampleFilename
                    sampleUnmarshalStrict (mkAsset None None) missingFetcher
                    None (PathError "open" sampleFilename ErrNotExist) eq_refl)).
    reflexivity.
  - apply (proj2 (Load_fetch_failure pairPlatform ("", "") sampleFilename
                    sampleUnmarshalStrict (mkAsset None None) brokenFetcher
                    None
                    (PathError "open" sampleFilename (errorString "permission denied"))
                    eq_refl)).
    reflexivity.
Defined.

Lemma Load_found_only_when_valid_witness :
  (exists (r : loaded) (err : error),
      sampleLoad (mkAsset None None) (contentFetcher "sdn-ipv6") = Returned r
      /\ load_found r = false
      /\ load_err r = Some err)
  /\ (exists r : loaded,
         sampleLoad (mkAsset None None) (contentFetcher "untyped") = Returned r
         /\ load_found r = true
         /\ load_err r = None).
Proof.
  split.
  - destruct (proj1 (Load_found_only_when_valid pairPlatform ("", "") sampleFilename
                       sampleUnmarshalStrict (mkAsset None None)
                       (contentFetcher "sdn-ipv6"))
                    {| asset.Filename := sampleFilename; asset.Data := "sdn-ipv6" |}
                    (descriptorWith NetworkTypeOpenShiftSDN
                       [hiveext.mkClusterNetworkEntry "fd01::/48" 64] [])
                    eq_refl eq_refl)
      as (res & errs & Hres & Hv & Hbad).
    apply Hbad.
    vm_compute in Hres. injection Hres as <-.
    vm_compute in Hv. injection Hv as <-. discriminate.
  - destruct (sampleLoad (mkAsset None None) (contentFetcher "untyped"))
      as [r|] eqn:Hl; [|vm_compute in Hl; discriminate].
    assert (Hfound : load_found r = true)
      by (vm_compute in Hl; injection Hl as <-; reflexivity).
    exists r. split; [reflexivity|]. split; [exact Hfound|].
    exact (proj1 (proj2 (Load_found_only_when_valid pairPlatform ("", "")
                           sampleFilename sampleUnmarshalStrict (mkAsset None None)
                           (contentFetcher "untyped"))
                        r Hl Hfound)).
Defined.


(** * Further properties of the manifest code *)

(** ** The validator, continued *)

Lemma classifyIPFamily_IPv6_parsable (cidr : string) :
  classifyIPFamily cidr = IPv6 -> parsable cidr = true.
Proof.
  unfold classifyIPFamily, parsable, unparsable.
  destruct (net.ParseCIDR cidr) as [[ip n] [e|]]; [discriminate|reflexivity].
Qed.

Lemma existsb_parsable_map (entries : list hiveext.ClusterNetworkEntry) :
  existsb parsable (map hiveext.CIDR entries)
  = existsb (fun cn => parsable (hiveext.CIDR cn)) entries.
Proof.
  induction entries as [|cn rest IH]; cbn; [reflexivity|now rewrite IH].
Qed.

Lemma filter_unparsable_map (entries : list hiveext.ClusterNetworkEntry) :
  List.length (filter unparsable (map hiveext.CIDR entries))
  = List.length (filter (fun cn => unparsable (hiveext.CIDR cn)) entries).
Proof.
  induction entries as [|cn rest IH]; cbn [map filter]; [reflexivity|].
  destruct (unparsable (hiveext.CIDR cn)); cbn [List.length]; now rewrite IH.
Qed.

(** The number of errors of the restricted plugin at the network-type field
    path: one for each of the two networks that has an entry that parses. *)
Lemma restrictedErrors_at_fieldPath (cs ss : list string) :
  field.countAt field.ErrorTypeRequired fieldPath (restrictedErrors cs ss)
  = ((if existsb parsable cs then 1 else 0)
     + (if existsb parsable ss then 1 else 0))%nat.
Proof.
  unfold restrictedErrors.
  rewrite !countAt_app, !countAt_const.
  change (field.ErrorType_eqb (field.Type_ (parseError clusterNetworkPath))
            field.ErrorTypeRequired
          && (field.Field (parseError clusterNetworkPath)
              =? field.Path_String fieldPath)%string) with false.
  change (field.ErrorType_eqb (field.Type_ (parseError serviceNetworkPath))
            field.ErrorTypeRequired
          && (field.Field (parseError serviceNetworkPath)
              =? field.Path_String fieldPath)%string) with false.
  cbv iota.
  destruct (existsb parsable cs), (existsb parsable ss); reflexivity.
Qed.

Lemma restrictedErrors_length (cs ss : list string) :
  List.length (restrictedErrors cs ss)
  = (List.length (filter unparsable cs) + List.length (filter unparsable ss)
     + (if existsb parsable cs then 1 else 0)
     + (if existsb parsable ss then 1 else 0))%nat.
Proof.
  unfold restrictedErrors.
  rewrite !length_app, !length_map.
  destruct (existsb parsable cs), (existsb parsable ss); cbn [List.length]; lia.
Qed.

Lemma existsb_parsable_false (cidrs : list string) :
  (forall c, In c cidrs -> unparsable c = true) ->
  existsb parsable cidrs = false /\ filter unparsable cidrs = cidrs.
Proof.
  induction cidrs as [|c rest IH]; intros H; [now split|].
  cbn [existsb filter]. unfold parsable at 1.
  rewrite (H c (or_introl eq_refl)). cbn [negb orb].
  destruct IH as [IH1 IH2]; [intros c' Hc'; apply H; now right|].
  now rewrite IH1, IH2.
Qed.

(** X1.  With the restricted plugin no IPv6 range goes unreported: when a
    cluster-network CIDR classifies as IPv6 the cluster-network
    incompatibility error is in the list, and when a service-network CIDR
    does the service-network one is. *)
Theorem validate_reports_IPv6_ranges :
  forall (a : AgentClusterInstall) (config : hiveext.AgentClusterInstall),
    Config a = Some config ->
    networkTypeOf config = NetworkTypeOpenShiftSDN ->
    exists errs : field.ErrorList,
      validateIPAddressAndNetworkType a = Returned errs
      /\ ((exists cn,
              In cn (hiveext.ClusterNetwork (hiveext.Networking_ (hiveext.Spec config)))
              /\ classifyIPFamily (hiveext.CIDR cn) = IPv6) ->
          In clusterIncompatible errs)
      /\ ((exists cidr,
              In cidr (hiveext.ServiceNetwork (hiveext.Networking_ (hiveext.Spec config)))
              /\ classifyIPFamily cidr = IPv6) ->
          In serviceIncompatible errs).
Proof.
  intros a config Ha Ht.
  eexists; split; [exact (validate_restricted a config Ha Ht)|].
  unfold restrictedErrors. split.
  - intros (cn & Hin & Hv6).
    assert (E : existsb parsable
                  (map hiveext.CIDR
                     (hiveext.ClusterNetwork (hiveext.Networking_ (hiveext.Spec config))))
                = true).
    { apply existsb_exists. exists (hiveext.CIDR cn). split.
      - now apply in_map.
      - now apply classifyIPFamily_IPv6_parsable. }
    rewrite E. apply in_or_app; right. apply in_or_app; left. now left.
  - intros (cidr & Hin & Hv6).
    assert (E : existsb parsable
                  (hiveext.ServiceNetwork (hiveext.Networking_ (hiveext.Spec config)))
                = true).
    { apply existsb_exists. exists cidr. split; [exact Hin|].
      now apply classifyIPFamily_IPv6_parsable. }
    rewrite E.
    apply in_or_app; right. apply in_or_app; right.
    apply in_or_app; right. now left.
Qed.

Lemma validate_reports_IPv6_ranges_witness :
  exists errs : field.ErrorList,
    validateIPAddressAndNetworkType
      (mkAsset None
         (Some (descriptorWith NetworkTypeOpenShiftSDN
                  [hiveext.mkClusterNetworkEntry "bogus" 0;
                   hiveext.mkClusterNetworkEntry "fd01::/48" 64]
                  ["fd02::/112"])))
    = Returned errs
    /\ In clusterIncompatible errs
    /\ In serviceIncompatible errs.
Proof.
  destruct (validate_reports_IPv6_ranges
              (mkAsset None
                 (Some (descriptorWith NetworkTypeOpenShiftSDN
                          [hiveext.mkClusterNetworkEntry "bogus" 0;
                           hiveext.mkClusterNetworkEntry "fd01::/48" 64]
                          ["fd02::/112"])))
              (descriptorWith NetworkTypeOpenShiftSDN
                 [hiveext.mkClusterNetworkEntry "bogus" 0;
                  hiveext.mkClusterNetworkEntry "fd01::/48" 64]
                 ["fd02::/112"])
              eq_refl eq_refl) as (errs & Hv & Hc & Hs).
  exists errs. split; [exact Hv|]. split.
  - apply Hc. exists (hiveext.mkClusterNetworkEntry "fd01::/48" 64).
    split; [right; left; reflexivity | vm_compute; reflexivity].
  - apply Hs. exists "fd02::/112".
    split; [left; reflexivity | vm_compute; reflexivity].
Defined.

(** X2.  The incompatibility errors are consolidated: with the restricted
    plugin the list holds at most two errors at the network-type field
    path, however many entries the two networks have, and its length is at
    most the number of entries plus two. *)
Theorem validate_consolidates_incompatibility :
  forall (a : AgentClusterInstall) (config : hiveext.AgentClusterInstall),
    Config a = Some config ->
    networkTypeOf config = NetworkTypeOpenShiftSDN ->
    exists errs : field.ErrorList,
      validateIPAddressAndNetworkType a = Returned errs
      /\ (field.countAt field.ErrorTypeRequired fieldPath errs <= 2)%nat
      /\ (List.length errs
          <= List.length (hiveext.ClusterNetwork (hiveext.Networking_ (hiveext.Spec config)))
             + List.length (hiveext.ServiceNetwork (hiveext.Networking_ (hiveext.Spec config)))
             + 2)%nat.
Proof.
  intros a config Ha Ht.
  eexists; split; [exact (validate_restricted a config Ha Ht)|].
  rewrite restrictedErrors_at_fieldPath, restrictedErrors_length.
  pose proof (filter_length_le unparsable
                (map hiveext.CIDR
                   (hiveext.ClusterNetwork (hiveext.Networking_ (hiveext.Spec config)))))
    as H1.
  pose proof (filter_length_le unparsable
                (hiveext.ServiceNetwork (hiveext.Networking_ (hiveext.Spec config))))
    as H2.
  rewrite length_map in H1.
  split; repeat destruct (existsb parsable _); cbn; lia.
Qed.

Lemma validate_consolidates_incompatibility_witness :
  exists errs : field.ErrorList,
    validateIPAddressAndNetworkType
      (mkAsset None
         (Some (descriptorWith NetworkTypeOpenShiftSDN
                  [hiveext.mkClusterNetworkEntry "fd01::/48" 64;
                   hiveext.mkClusterNetworkEntry "fd03::/48" 64;
                   hiveext.mkClusterNetworkEntry "fd04::/48" 64]
                  ["fd02::/112"; "fd05::/112"])))
    = Returned errs
    /\ (field.countAt field.ErrorTypeRequired fieldPath errs <= 2)%nat.
Proof.
  destruct (validate_consolidates_incompatibility
              (mkAsset None
                 (Some (descriptorWith NetworkTypeOpenShiftSDN
                          [hiveext.mkClusterNetworkEntry "fd01::/48" 64;
                           hiveext.mkClusterNetworkEntry "fd03::/48" 64;
                           hiveext.mkClusterNetworkEntry "fd04::/48" 64]
                          ["fd02::/112"; "fd05::/112"])))
              (descriptorWith NetworkTypeOpenShiftSDN
                 [hiveext.mkClusterNetworkEntry "fd01::/48" 64;
                  hiveext.mkClusterNetworkEntry "fd03::/48" 64;
                  hiveext.mkClusterNetworkEntry "fd04::/48" 64]
                 ["fd02::/112"; "fd05::/112"])
              eq_refl eq_refl) as (errs & Hv & Hc & _).
  exists errs. split; [exact Hv | exact Hc].
Defined.

(** X3.  With the restricted plugin, when no CIDR of either network parses
    (in particular when both networks are empty), the list holds one parse
    error per entry and no error at the network-type field path. *)
Theorem validate_nothing_parses :
  forall (a : AgentClusterInstall) (config : hiveext.AgentClusterInstall),
    Config a = Some config ->
    networkTypeOf config = NetworkTypeOpenShiftSDN ->
    (forall cn,
        In cn (hiveext.ClusterNetwork (hiveext.Networking_ (hiveext.Spec config))) ->
        unparsable (hiveext.CIDR cn) = true) ->
    (forall cidr,
        In cidr (hiveext.ServiceNetwork (hiveext.Networking_ (hiveext.Spec config))) ->
        unparsable cidr = true) ->
    validateIPAddressAndNetworkType a
    = Returned
        (map (fun _ => parseError clusterNetworkPath)
             (hiveext.ClusterNetwork (hiveext.Networking_ (hiveext.Spec config)))
         ++ map (fun _ => parseError serviceNetworkPath)
              (hiveext.ServiceNetwork (hiveext.Networking_ (hiveext.Spec config))))%list.
Proof.
  intros a config Ha Ht Hc Hs.
  rewrite (validate_restricted a config Ha Ht). unfold restrictedErrors.
  destruct (existsb_parsable_false
              (map hiveext.CIDR
                 (hiveext.ClusterNetwork (hiveext.Networking_ (hiveext.Spec config)))))
    as [E1 F1].
  { intros c Hin. apply in_map_iff in Hin. destruct Hin as (cn & <- & Hin).
    now apply Hc. }
  destruct (existsb_parsable_false
              (hiveext.ServiceNetwork (hiveext.Networking_ (hiveext.Spec config))) Hs)
    as [E2 F2].
  rewrite E1, E2, F1, F2, map_map. cbn [app]. now rewrite app_nil_r.
Qed.

Lemma validate_nothing_parses_witness :
  validateIPAddressAndNetworkType
    (mkAsset None
       (Some (descriptorWith NetworkTypeOpenShiftSDN
                [hiveext.mkClusterNetworkEntry "10.128.0.0" 23] ["172.30.0.0/33"])))
  = Returned [parseError clusterNetworkPath; parseError serviceNetworkPath].
Proof.
  apply (validate_nothing_parses
           (mkAsset None
              (Some (descriptorWith NetworkTypeOpenShiftSDN
                       [hiveext.mkClusterNetworkEntry "10.128.0.0" 23]
                       ["172.30.0.0/33"])))
           (descriptorWith NetworkTypeOpenShiftSDN
              [hiveext.mkClusterNetworkEntry "10.128.0.0" 23] ["172.30.0.0/33"])
           eq_refl eq_refl).
  - intros cn [<-|[]]. vm_compute. reflexivity.
  - intros cidr [<-|[]]. vm_compute. reflexivity.
Defined.

(** ** The post-condition check *)

Lemma existsb_eqb_In (msg : string) (seen : list string) :
  existsb (String.eqb msg) seen = true <-> In msg seen.
Proof.
  rewrite existsb_exists. split.
  - intros (x & Hin & Heq). apply String.eqb_eq in Heq. now subst.
  - intros Hin. exists msg. split; [exact Hin|apply String.eqb_refl].
Qed.

(** The aggregate holds errors of the list, none with a message already
    seen, and none twice. *)
Lemma ToAggregate_loop_spec (errs : field.ErrorList) :
  forall seen : list string,
    (forall x, In x (ToAggregate_loop errs seen) ->
               exists e, x = FieldError e /\ In e errs
                         /\ ~ In (field.Error_String e) seen)
    /\ NoDup (ToAggregate_loop errs seen).
Proof.
  induction errs as [|err rest IH]; intros seen; cbn [ToAggregate_loop].
  - split; [intros x []|constructor].
  - destruct (existsb (String.eqb (field.Error_String err)) seen) eqn:Hseen.
    + destruct (IH seen) as [Hin Hnd]. split; [|exact Hnd].
      intros x Hx. destruct (Hin x Hx) as (e & -> & He & Hn).
      exists e. repeat split; auto. now right.
    + assert (Hnot : ~ In (field.Error_String err) seen).
      { intros Hin. apply existsb_eqb_In in Hin. congruence. }
      destruct (IH (field.Error_String err :: seen)) as [Hin Hnd]. split.
      * intros x [<-|Hx].
        -- exists err. repeat split; auto. now left.
        -- destruct (Hin x Hx) as (e & -> & He & Hn).
           exists e. repeat split; auto; [now right|].
           intros Hs. apply Hn. now right.
      * constructor; [|exact Hnd].
        intros Hx. destruct (Hin _ Hx) as (e & Heq & _ & Hn).
        injection Heq as <-. apply Hn. now left.
Qed.

Lemma restrictedErrors_incl (cs ss : list string) :
  incl (restrictedErrors cs ss)
       [parseError clusterNetworkPath; clusterIncompatible;
        parseError serviceNetworkPath; serviceIncompatible].
Proof.
  unfold restrictedErrors. intros e He.
  repeat (apply in_app_or in He; destruct He as [He|He]).
  - apply in_map_iff in He. destruct He as (_ & <- & _). now left.
  - destruct (existsb parsable cs); [|now elim He].
    destruct He as [<-|[]]. right; now left.
  - apply in_map_iff in He. destruct He as (_ & <- & _). right; right; now left.
  - destruct (existsb parsable ss); [|now elim He].
    destruct He as [<-|[]]. right; right; right; now left.
Qed.

(** Whatever the validator returns is made of the four errors that it can
    build. *)
Lemma validate_incl (a : AgentClusterInstall) (errs : field.ErrorList) :
  validateIPAddressAndNetworkType a = Returned errs ->
  incl errs [parseError clusterNetworkPath; clusterIncompatible;
             parseError serviceNetworkPath; serviceIncompatible].
Proof.
  destruct (Config a) as [config|] eqn:Ha.
  - destruct (String.eqb_spec (networkTypeOf config) NetworkTypeOpenShiftSDN) as [E|N].
    + rewrite (validate_restricted a config Ha E). intros [= <-].
      apply restrictedErrors_incl.
    + rewrite (validate_unrestricted a config Ha N). intros [= <-] e [].
  - unfold validateIPAddressAndNetworkType. rewrite Ha. discriminate.
Qed.

(** X4.  [finish] never panics: without a descriptor it returns the error
    "missing configuration or manifest file" and does not reach the
    validator; and it returns no error exactly when the asset has a
    descriptor for which the validator returns the empty list. *)
Theorem finish_outcomes :
  forall a : AgentClusterInstall,
    (exists e : option error, finish a = Returned e)
    /\ (Config a = None ->
        finish a
        = Returned (Some (errorString "missing configuration or manifest file")))
    /\ (finish a = Returned None <->
        exists config : hiveext.AgentClusterInstall,
          Config a = Some config
          /\ validateIPAddressAndNetworkType a = Returned []).
Proof.
  intros a. destruct (Config a) as [config|] eqn:Ha.
  - destruct (validate_returns a config Ha) as (errs & Hv).
    destruct (finish_validated a config errs Ha Hv) as (Hok & Hbad).
    destruct errs as [|e errs].
    + split; [exists None; now apply Hok|]. split; [discriminate|].
      split; [intros _; now exists config | intros _; now apply Hok].
    + destruct (Hbad ltac:(discriminate)) as (err & Hf).
      split; [exists (Some err); exact Hf|]. split; [discriminate|].
      rewrite Hf. split; [discriminate|].
      intros (config' & _ & Hv'). rewrite Hv in Hv'. discriminate.
  - assert (Hf : finish a
                 = Returned (Some (errorString "missing configuration or manifest file")))
      by (unfold finish; now rewrite Ha).
    split; [eexists; exact Hf|]. split; [intros _; exact Hf|].
    rewrite Hf. split; [discriminate|].
    intros (config & Hc & _). discriminate.
Qed.

Lemma finish_outcomes_witness :
  finish (mkAsset None None)
  = Returned (Some (errorString "missing configuration or manifest file"))
  /\ finish (mkAsset None (Some (descriptorWith "OVNKubernetes" [] ["fd02::/112"])))
     = Returned None.
Proof.
  split.
  - apply (proj1 (proj2 (finish_outcomes (mkAsset None None)))). reflexivity.
  - apply (proj2 (proj2 (finish_outcomes
                           (mkAsset None
                              (Some (descriptorWith "OVNKubernetes" [] ["fd02::/112"])))))).
    eexists. split; reflexivity.
Defined.

(** X5.  When the validator reports errors, [finish] returns their
    aggregate under the message "invalid NetworkType configured"; the
    aggregate is not empty, holds no error twice and has at most four
    entries, however many CIDRs failed. *)
Theorem finish_aggregates_without_repetition :
  forall (a : AgentClusterInstall) (config : hiveext.AgentClusterInstall)
         (errs : field.ErrorList),
    Config a = Some config ->
    validateIPAddressAndNetworkType a = Returned errs ->
    errs <> [] ->
    exists agg : list error,
      finish a
      = Returned (Some (withMessage (Aggregate agg) "invalid NetworkType configured"))
      /\ agg <> []
      /\ NoDup agg
      /\ (List.length agg <= 4)%nat
      /\ (forall x, In x agg -> exists e, x = FieldError e /\ In e errs).
Proof.
  intros a config errs Ha Hv Hne.
  exists (ToAggregate_loop errs []).
  destruct (ToAggregate_loop_spec errs []) as [Hin Hnd].
  split.
  { unfold finish. rewrite Ha, Hv. cbn [bind].
    destruct errs as [|e errs]; [now elim Hne|reflexivity]. }
  split.
  { destruct errs as [|e errs]; [now elim Hne|]. cbn. discriminate. }
  split; [exact Hnd|]. split.
  - apply (NoDup_incl_length Hnd
             (l' := map FieldError
                      [parseError clusterNetworkPath; clusterIncompatible;
                       parseError serviceNetworkPath; serviceIncompatible])).
    intros x Hx. destruct (Hin x Hx) as (e & -> & He & _).
    apply in_map. exact (validate_incl a errs Hv e He).
  - intros x Hx. destruct (Hin x Hx) as (e & -> & He & _). now exists e.
Qed.

Lemma finish_aggregates_without_repetition_witness :
  exists agg : list error,
    finish (mkAsset None
              (Some (descriptorWith NetworkTypeOpenShiftSDN
                       [hiveext.mkClusterNetworkEntry "a" 0;
                        hiveext.mkClusterNetworkEntry "b" 0;
                        hiveext.mkClusterNetworkEntry "c" 0]
                       ["d"; "e"; "fd02::/112"])))
    = Returned (Some (withMessage (Aggregate agg) "invalid NetworkType configured"))
    /\ (List.length agg <= 4)%nat.
Proof.
  destruct (finish_aggregates_without_repetition
              (mkAsset None
                 (Some (descriptorWith NetworkTypeOpenShiftSDN
                          [hiveext.mkClusterNetworkEntry "a" 0;
                           hiveext.mkClusterNetworkEntry "b" 0;
                           hiveext.mkClusterNetworkEntry "c" 0]
                          ["d"; "e"; "fd02::/112"])))
              (descriptorWith NetworkTypeOpenShiftSDN
                 [hiveext.mkClusterNetworkEntry "a" 0;
                  hiveext.mkClusterNetworkEntry "b" 0;
                  hiveext.mkClusterNetworkEntry "c" 0]
                 ["d"; "e"; "fd02::/112"])
              [parseError clusterNetworkPath; parseError clusterNetworkPath;
               parseError clusterNetworkPath; parseError serviceNetworkPath;
               parseError serviceNetworkPath; serviceIncompatible]
              eq_refl)
    as (agg & Hf & _ & _ & Hlen & _).
  - vm_compute. reflexivity.
  - discriminate.
  - exists agg. split; [exact Hf | exact Hlen].
Defined.

(** ** Network type resolution, continued *)

Lemma setNetworkTypeField_same (aci : hiveext.AgentClusterInstall) :
  hiveext.setNetworkTypeField aci (networkTypeOf aci) = aci.
Proof.
  destruct aci as [meta [img cd [cn sn nt] key req api ing]]. reflexivity.
Qed.

Lemma setNetworkTypeField_twice (aci : hiveext.AgentClusterInstall) (t u : string) :
  hiveext.setNetworkTypeField (hiveext.setNetworkTypeField aci t) u
  = hiveext.setNetworkTypeField aci u.
Proof. reflexivity. Qed.

Section ResolverTiers.

Variable Platform : Type.

(** The network type that the default policy leaves: the one specified,
    the default when none is. *)
Lemma SetInstallConfigDefaults_type (c : types.InstallConfig Platform) :
  exists n : types.Networking,
    types.Networking_ (defaults.SetInstallConfigDefaults c) = Some n
    /\ types.NetworkType n
       = if String.eqb (specifiedNetworkType c) ""
         then defaults.defaultNetworkType else specifiedNetworkType c.
Proof.
  unfold defaults.SetInstallConfigDefaults, specifiedNetworkType.
  destruct (types.Networking_ c) as [n|].
  - destruct (String.eqb (types.NetworkType n) "") eqn:E;
      eexists; (split; [reflexivity|]); cbn; now rewrite ?E.
  - cbn. eexists. split; reflexivity.
Qed.

(** The resolver with an install configuration at hand, in closed form. *)
Lemma setNetworkType_tiers :
  forall (aci : hiveext.AgentClusterInstall) (c : types.InstallConfig Platform)
         (warningMessage : string),
  exists r : resolved Platform,
    setNetworkType aci (Some c) warningMessage = Returned r
    /\ networkTypeOf (res_aci r) = resolvedNetworkType aci c
    /\ res_log r
       = if defaulted aci c
         then [warningMessage ++ " Defaulting NetworkType to "
               ++ defaults.defaultNetworkType ++ "."]
         else [].
Proof.
  intros aci c warningMessage.
  destruct (SetInstallConfigDefaults_type c) as (n' & Hn' & Ht').
  unfold setNetworkType, resolvedNetworkType, defaulted.
  fold (networkTypeOf aci).
  destruct (String.eqb (networkTypeOf aci) ""); cbn [negb andb].
  2: { eexists. split; [reflexivity|]. split; reflexivity. }
  assert (Hs : match types.Networking_ c with
               | Some n =>
                   if negb (types.NetworkType n =? "")%string
                   then Some (types.NetworkType n) else None
               | None => None
               end
               = if negb (specifiedNetworkType c =? "")%string
                 then Some (specifiedNetworkType c) else None).
  { unfold specifiedNetworkType. now destruct (types.Networking_ c). }
  rewrite Hs.
  destruct (String.eqb (specifiedNetworkType c) "") eqn:E; cbn [negb].
  - cbn [deref bind]. rewrite Hn'. cbn [deref bind]. rewrite Ht'.
    eexists. split; [reflexivity|]. split; reflexivity.
  - eexists. split; [reflexivity|]. split; reflexivity.
Qed.

(** X6.  With an install configuration at hand the resolver returns, and
    the network type that it leaves in the descriptor follows the three
    tiers: the type of the descriptor when it has one, else the type of the
    install configuration when it has one, else the default.  It logs one
    line, the warning text followed by the default, when it falls back on
    the default, and nothing otherwise. *)
Theorem setNetworkType_three_tiers :
  forall (aci : hiveext.AgentClusterInstall) (c : types.InstallConfig Platform)
         (warningMessage : string),
  exists r : resolved Platform,
    setNetworkType aci (Some c) warningMessage = Returned r
    /\ networkTypeOf (res_aci r) = resolvedNetworkType aci c
    /\ res_log r
       = if defaulted aci c
         then [warningMessage ++ " Defaulting NetworkType to "
               ++ defaults.defaultNetworkType ++ "."]
         else [].
Proof.
  exact setNetworkType_tiers.
Qed.

(** X7.  The resolver writes the network type of the descriptor and no
    other field of it. *)
Theorem setNetworkType_writes_only_network_type :
  forall (aci : hiveext.AgentClusterInstall)
         (installConfig : option (types.InstallConfig Platform))
         (warningMessage : string) (r : resolved Platform),
    setNetworkType aci installConfig warningMessage = Returned r ->
    res_aci r = hiveext.setNetworkTypeField aci (networkTypeOf (res_aci r)).
Proof.
  intros aci installConfig warningMessage r.
  unfold setNetworkType.
  destruct (negb _).
  - intros [= <-]. cbn [res_aci]. now rewrite setNetworkTypeField_same.
  - destruct installConfig as [c|]; [|discriminate].
    destruct (SetInstallConfigDefaults_networkType Platform c) as (n' & Hn' & _).
    destruct (types.Networking_ c) as [n|].
    + destruct (negb (types.NetworkType n =? "")%string).
      * intros [= <-]. reflexivity.
      * cbn [deref bind]. rewrite Hn'. cbn [deref bind].
        intros [= <-]. reflexivity.
    + cbn [deref bind]. rewrite Hn'. cbn [deref bind].
      intros [= <-]. reflexivity.
Qed.

(** X8.  Without an install configuration (a nil pointer) the resolver
    panics exactly when the descriptor has no network type; a descriptor
    that has one is returned as it is. *)
Theorem setNetworkType_without_install_config :
  forall (aci : hiveext.AgentClusterInstall) (warningMessage : string),
    (networkTypeOf aci = "" ->
     setNetworkType aci (@None (types.InstallConfig Platform)) warningMessage = Panic)
    /\ (networkTypeOf aci <> "" ->
        setNetworkType aci (@None (types.InstallConfig Platform)) warningMessage
        = Returned (mkResolved aci None [])).
Proof.
  intros aci warningMessage. split.
  - intros H. unfold setNetworkType. fold (networkTypeOf aci). now rewrite H.
  - apply setNetworkType_populated.
Qed.

End ResolverTiers.

Lemma setNetworkType_writes_only_network_type_witness :
  exists r : resolved pairPlatform,
    setNetworkType
      (descriptorWith "" [hiveext.mkClusterNetworkEntry "10.128.0.0/14" 23]
         ["172.30.0.0/16"])
      (Some (types.zero ("", ""))) "Unset."
    = Returned r
    /\ res_aci r
       = descriptorWith "OVNKubernetes"
           [hiveext.mkClusterNetworkEntry "10.128.0.0/14" 23] ["172.30.0.0/16"].
Proof.
  destruct (setNetworkType
              (descriptorWith "" [hiveext.mkClusterNetworkEntry "10.128.0.0/14" 23]
                 ["172.30.0.0/16"])
              (Some (types.zero ("", ""))) "Unset.") as [r|] eqn:Hr;
    [|vm_compute in Hr; discriminate].
  exists r. split; [reflexivity|].
  rewrite (setNetworkType_writes_only_network_type pairPlatform _ _ _ r Hr).
  vm_compute in Hr. injection Hr as <-. reflexivity.
Defined.

Lemma setNetworkType_without_install_config_witness :
  setNetworkType hiveext.zero (@None (types.InstallConfig pairPlatform)) "Unset."
  = Panic
  /\ setNetworkType (descriptorWith "OpenShiftSDN" [] [])
       (@None (types.InstallConfig pairPlatform)) "Unset."
     = Returned (mkResolved (descriptorWith "OpenShiftSDN" [] []) None []).
Proof.
  split.
  - apply (proj1 (setNetworkType_without_install_config pairPlatform
                    hiveext.zero "Unset.")).
    reflexivity.
  - apply (proj2 (setNetworkType_without_install_config pairPlatform
                    (descriptorWith "OpenShiftSDN" [] []) "Unset.")).
    vm_compute. discriminate.
Defined.

(** ** The builder, continued *)

(** The worker count loop panics exactly when a pool has no replica count;
    otherwise it returns the accumulated sum, in the 64 bits of an int. *)
Lemma wrap64_add (a b : Z) : wrap64 (a + wrap64 b) = wrap64 (a + b).
Proof.
  unfold wrap64. f_equal.
  replace (a + ((b + 2 ^ 63) mod 2 ^ 64 - 2 ^ 63) + 2 ^ 63)
    with (a + (b + 2 ^ 63) mod 2 ^ 64) by lia.
  rewrite Z.add_mod_idemp_r by lia. f_equal. lia.
Qed.

Lemma wrap64_add_l (a b : Z) : wrap64 (wrap64 a + b) = wrap64 (a + b).
Proof.
  rewrite Z.add_comm, wrap64_add. f_equal. lia.
Qed.

Lemma wrap64_small (z : Z) : int64 z -> wrap64 z = z.
Proof.
  unfold int64, wrap64. intros H.
  rewrite Z.mod_small by lia. lia.
Qed.

Lemma wrap64_range (z : Z) : int64 (wrap64 z).
Proof.
  unfold int64, wrap64.
  pose proof (Z.mod_pos_bound (z + 2 ^ 63) (2 ^ 64) ltac:(lia)) as Hb.
  lia.
Qed.

Lemma sumReplicas_spec (compute : list types.MachinePool) :
  forall numberOfWorkers : Z,
    match computeReplicas compute with
    | Some rs =>
        exists n, sumReplicas compute numberOfWorkers = Returned n
                  /\ wrap64 n = wrap64 (numberOfWorkers + sumZ rs)
                  /\ (compute <> [] -> wrap64 n = n)
    | None => sumReplicas compute numberOfWorkers = Panic
    end.
Proof.
  induction compute as [|pool rest IH]; intros numberOfWorkers;
    cbn [computeReplicas sumReplicas].
  - exists numberOfWorkers. cbn. rewrite Z.add_0_r.
    split; [reflexivity|]. split; [reflexivity|]. intros H; now elim H.
  - destruct (types.Replicas pool) as [r|]; cbn [deref bind]; [|reflexivity].
    specialize (IH (wrap64 (numberOfWorkers + wrap64 r))).
    destruct (computeReplicas rest) as [rs|]; [|exact IH].
    destruct IH as (n & Hn & Hw & Hid).
    exists n. split; [exact Hn|]. split.
    + rewrite Hw. cbn [sumZ fold_right]. fold (sumZ rs).
      rewrite wrap64_add_l.
      replace (numberOfWorkers + wrap64 r + sumZ rs)
        with (numberOfWorkers + sumZ rs + wrap64 r) by lia.
      rewrite wrap64_add. f_equal. lia.
    + intros _. destruct rest as [|pool' rest'].
      * cbn in Hn. injection Hn as <-.
        apply wrap64_small, wrap64_range.
      * apply Hid. discriminate.
Qed.

(** The cluster network loop keeps the order and the host prefixes of the
    entries, and stops with an error at an entry whose text does not
    parse. *)
Lemma clusterNetworkEntries_spec (entries : list types.ClusterNetworkEntry) :
  forall (acc out : list hiveext.ClusterNetworkEntry),
    clusterNetworkEntries entries acc = inr out ->
    exists new : list hiveext.ClusterNetworkEntry,
      out = (acc ++ new)%list
      /\ map hiveext.HostPrefix new = map types.HostPrefix entries
      /\ forall cn, In cn entries -> unparsable (ipnet.String_ (types.CIDR cn)) = false.
Proof.
  induction entries as [|cn rest IH]; intros acc out; cbn [clusterNetworkEntries].
  - intros [= <-]. exists []. rewrite app_nil_r. repeat split. intros cn [].
  - destruct (net.ParseCIDR (ipnet.String_ (types.CIDR cn)))
      as [[ip [cidr|]] [e|]] eqn:Hparse; try discriminate.
    destruct (validate.SubnetCIDR cidr); [discriminate|].
    intros H. destruct (IH _ _ H) as (new & -> & Hp & Hok).
    eexists (_ :: new). rewrite <- app_assoc. cbn [app map]. rewrite Hp.
    repeat split.
    intros cn' [<-|Hin]; [|now apply Hok].
    unfold unparsable. now rewrite Hparse.
Qed.

Lemma clusterNetworkEntries_fails (entries : list types.ClusterNetworkEntry) :
  forall (acc : list hiveext.ClusterNetworkEntry) (cn : types.ClusterNetworkEntry),
    In cn entries ->
    unparsable (ipnet.String_ (types.CIDR cn)) = true ->
    exists err : error, clusterNetworkEntries entries acc = inl err.
Proof.
  intros acc cn Hin Hbad.
  destruct (clusterNetworkEntries entries acc) as [err|out] eqn:H;
    [now exists err|].
  destruct (clusterNetworkEntries_spec entries acc out H) as (_ & _ & _ & Hok).
  rewrite (Hok cn Hin) in Hbad. discriminate.
Qed.

(** The service network loop keeps the number of the entries, and stops
    with an error at an entry whose text does not parse. *)
Lemma serviceNetworkEntries_spec (entries : list ipnet.IPNet) :
  forall (acc out : list string),
    serviceNetworkEntries entries acc = inr out ->
    exists new : list string,
      out = (acc ++ new)%list
      /\ List.length new = List.length entries
      /\ forall sn, In sn entries -> unparsable (ipnet.String_ sn) = false.
Proof.
  induction entries as [|sn rest IH]; intros acc out; cbn [serviceNetworkEntries].
  - intros [= <-]. exists []. rewrite app_nil_r. repeat split. intros sn [].
  - unfold ipnet.ParseCIDR.
    destruct (net.ParseCIDR (ipnet.String_ sn))
      as [[ip [cidr|]] [e|]] eqn:Hparse; try discriminate.
    intros H. destruct (IH _ _ H) as (new & -> & Hl & Hok).
    eexists (_ :: new). rewrite <- app_assoc. cbn [app List.length]. rewrite Hl.
    repeat split.
    intros sn' [<-|Hin]; [|now apply Hok].
    unfold unparsable. now rewrite Hparse.
Qed.

Lemma serviceNetworkEntries_fails (entries : list ipnet.IPNet) :
  forall (acc : list string) (sn : ipnet.IPNet),
    In sn entries ->
    unparsable (ipnet.String_ sn) = true ->
    exists err : error, serviceNetworkEntries entries acc = inl err.
Proof.
  intros acc sn Hin Hbad.
  destruct (serviceNetworkEntries entries acc) as [err|out] eqn:H;
    [now exists err|].
  destruct (serviceNetworkEntries_spec entries acc out H) as (_ & _ & _ & Hok).
  rewrite (Hok sn Hin) in Hbad. discriminate.
Qed.

Section BuilderParts.

Variable Platform : Type.
Variable getVIPs : Platform -> string * string.
Variable getAgentClusterInstallName : agent.OptionalInstallConfig Platform -> string.
Variable getObjectMetaNamespace : agent.OptionalInstallConfig Platform -> string.
Variable getClusterImageSetReferenceName : string.
Variable getClusterDeploymentName : agent.OptionalInstallConfig Platform -> string.
Variable agentClusterInstallFilename : string.
Variable yaml_Marshal : hiveext.AgentClusterInstall -> string * option error.

Local Abbreviation build :=
  (Generate Platform getVIPs getAgentClusterInstallName getObjectMetaNamespace
     getClusterImageSetReferenceName getClusterDeploymentName
     agentClusterInstallFilename yaml_Marshal).

Local Abbreviation base installConfig clusterNetwork serviceNetwork sshKey
      replicas numberOfWorkers :=
  (baseDescriptor (getAgentClusterInstallName installConfig)
     (getObjectMetaNamespace installConfig) getClusterImageSetReferenceName
     (getClusterDeploymentName installConfig) clusterNetwork serviceNetwork
     sshKey replicas numberOfWorkers).

(** The steps of a build that returned once both CIDR loops had
    succeeded. *)
Lemma Generate_built (a : AgentClusterInstall)
      (installConfig : agent.OptionalInstallConfig Platform)
      (config : types.InstallConfig Platform) (r : generated Platform)
      (networking : types.Networking)
      (clusterNetwork : list hiveext.ClusterNetworkEntry)
      (serviceNetwork : list string) :
  agent.Config installConfig = Some config ->
  types.Networking_ config = Some networking ->
  clusterNetworkEntries (types.ClusterNetwork networking) [] = inr clusterNetwork ->
  serviceNetworkEntries (types.ServiceNetwork networking) [] = inr serviceNetwork ->
  build a installConfig = Returned r ->
  exists (numberOfWorkers replicas : Z) (res : resolved Platform)
         (d : hiveext.AgentClusterInstall),
    sumReplicas (types.Compute config) 0 = Returned numberOfWorkers
    /\ controlPlaneReplicas config = Some replicas
    /\ setNetworkType
         (base installConfig clusterNetwork serviceNetwork (types.SSHKey config)
               replicas numberOfWorkers)
         (Some config) "NetworkType is not specified in InstallConfig."
       = Returned res
    /\ d = withVIPs replicas (getVIPs (types.Platform_ config)) (res_aci res)
    /\ gen_installConfig r = agent.mkOptionalInstallConfig (res_installConfig res)
    /\ gen_log r = res_log res
    /\ ((exists err,
            snd (yaml_Marshal d) = Some err
            /\ gen_asset r = mkAsset (File a) (Some d)
            /\ gen_err r
               = Some (withMessage err
                         "failed to marshal agent installer AgentClusterInstall"))
        \/ (snd (yaml_Marshal d) = None
            /\ gen_asset r
               = mkAsset (Some {| asset.Filename := agentClusterInstallFilename;
                                  asset.Data := fst (yaml_Marshal d) |})
                         (Some d)
            /\ finish (gen_asset r) = Returned (gen_err r))).
Proof.
  intros Hc Hn Hcn Hsn. unfold Generate, controlPlaneReplicas. rewrite Hc.
  destruct (sumReplicas _ _) as [numberOfWorkers|]; [|discriminate].
  cbn [bind]. rewrite Hn. cbn [deref bind]. rewrite Hcn, Hsn.
  destruct (types.ControlPlane config) as [controlPlane|] eqn:Hcp; [|discriminate].
  cbn [deref bind].
  destruct (types.Replicas controlPlane) as [replicas|] eqn:Hr; [|discriminate].
  cbn [deref bind].
  fold (base installConfig clusterNetwork serviceNetwork (types.SSHKey config)
             (wrap64 replicas) numberOfWorkers).
  destruct (setNetworkType _ (Some config) _) as [res|] eqn:Hres; [|discriminate].
  pose proof (fun H => setNetworkType_unset Platform _ config _ res H Hres) as Hu.
  destruct (Hu eq_refl) as (t & c' & Haci & Hic & Hp & Hcp'). clear Hu.
  cbn [bind]. rewrite Hic. cbn [deref bind]. rewrite Hp, Hcp', Hcp.
  unfold withVIPs.
  destruct (getVIPs (types.Platform_ config)) as [apiVIP ingressVIP].
  cbn [deref bind fst snd]. rewrite Hr. cbn [deref bind].
  set (d := if (1 <? wrap64 replicas) && _ && _ then _ else _).
  destruct (yaml_Marshal d) as [data [err|]] eqn:Hy.
  - intros [= <-]. exists numberOfWorkers, (wrap64 replicas), res, d.
    do 6 (split; [first [reflexivity | exact Hres | cbn; now rewrite Hic]|]).
    left. exists err. repeat split. now rewrite Hy.
  - cbn [Config File].
    destruct (finish _) as [e|] eqn:Hf; [|discriminate].
    cbn [bind]. intros [= <-].
    exists numberOfWorkers, (wrap64 replicas), res, d.
    do 6 (split; [first [reflexivity | exact Hres | cbn; now rewrite Hic]|]).
    right. rewrite Hy. cbn [gen_asset gen_err fst snd]. repeat split. exact Hf.
Qed.

(** A build that returned has run both CIDR loops, unless a pointer was
    nil. *)
Lemma Generate_returned_loops (a : AgentClusterInstall)
      (installConfig : agent.OptionalInstallConfig Platform)
      (config : types.InstallConfig Platform) (r : generated Platform) :
  agent.Config installConfig = Some config ->
  build a installConfig = Returned r ->
  exists networking : types.Networking,
    types.Networking_ config = Some networking
    /\ ((exists err,
            (clusterNetworkEntries (types.ClusterNetwork networking) [] = inl err
             \/ serviceNetworkEntries (types.ServiceNetwork networking) [] = inl err)
            /\ r = mkGenerated a installConfig [] (Some err))
        \/ (exists clusterNetwork serviceNetwork,
               clusterNetworkEntries (types.ClusterNetwork networking) []
               = inr clusterNetwork
               /\ serviceNetworkEntries (types.ServiceNetwork networking) []
                  = inr serviceNetwork)).
Proof.
  intros Hc. unfold Generate. rewrite Hc.
  destruct (sumReplicas _ _) as [numberOfWorkers|]; [|discriminate].
  cbn [bind].
  destruct (types.Networking_ config) as [networking|]; [|discriminate].
  cbn [deref bind]. intros H. exists networking. split; [reflexivity|].
  destruct (clusterNetworkEntries _ _) as [err|clusterNetwork].
  { left. exists err. split; [now left|]. now injection H as <-. }
  destruct (serviceNetworkEntries _ _) as [err|serviceNetwork].
  { left. exists err. split; [now right|]. now injection H as <-. }
  right. now exists clusterNetwork, serviceNetwork.
Qed.

(** The parts of an accepted build. *)
Lemma Generate_accepted_parts (a : AgentClusterInstall)
      (installConfig : agent.OptionalInstallConfig Platform)
      (config : types.InstallConfig Platform) (r : generated Platform) :
  agent.Config installConfig = Some config ->
  build a installConfig = Returned r ->
  gen_err r = None ->
  exists (networking : types.Networking)
         (clusterNetwork : list hiveext.ClusterNetworkEntry)
         (serviceNetwork : list string)
         (numberOfWorkers replicas : Z) (res : resolved Platform)
         (d : hiveext.AgentClusterInstall),
    types.Networking_ config = Some networking
    /\ clusterNetworkEntries (types.ClusterNetwork networking) [] = inr clusterNetwork
    /\ serviceNetworkEntries (types.ServiceNetwork networking) [] = inr serviceNetwork
    /\ sumReplicas (types.Compute config) 0 = Returned numberOfWorkers
    /\ controlPlaneReplicas config = Some replicas
    /\ setNetworkType
         (base installConfig clusterNetwork serviceNetwork (types.SSHKey config)
               replicas numberOfWorkers)
         (Some config) "NetworkType is not specified in InstallConfig."
       = Returned res
    /\ d = withVIPs replicas (getVIPs (types.Platform_ config)) (res_aci res)
    /\ snd (yaml_Marshal d) = None
    /\ r = mkGenerated
             (mkAsset (Some {| asset.Filename := agentClusterInstallFilename;
                               asset.Data := fst (yaml_Marshal d) |})
                      (Some d))
             (agent.mkOptionalInstallConfig (res_installConfig res))
             (res_log res) None
    /\ finish (gen_asset r) = Returned None.
Proof.
  intros Hc Hg He.
  destruct (Generate_returned_loops a installConfig config r Hc Hg)
    as (networking & Hn & [(err & _ & ->)|(clusterNetwork & serviceNetwork & Hcn & Hsn)]);
    [discriminate|].
  destruct (Generate_built a installConfig config r networking clusterNetwork
              serviceNetwork Hc Hn Hcn Hsn Hg)
    as (numberOfWorkers & replicas & res & d & Hw & Hrep & Hres & Hd & Hic & Hlog
        & [(err & _ & _ & Herr)|(Hy & Ha & Hf)]);
    [congruence|].
  exists networking, clusterNetwork, serviceNetwork, numberOfWorkers, replicas, res, d.
  repeat split; auto.
  - destruct r as [ra ric rlog rerr]. cbn in *. now subst.
  - now rewrite <- He.
Qed.

End BuilderParts.

(** The worker count loop of the builder, from zero. *)
Lemma sumReplicas_from_zero (compute : list types.MachinePool) (rs : list Z) :
  computeReplicas compute = Some rs ->
  sumReplicas compute 0 = Returned (wrap64 (sumZ rs)).
Proof.
  intros Hrs. pose proof (sumReplicas_spec compute 0) as Hs. rewrite Hrs in Hs.
  destruct Hs as (n & Hn & Hsum & Hid). rewrite Hn. f_equal.
  destruct compute as [|pool rest].
  - cbn in Hrs. injection Hrs as <-. cbn in Hn. injection Hn as <-. reflexivity.
  - rewrite <- Hid by discriminate. exact Hsum.
Qed.

Lemma finish_returns (a : AgentClusterInstall) :
  exists e : option error, finish a = Returned e.
Proof.
  destruct (Config a) as [config|] eqn:Ha.
  - destruct (validate_returns a config Ha) as (errs & Hv).
    unfold finish. rewrite Ha, Hv. cbn [bind].
    destruct (ToAggregate errs); eexists; reflexivity.
  - unfold finish. rewrite Ha. eexists; reflexivity.
Qed.

Lemma finish_accepts (a : AgentClusterInstall) (config : hiveext.AgentClusterInstall) :
  Config a = Some config ->
  finish a = Returned None ->
  validateIPAddressAndNetworkType a = Returned [].
Proof.
  intros Ha Hf.
  destruct (validate_returns a config Ha) as (errs & Hv).
  destruct (finish_validated a config errs Ha Hv) as (_ & Hbad).
  destruct errs as [|e errs]; [exact Hv|].
  destruct (Hbad ltac:(discriminate)) as (err & Hf'). congruence.
Qed.

Lemma withVIPs_keeps (replicas : Z) (vips : string * string)
      (aci : hiveext.AgentClusterInstall) :
  hiveext.Networking_ (hiveext.Spec (withVIPs replicas vips aci))
  = hiveext.Networking_ (hiveext.Spec aci)
  /\ hiveext.ProvisionRequirements_ (hiveext.Spec (withVIPs replicas vips aci))
     = hiveext.ProvisionRequirements_ (hiveext.Spec aci)
  /\ hiveext.SSHPublicKey (hiveext.Spec (withVIPs replicas vips aci))
     = hiveext.SSHPublicKey (hiveext.Spec aci).
Proof.
  unfold withVIPs. destruct (_ && _ && _); repeat split.
Qed.

Section BuilderProperties.

Variable Platform : Type.
Variable getVIPs : Platform -> string * string.
Variable getAgentClusterInstallName : agent.OptionalInstallConfig Platform -> string.
Variable getObjectMetaNamespace : agent.OptionalInstallConfig Platform -> string.
Variable getClusterImageSetReferenceName : string.
Variable getClusterDeploymentName : agent.OptionalInstallConfig Platform -> string.
Variable agentClusterInstallFilename : string.
Variable yaml_Marshal : hiveext.AgentClusterInstall -> string * option error.

Local Abbreviation build :=
  (Generate Platform getVIPs getAgentClusterInstallName getObjectMetaNamespace
     getClusterImageSetReferenceName getClusterDeploymentName
     agentClusterInstallFilename yaml_Marshal).

Local Abbreviation accepted_parts :=
  (Generate_accepted_parts Platform getVIPs getAgentClusterInstallName
     getObjectMetaNamespace getClusterImageSetReferenceName
     getClusterDeploymentName agentClusterInstallFilename yaml_Marshal).

(** X9.  Without an install configuration the builder builds nothing: it
    returns what [finish] says about the asset as it stands, leaves the
    asset and the dependency untouched and logs nothing; on an asset
    without a descriptor the error is "missing configuration or manifest
    file". *)
Theorem Generate_without_install_configuration :
  forall (a : AgentClusterInstall)
         (installConfig : agent.OptionalInstallConfig Platform),
    agent.Config installConfig = None ->
    exists e : option error,
      build a installConfig = Returned (mkGenerated a installConfig [] e)
      /\ finish a = Returned e
      /\ (Config a = None ->
          e = Some (errorString "missing configuration or manifest file")).
Proof.
  intros a installConfig Hc.
  destruct (finish_returns a) as (e & Hf).
  exists e. unfold Generate. rewrite Hc, Hf. cbn [bind].
  split; [reflexivity|]. split; [reflexivity|].
  intros Ha. unfold finish in Hf. rewrite Ha in Hf. now injection Hf as <-.
Qed.

(** X10.  A nil pointer in the install configuration: when a compute pool
    has no replica count, or when the configuration has no networking
    block, the builder panics; when the control plane or its replica count
    is missing, the builder is never accepted and adopts no descriptor. *)
Theorem Generate_nil_pointers :
  forall (a : AgentClusterInstall)
         (installConfig : agent.OptionalInstallConfig Platform)
         (config : types.InstallConfig Platform),
    agent.Config installConfig = Some config ->
    (computeReplicas (types.Compute config) = None ->
     build a installConfig = Panic)
    /\ (types.Networking_ config = None -> build a installConfig = Panic)
    /\ (controlPlaneReplicas config = None ->
        forall r, build a installConfig = Returned r ->
                  gen_err r <> None /\ gen_asset r = a).
Proof.
  intros a installConfig config Hc. split; [|split].
  - intros Hnil. pose proof (sumReplicas_spec (types.Compute config) 0) as Hs.
    rewrite Hnil in Hs. unfold Generate. now rewrite Hc, Hs.
  - intros Hnil. unfold Generate. rewrite Hc, Hnil.
    now destruct (sumReplicas _ _).
  - intros Hnil r Hg.
    destruct (Generate_returned_loops _ _ _ _ _ _ _ _ a installConfig config r Hc Hg)
      as (networking & Hn & [(err & _ & ->)|(cn & sn & Hcn & Hsn)]).
    + split; [discriminate|reflexivity].
    + destruct (Generate_built _ _ _ _ _ _ _ _ a installConfig config r networking
                  cn sn Hc Hn Hcn Hsn Hg) as (_ & replicas & _ & _ & _ & Hrep & _).
      congruence.
Qed.

(** X11.  In the descriptor of an accepted build the number of worker
    agents is the sum of the replica counts of the compute pools in the 64
    bits of an int, and the sum itself when it fits. *)
Theorem Generate_counts_workers :
  forall (a : AgentClusterInstall)
         (installConfig : agent.OptionalInstallConfig Platform)
         (config : types.InstallConfig Platform) (r : generated Platform),
    agent.Config installConfig = Some config ->
    build a installConfig = Returned r ->
    gen_err r = None ->
    exists (d : hiveext.AgentClusterInstall) (replicas : list Z),
      Config (gen_asset r) = Some d
      /\ computeReplicas (types.Compute config) = Some replicas
      /\ hiveext.WorkerAgents (hiveext.ProvisionRequirements_ (hiveext.Spec d))
         = wrap64 (sumZ replicas)
      /\ (int64 (sumZ replicas) ->
          hiveext.WorkerAgents (hiveext.ProvisionRequirements_ (hiveext.Spec d))
          = sumZ replicas).
Proof.
  intros a installConfig config r Hc Hg He.
  destruct (accepted_parts a installConfig config r Hc Hg He)
    as (networking & cn & sn & n & replicas & res & d
        & Hn & Hcn & Hsn & Hw & Hrep & Hres & Hd & Hy & -> & Hf).
  pose proof (sumReplicas_spec (types.Compute config) 0) as Hs.
  destruct (computeReplicas (types.Compute config)) as [rs|] eqn:Hrs;
    [clear Hs|congruence].
  assert (Hn64 : n = wrap64 (sumZ rs)).
  { pose proof (sumReplicas_from_zero _ _ Hrs) as Hs. congruence. }
  exists d, rs. split; [reflexivity|]. split; [reflexivity|].
  pose proof (fun H => setNetworkType_unset Platform _ config _ res H Hres) as Hu.
  destruct (Hu eq_refl) as (t & c' & Haci & _). clear Hu.
  destruct (withVIPs_keeps replicas (getVIPs (types.Platform_ config)) (res_aci res))
    as (_ & Hreq & _).
  assert (Hwa : hiveext.WorkerAgents
                  (hiveext.ProvisionRequirements_ (hiveext.Spec d)) = n).
  { rewrite Hd, Hreq, Haci. reflexivity. }
  rewrite Hwa. split; [exact Hn64|].
  intros Hfit. rewrite Hn64. now apply wrap64_small.
Qed.

(** X12.  The builder fails fast on a malformed range: when the text of a
    cluster-network or service-network CIDR of the configuration does not
    parse, a build that returns does so with an error, and it has adopted
    no descriptor, recorded no file, left the dependency as it was and
    logged nothing. *)
Theorem Generate_fails_fast_on_malformed_CIDR :
  forall (a : AgentClusterInstall)
         (installConfig : agent.OptionalInstallConfig Platform)
         (config : types.InstallConfig Platform) (networking : types.Networking)
         (r : generated Platform),
    agent.Config installConfig = Some config ->
    types.Networking_ config = Some networking ->
    (exists cn, In cn (types.ClusterNetwork networking)
                /\ unparsable (ipnet.String_ (types.CIDR cn)) = true)
    \/ (exists sn, In sn (types.ServiceNetwork networking)
                   /\ unparsable (ipnet.String_ sn) = true) ->
    build a installConfig = Returned r ->
    exists err : error, r = mkGenerated a installConfig [] (Some err).
Proof.
  intros a installConfig config networking r Hc Hn Hbad Hg.
  destruct (Generate_returned_loops _ _ _ _ _ _ _ _ a installConfig config r Hc Hg)
    as (networking' & Hn' & [(err & _ & ->)|(cn & sn & Hcn & Hsn)]);
    [now exists err|].
  assert (networking' = networking) by congruence. subst networking'.
  destruct Hbad as [(bad & Hin & Hu)|(bad & Hin & Hu)].
  - destruct (clusterNetworkEntries_fails _ [] bad Hin Hu) as (err & He). congruence.
  - destruct (serviceNetworkEntries_fails _ [] bad Hin Hu) as (err & He). congruence.
Qed.

(** X13.  The descriptor of an accepted build has one cluster-network entry
    per entry of the configuration, in order and with the same host
    prefixes, and one service-network entry per entry of the
    configuration; and every CIDR of the configuration printed to a text
    that parses. *)
Theorem Generate_keeps_network_shape :
  forall (a : AgentClusterInstall)
         (installConfig : agent.OptionalInstallConfig Platform)
         (config : types.InstallConfig Platform) (r : generated Platform),
    agent.Config installConfig = Some config ->
    build a installConfig = Returned r ->
    gen_err r = None ->
    exists (d : hiveext.AgentClusterInstall) (networking : types.Networking),
      Config (gen_asset r) = Some d
      /\ types.Networking_ config = Some networking
      /\ map hiveext.HostPrefix
             (hiveext.ClusterNetwork (hiveext.Networking_ (hiveext.Spec d)))
         = map types.HostPrefix (types.ClusterNetwork networking)
      /\ List.length (hiveext.ServiceNetwork (hiveext.Networking_ (hiveext.Spec d)))
         = List.length (types.ServiceNetwork networking)
      /\ (forall cn, In cn (types.ClusterNetwork networking) ->
                     unparsable (ipnet.String_ (types.CIDR cn)) = false)
      /\ (forall sn, In sn (types.ServiceNetwork networking) ->
                     unparsable (ipnet.String_ sn) = false).
Proof.
  intros a installConfig config r Hc Hg He.
  destruct (accepted_parts a installConfig config r Hc Hg He)
    as (networking & cn & sn & n & replicas & res & d
        & Hn & Hcn & Hsn & Hw & Hrep & Hres & Hd & Hy & -> & Hf).
  destruct (clusterNetworkEntries_spec _ _ _ Hcn) as (newc & Ec & Hpre & Hokc).
  destruct (serviceNetworkEntries_spec _ _ _ Hsn) as (news & Es & Hlen & Hoks).
  cbn [app] in Ec, Es. subst cn sn.
  pose proof (fun H => setNetworkType_unset Platform _ config _ res H Hres) as Hu.
  destruct (Hu eq_refl) as (t & c' & Haci & _). clear Hu.
  destruct (withVIPs_keeps replicas (getVIPs (types.Platform_ config)) (res_aci res))
    as (Hnet & _ & _).
  exists d, networking. split; [reflexivity|]. split; [exact Hn|].
  rewrite Hd, Hnet, Haci. cbn. repeat split; auto.
Qed.

(** X14.  After an accepted build the asset holds exactly one file: its
    name is the manifest file name and its content is the marshalling of
    the descriptor that the asset has adopted. *)
Theorem Generate_file_is_marshalled_descriptor :
  forall (a : AgentClusterInstall)
         (installConfig : agent.OptionalInstallConfig Platform)
         (config : types.InstallConfig Platform) (r : generated Platform),
    agent.Config installConfig = Some config ->
    build a installConfig = Returned r ->
    gen_err r = None ->
    exists d : hiveext.AgentClusterInstall,
      Config (gen_asset r) = Some d
      /\ snd (yaml_Marshal d) = None
      /\ Files (gen_asset r)
         = [{| asset.Filename := agentClusterInstallFilename;
               asset.Data := fst (yaml_Marshal d) |}].
Proof.
  intros a installConfig config r Hc Hg He.
  destruct (accepted_parts a installConfig config r Hc Hg He)
    as (networking & cn & sn & n & replicas & res & d
        & Hn & Hcn & Hsn & Hw & Hrep & Hres & Hd & Hy & -> & Hf).
  exists d. repeat split. exact Hy.
Qed.

(** X15.  The descriptor of an accepted build carries the network type of
    the configuration when it specifies one and the default otherwise; it
    is not empty and the validator has nothing to report on it.  The
    builder logs the defaulting notice exactly when the configuration
    specifies no network type. *)
Theorem Generate_resolves_network_type :
  forall (a : AgentClusterInstall)
         (installConfig : agent.OptionalInstallConfig Platform)
         (config : types.InstallConfig Platform) (r : generated Platform),
    agent.Config installConfig = Some config ->
    build a installConfig = Returned r ->
    gen_err r = None ->
    exists d : hiveext.AgentClusterInstall,
      Config (gen_asset r) = Some d
      /\ networkTypeOf d
         = (if String.eqb (specifiedNetworkType config) ""
            then defaults.defaultNetworkType else specifiedNetworkType config)
      /\ networkTypeOf d <> ""
      /\ validateIPAddressAndNetworkType (gen_asset r) = Returned []
      /\ gen_log r
         = (if String.eqb (specifiedNetworkType config) ""
            then ["NetworkType is not specified in InstallConfig."
                  ++ " Defaulting NetworkType to "
                  ++ defaults.defaultNetworkType ++ "."]
            else []).
Proof.
  intros a installConfig config r Hc Hg He.
  destruct (accepted_parts a installConfig config r Hc Hg He)
    as (networking & cn & sn & n & replicas & res & d
        & Hn & Hcn & Hsn & Hw & Hrep & Hres & Hd & Hy & -> & Hf).
  match type of Hres with
  | setNetworkType ?aci _ ?msg = _ =>
      destruct (setNetworkType_tiers Platform aci config msg)
        as (res' & Hres' & Htype & Hlog)
  end.
  rewrite Hres in Hres'. injection Hres' as <-.
  destruct (withVIPs_keeps replicas (getVIPs (types.Platform_ config)) (res_aci res))
    as (Hnet & _ & _).
  assert (Hd_type : networkTypeOf d = networkTypeOf (res_aci res))
    by (unfold networkTypeOf; now rewrite Hd, Hnet).
  exists d. split; [reflexivity|].
  unfold resolvedNetworkType in Htype. unfold defaulted in Hlog.
  cbn [networkTypeOf baseDescriptor hiveext.NetworkType hiveext.Networking_
       hiveext.Spec String.eqb negb andb] in Htype, Hlog.
  rewrite Hd_type, Htype. cbn [gen_log gen_asset]. rewrite Hlog.
  destruct (String.eqb_spec (specifiedNetworkType config) "") as [E|N];
    cbn [negb]; (split; [reflexivity|]); (split; [|split; [|reflexivity]]).
  - discriminate.
  - now apply (finish_accepts _ d).
  - exact N.
  - now apply (finish_accepts _ d).
Qed.

(** X16.  When the marshaller fails on every descriptor, a build that
    returns does so with an error and records no file. *)
Theorem Generate_marshal_failure_records_no_file :
  forall (a : AgentClusterInstall)
         (installConfig : agent.OptionalInstallConfig Platform)
         (config : types.InstallConfig Platform) (r : generated Platform),
    agent.Config installConfig = Some config ->
    (forall d, snd (yaml_Marshal d) <> None) ->
    build a installConfig = Returned r ->
    gen_err r <> None /\ Files (gen_asset r) = Files a.
Proof.
  intros a installConfig config r Hc Hfail Hg.
  destruct (Generate_returned_loops _ _ _ _ _ _ _ _ a installConfig config r Hc Hg)
    as (networking & Hn & [(err & _ & ->)|(cn & sn & Hcn & Hsn)]).
  - split; [discriminate|reflexivity].
  - destruct (Generate_built _ _ _ _ _ _ _ _ a installConfig config r networking
                cn sn Hc Hn Hcn Hsn Hg)
      as (n & replicas & res & d & _ & _ & _ & _ & _ & _
          & [(err & _ & Ha & Herr)|(Hy & _)]).
    + rewrite Herr, Ha. split; [discriminate|reflexivity].
    + now elim (Hfail d).
Qed.

End BuilderProperties.

(** ** The loader, continued *)

(** With the restricted plugin an IPv6 range makes the error list
    non-empty. *)
Lemma restricted_IPv6_reported (a : AgentClusterInstall)
      (config : hiveext.AgentClusterInstall) (errs : field.ErrorList) :
  Config a = Some config ->
  networkTypeOf config = NetworkTypeOpenShiftSDN ->
  (exists cn,
      In cn (hiveext.ClusterNetwork (hiveext.Networking_ (hiveext.Spec config)))
      /\ classifyIPFamily (hiveext.CIDR cn) = IPv6)
  \/ (exists cidr,
         In cidr (hiveext.ServiceNetwork (hiveext.Networking_ (hiveext.Spec config)))
         /\ classifyIPFamily cidr = IPv6) ->
  validateIPAddressAndNetworkType a = Returned errs ->
  errs <> [].
Proof.
  intros Ha Ht Hv6 Hv.
  rewrite (validate_restricted a config Ha Ht) in Hv. injection Hv as <-.
  intros Hnil.
  pose proof (restrictedErrors_length
                (map hiveext.CIDR
                   (hiveext.ClusterNetwork (hiveext.Networking_ (hiveext.Spec config))))
                (hiveext.ServiceNetwork (hiveext.Networking_ (hiveext.Spec config))))
    as Hlen.
  rewrite Hnil in Hlen. cbn [List.length] in Hlen.
  destruct Hv6 as [(cn & Hin & H6)|(cidr & Hin & H6)].
  - assert (E : existsb parsable
                  (map hiveext.CIDR
                     (hiveext.ClusterNetwork (hiveext.Networking_ (hiveext.Spec config))))
                = true).
    { apply existsb_exists. exists (hiveext.CIDR cn).
      split; [now apply in_map|now apply classifyIPFamily_IPv6_parsable]. }
    rewrite E in Hlen. lia.
  - assert (E : existsb parsable
                  (hiveext.ServiceNetwork (hiveext.Networking_ (hiveext.Spec config)))
                = true).
    { apply existsb_exists. exists cidr.
      split; [exact Hin|now apply classifyIPFamily_IPv6_parsable]. }
    rewrite E in Hlen. destruct (existsb parsable _); lia.
Qed.

Section LoaderProperties.

Variable Platform : Type.
Variable zeroPlatform : Platform.
Variable agentClusterInstallFilename : string.
Variable yaml_UnmarshalStrict : string -> hiveext.AgentClusterInstall * option error.

Local Abbreviation load :=
  (Load Platform zeroPlatform agentClusterInstallFilename yaml_UnmarshalStrict).

Local Abbreviation parsed :=
  (Load_parsed Platform zeroPlatform agentClusterInstallFilename yaml_UnmarshalStrict).

(** The resolver of the loader, which runs on a blank install
    configuration: the type of the descriptor, else the default. *)
Lemma setNetworkType_blank (aci : hiveext.AgentClusterInstall) (res : resolved Platform) :
  setNetworkType aci (Some (types.zero zeroPlatform))
    "NetworkType is not specified in AgentClusterInstall." = Returned res ->
  res_aci res
  = hiveext.setNetworkTypeField aci
      (if String.eqb (networkTypeOf aci) "" then defaults.defaultNetworkType
       else networkTypeOf aci)
  /\ res_log res
     = (if String.eqb (networkTypeOf aci) ""
        then ["NetworkType is not specified in AgentClusterInstall."
              ++ " Defaulting NetworkType to " ++ defaults.defaultNetworkType ++ "."]
        else []).
Proof.
  unfold setNetworkType. fold (networkTypeOf aci).
  destruct (String.eqb (networkTypeOf aci) ""); cbn [negb].
  - cbn. intros [= <-]. split; reflexivity.
  - intros [= <-]. cbn [res_aci res_log].
    now rewrite setNetworkTypeField_same.
Qed.

(** X17.  [Load] panics in one case only: when the fetcher returns neither
    a file nor an error.  In every other case it returns. *)
Theorem Load_panics_only_without_file_and_error :
  forall (a : AgentClusterInstall) (f : asset.FileFetcher),
    load a f = Panic
    <-> asset.FetchByName f agentClusterInstallFilename = (None, None).
Proof.
  intros a f. split.
  - intros Hl.
    destruct (asset.FetchByName f agentClusterInstallFilename)
      as [file [err|]] eqn:Hf.
    + unfold Load in Hl. rewrite Hf in Hl. now destruct (os.IsNotExist err).
    + destruct file as [file|]; [|reflexivity].
      destruct (yaml_UnmarshalStrict (asset.Data file)) as [aci [err|]] eqn:Hu.
      * unfold Load in Hl. rewrite Hf in Hl. cbn [deref bind] in Hl.
        rewrite Hu in Hl. discriminate.
      * destruct (parsed a f file aci Hf Hu) as (res & errs & _ & _ & Hok & Hbad).
        destruct errs as [|e errs].
        -- rewrite (Hok eq_refl) in Hl. discriminate.
        -- destruct (Hbad ltac:(discriminate)) as (err & Hl'). congruence.
  - intros Hf. unfold Load. now rewrite Hf.
Qed.

(** X18.  Until the manifest file has been fetched and has parsed under the
    strict mode, [Load] adopts no descriptor: it returns found=false,
    leaves the descriptor of the asset as it was and logs nothing. *)
Theorem Load_keeps_descriptor_until_parsed :
  forall (a : AgentClusterInstall) (f : asset.FileFetcher) (r : loaded),
    load a f = Returned r ->
    (forall file aci,
        asset.FetchByName f agentClusterInstallFilename = (Some file, None) ->
        yaml_UnmarshalStrict (asset.Data file) <> (aci, None)) ->
    load_found r = false
    /\ Config (load_asset r) = Config a
    /\ load_log r = [].
Proof.
  intros a f r Hl Hnot. unfold Load in Hl.
  destruct (asset.FetchByName f agentClusterInstallFilename)
    as [file [err|]] eqn:Hf.
  - destruct (os.IsNotExist err); injection Hl as <-; repeat split.
  - destruct file as [file|]; [|discriminate].
    cbn [deref bind] in Hl.
    destruct (yaml_UnmarshalStrict (asset.Data file)) as [aci [err|]] eqn:Hu.
    + injection Hl as <-. repeat split.
    + now elim (Hnot file aci eq_refl).
Qed.

(** X19.  Once the manifest file has been fetched and has parsed, [Load]
    returns, and the asset holds the file and the parsed descriptor with
    its network type resolved: the type of the file when it has one (the
    descriptor is then adopted as parsed, and nothing is logged), the
    default otherwise (and the defaulting notice is logged).  This holds
    whether or not the validator then accepts the descriptor; found is
    true exactly when the validator has nothing to report. *)
Theorem Load_adopts_resolved_descriptor :
  forall (a : AgentClusterInstall) (f : asset.FileFetcher)
         (file : asset.File) (aci : hiveext.AgentClusterInstall),
    asset.FetchByName f agentClusterInstallFilename = (Some file, None) ->
    yaml_UnmarshalStrict (asset.Data file) = (aci, None) ->
    exists (r : loaded) (d : hiveext.AgentClusterInstall),
      load a f = Returned r
      /\ load_asset r = mkAsset (Some file) (Some d)
      /\ d = hiveext.setNetworkTypeField aci
               (if String.eqb (networkTypeOf aci) ""
                then defaults.defaultNetworkType else networkTypeOf aci)
      /\ (networkTypeOf aci <> "" -> d = aci)
      /\ load_log r
         = (if String.eqb (networkTypeOf aci) ""
            then ["NetworkType is not specified in AgentClusterInstall."
                  ++ " Defaulting NetworkType to "
                  ++ defaults.defaultNetworkType ++ "."]
            else [])
      /\ (load_found r = true
          <-> validateIPAddressAndNetworkType (load_asset r) = Returned []).
Proof.
  intros a f file aci Hf Hu.
  destruct (parsed a f file aci Hf Hu) as (res & errs & Hres & Hv & Hok & Hbad).
  destruct (setNetworkType_blank aci res Hres) as (Haci & Hlog).
  assert (Hsame : networkTypeOf aci <> "" -> res_aci res = aci).
  { intros N. rewrite Haci.
    destruct (String.eqb_spec (networkTypeOf aci) ""); [contradiction|].
    apply setNetworkTypeField_same. }
  destruct errs as [|e errs].
  - eexists _, (res_aci res). split; [exact (Hok eq_refl)|].
    cbn [load_asset load_log load_found].
    repeat split; auto.
  - destruct (Hbad ltac:(discriminate)) as (err & Hl).
    eexists _, (res_aci res). split; [exact Hl|].
    cbn [load_asset load_log load_found].
    repeat split; auto; try discriminate.
    rewrite Hv. discriminate.
Qed.

(** X20.  A manifest file whose descriptor has the restricted plugin and an
    IPv6 range, in the cluster network or in the service network, is never
    loaded: [Load] returns found=false together with an error. *)
Theorem Load_rejects_IPv6_with_restricted_plugin :
  forall (a : AgentClusterInstall) (f : asset.FileFetcher)
         (file : asset.File) (aci : hiveext.AgentClusterInstall),
    asset.FetchByName f agentClusterInstallFilename = (Some file, None) ->
    yaml_UnmarshalStrict (asset.Data file) = (aci, None) ->
    networkTypeOf aci = NetworkTypeOpenShiftSDN ->
    (exists cn,
        In cn (hiveext.ClusterNetwork (hiveext.Networking_ (hiveext.Spec aci)))
        /\ classifyIPFamily (hiveext.CIDR cn) = IPv6)
    \/ (exists cidr,
           In cidr (hiveext.ServiceNetwork (hiveext.Networking_ (hiveext.Spec aci)))
           /\ classifyIPFamily cidr = IPv6) ->
    exists (r : loaded) (err : error),
      load a f = Returned r
      /\ load_found r = false
      /\ load_err r = Some err.
Proof.
  intros a f file aci Hf Hu Ht Hv6.
  destruct (parsed a f file aci Hf Hu) as (res & errs & Hres & Hv & _ & Hbad).
  destruct (setNetworkType_blank aci res Hres) as (Haci & _).
  assert (Hsame : res_aci res = aci).
  { rewrite Haci, Ht. cbn [String.eqb NetworkTypeOpenShiftSDN].
    rewrite <- Ht. apply setNetworkTypeField_same. }
  rewrite Hsame in Hv.
  destruct (Hbad (restricted_IPv6_reported (mkAsset (Some file) (Some aci)) aci errs
                    eq_refl Ht Hv6 Hv))
    as (err & Hl).
  eexists _, err. split; [exact Hl|]. split; reflexivity.
Qed.

End LoaderProperties.

(** ** Build, then load *)

Section RoundTrip.

Variable Platform : Type.
Variable zeroPlatform : Platform.
Variable getVIPs : Platform -> string * string.
Variable getAgentClusterInstallName : agent.OptionalInstallConfig Platform -> string.
Variable getObjectMetaNamespace : agent.OptionalInstallConfig Platform -> string.
Variable getClusterImageSetReferenceName : string.
Variable getClusterDeploymentName : agent.OptionalInstallConfig Platform -> string.
Variable agentClusterInstallFilename : string.
Variable yaml_Marshal : hiveext.AgentClusterInstall -> string * option error.
Variable yaml_UnmarshalStrict : string -> hiveext.AgentClusterInstall * option error.

Local Abbreviation build :=
  (Generate Platform getVIPs getAgentClusterInstallName getObjectMetaNamespace
     getClusterImageSetReferenceName getClusterDeploymentName
     agentClusterInstallFilename yaml_Marshal).

Local Abbreviation load :=
  (Load Platform zeroPlatform agentClusterInstallFilename yaml_UnmarshalStrict).

(** X21.  What an accepted build recorded loads back: when the fetcher
    returns the file of the built asset and the strict parser reads the
    marshalled descriptor back, [Load] on any asset returns found=true and
    no error, logs nothing, and leaves exactly the asset that the build
    left. *)
Theorem Generate_then_Load :
  forall (a a' : AgentClusterInstall)
         (installConfig : agent.OptionalInstallConfig Platform)
         (config : types.InstallConfig Platform) (r : generated Platform)
         (f : asset.FileFetcher),
    agent.Config installConfig = Some config ->
    build a installConfig = Returned r ->
    gen_err r = None ->
    asset.FetchByName f agentClusterInstallFilename = (File (gen_asset r), None) ->
    (forall d, Config (gen_asset r) = Some d ->
               yaml_UnmarshalStrict (fst (yaml_Marshal d)) = (d, None)) ->
    load a' f = Returned (mkLoaded (gen_asset r) [] true None).
Proof.
  intros a a' installConfig config r f Hc Hg He Hfetch Hcodec.
  destruct (Generate_accepted_parts _ _ _ _ _ _ _ _ a installConfig config r Hc Hg He)
    as (networking & cn & sn & n & replicas & res & d
        & Hn & Hcn & Hsn & Hw & Hrep & Hres & Hd & Hy & -> & Hf).
  cbn [gen_asset File Config] in *.
  specialize (Hcodec d eq_refl).
  assert (Htyped : networkTypeOf d <> "").
  { pose proof (setNetworkType_resolved Platform _ _ _ res Hres) as Ht.
    destruct (withVIPs_keeps replicas (getVIPs (types.Platform_ config)) (res_aci res))
      as (Hnet & _ & _).
    unfold networkTypeOf in *. now rewrite Hd, Hnet. }
  destruct (Load_parsed Platform zeroPlatform agentClusterInstallFilename
              yaml_UnmarshalStrict a' f _ d Hfetch Hcodec)
    as (res' & errs & Hres' & Hv & Hok & _).
  rewrite (setNetworkType_populated Platform d _ _ Htyped) in Hres'.
  injection Hres' as <-. cbn [res_aci res_log] in *.
  rewrite (finish_accepts (mkAsset _ (Some d)) d eq_refl Hf) in Hv.
  injection Hv as <-.
  exact (Hok eq_refl).
Qed.

End RoundTrip.

(** ** The further theorems at sample inputs *)

Lemma Generate_without_install_configuration_witness :
  sampleGenerate (mkAsset None None) (agent.mkOptionalInstallConfig None)
  = Returned
      (mkGenerated (mkAsset None None) (agent.mkOptionalInstallConfig None) []
         (Some (errorString "missing configuration or manifest file"))).
Proof.
  destruct (Generate_without_install_configuration
              pairPlatform pairVIPs sampleName sampleName "openshift-v4" sampleName
              sampleFilename sampleMarshal (mkAsset None None)
              (agent.mkOptionalInstallConfig None) eq_refl)
    as (e & Hg & _ & He).
  rewrite (He eq_refl) in Hg. exact Hg.
Defined.

Lemma Generate_nil_pointers_witness :
  sampleGenerate (mkAsset None None) nilReplicasConfig = Panic
  /\ exists r : generated pairPlatform,
       sampleGenerate (mkAsset None None) noControlPlaneConfig = Returned r
       /\ gen_err r <> None
       /\ gen_asset r = mkAsset None None.
Proof.
  split.
  - apply (proj1 (Generate_nil_pointers
                    pairPlatform pairVIPs sampleName sampleName "openshift-v4"
                    sampleName sampleFilename sampleMarshal (mkAsset None None)
                    nilReplicasConfig _ eq_refl)).
    reflexivity.
  - destruct (sampleGenerate (mkAsset None None) noControlPlaneConfig)
      as [r|] eqn:Hg; [|vm_compute in Hg; discriminate].
    exists r. split; [reflexivity|].
    apply (proj2 (proj2 (Generate_nil_pointers
                           pairPlatform pairVIPs sampleName sampleName "openshift-v4"
                           sampleName sampleFilename sampleMarshal (mkAsset None None)
                           noControlPlaneConfig _ eq_refl))).
    + reflexivity.
    + exact Hg.
Defined.

Lemma Generate_counts_workers_witness :
  exists (r : generated pairPlatform) (d : hiveext.AgentClusterInstall),
    sampleGenerate (mkAsset None None)
      (scenarioConfig ("192.168.1.10", "192.168.1.11") "ssh-rsa AAAA" 3)
    = Returned r
    /\ Config (gen_asset r) = Some d
    /\ hiveext.WorkerAgents (hiveext.ProvisionRequirements_ (hiveext.Spec d)) = 6.
Proof.
  destruct (sampleGenerate (mkAsset None None)
              (scenarioConfig ("192.168.1.10", "192.168.1.11") "ssh-rsa AAAA" 3))
    as [r|] eqn:Hg; [|vm_compute in Hg; discriminate].
  assert (He : gen_err r = None)
    by (vm_compute in Hg; injection Hg as <-; reflexivity).
  destruct (Generate_counts_workers
              pairPlatform pairVIPs sampleName sampleName "openshift-v4" sampleName
              sampleFilename sampleMarshal (mkAsset None None)
              (scenarioConfig ("192.168.1.10", "192.168.1.11") "ssh-rsa AAAA" 3)
              _ r eq_refl Hg He)
    as (d & replicas & Hd & Hrep & _ & Hfit).
  exists r, d. split; [reflexivity|]. split; [exact Hd|].
  injection Hrep as <-. apply Hfit. unfold int64. cbn. lia.
Defined.

Lemma Generate_fails_fast_on_malformed_CIDR_witness :
  exists err : error,
    sampleGenerate (mkAsset None None) unsetNetworkConfig
    = Returned (mkGenerated (mkAsset None None) unsetNetworkConfig [] (Some err)).
Proof.
  destruct (sampleGenerate (mkAsset None None) unsetNetworkConfig)
    as [r|] eqn:Hg; [|vm_compute in Hg; discriminate].
  destruct (Generate_fails_fast_on_malformed_CIDR
              pairPlatform pairVIPs sampleName sampleName "openshift-v4" sampleName
              sampleFilename sampleMarshal (mkAsset None None) unsetNetworkConfig
              _ _ r eq_refl eq_refl) as (err & ->).
  - left. eexists. split; [left; reflexivity|]. vm_compute. reflexivity.
  - exact Hg.
  - exists err. reflexivity.
Defined.

Lemma Generate_keeps_network_shape_witness :
  exists (r : generated pairPlatform) (d : hiveext.AgentClusterInstall),
    sampleGenerate (mkAsset None None) typedScenarioConfig = Returned r
    /\ Config (gen_asset r) = Some d
    /\ map hiveext.HostPrefix
         (hiveext.ClusterNetwork (hiveext.Networking_ (hiveext.Spec d))) = [23]
    /\ List.length (hiveext.ServiceNetwork (hiveext.Networking_ (hiveext.Spec d)))
       = 1%nat.
Proof.
  destruct (sampleGenerate (mkAsset None None) typedScenarioConfig)
    as [r|] eqn:Hg; [|vm_compute in Hg; discriminate].
  assert (He : gen_err r = None)
    by (vm_compute in Hg; injection Hg as <-; reflexivity).
  destruct (Generate_keeps_network_shape
              pairPlatform pairVIPs sampleName sampleName "openshift-v4" sampleName
              sampleFilename sampleMarshal (mkAsset None None) typedScenarioConfig
              _ r eq_refl Hg He)
    as (d & networking & Hd & Hn & Hpre & Hlen & _).
  injection Hn as <-.
  exists r, d. split; [reflexivity|]. split; [exact Hd|].
  split; [exact Hpre|exact Hlen].
Defined.

Lemma Generate_file_is_marshalled_descriptor_witness :
  exists r : generated pairPlatform,
    sampleGenerate (mkAsset None None) typedScenarioConfig = Returned r
    /\ Files (gen_asset r)
       = [{| asset.Filename := sampleFilename; asset.Data := "" |}].
Proof.
  destruct (sampleGenerate (mkAsset None None) typedScenarioConfig)
    as [r|] eqn:Hg; [|vm_compute in Hg; discriminate].
  assert (He : gen_err r = None)
    by (vm_compute in Hg; injection Hg as <-; reflexivity).
  destruct (Generate_file_is_marshalled_descriptor
              pairPlatform pairVIPs sampleName sampleName "openshift-v4" sampleName
              sampleFilename sampleMarshal (mkAsset None None) typedScenarioConfig
              _ r eq_refl Hg He)
    as (d & _ & _ & Hfiles).
  exists r. split; [reflexivity|exact Hfiles].
Defined.

Lemma Generate_resolves_network_type_witness :
  exists (r : generated pairPlatform) (d : hiveext.AgentClusterInstall),
    sampleGenerate (mkAsset None None)
      (scenarioConfig ("192.168.1.10", "192.168.1.11") "ssh-rsa AAAA" 3)
    = Returned r
    /\ Config (gen_asset r) = Some d
    /\ networkTypeOf d = "OVNKubernetes"
    /\ gen_log r
       = ["NetworkType is not specified in InstallConfig. Defaulting NetworkType to OVNKubernetes."].
Proof.
  destruct (sampleGenerate (mkAsset None None)
              (scenarioConfig ("192.168.1.10", "192.168.1.11") "ssh-rsa AAAA" 3))
    as [r|] eqn:Hg; [|vm_compute in Hg; discriminate].
  assert (He : gen_err r = None)
    by (vm_compute in Hg; injection Hg as <-; reflexivity).
  destruct (Generate_resolves_network_type
              pairPlatform pairVIPs sampleName sampleName "openshift-v4" sampleName
              sampleFilename sampleMarshal (mkAsset None None)
              (scenarioConfig ("192.168.1.10", "192.168.1.11") "ssh-rsa AAAA" 3)
              _ r eq_refl Hg He)
    as (d & Hd & Ht & _ & _ & Hlog).
  exists r, d. split; [reflexivity|]. split; [exact Hd|].
  split; [exact Ht|exact Hlog].
Defined.

Lemma Generate_marshal_failure_records_no_file_witness :
  exists r : generated pairPlatform,
    failingGenerate (mkAsset None None) typedScenarioConfig = Returned r
    /\ gen_err r <> None
    /\ Files (gen_asset r) = [].
Proof.
  destruct (failingGenerate (mkAsset None None) typedScenarioConfig)
    as [r|] eqn:Hg; [|vm_compute in Hg; discriminate].
  exists r. split; [reflexivity|].
  apply (Generate_marshal_failure_records_no_file
           pairPlatform pairVIPs sampleName sampleName "openshift-v4" sampleName
           sampleFilename failingMarshal (mkAsset None None) typedScenarioConfig
           _ r eq_refl).
  - intros d. discriminate.
  - exact Hg.
Defined.

Lemma Load_panics_only_without_file_and_error_witness :
  sampleLoad (mkAsset None None) emptyFetcher = Panic.
Proof.
  apply (proj2 (Load_panics_only_without_file_and_error
                  pairPlatform ("", "") sampleFilename sampleUnmarshalStrict
                  (mkAsset None None) emptyFetcher)).
  reflexivity.
Defined.

Lemma Load_keeps_descriptor_until_parsed_witness :
  exists r : loaded,
    sampleLoad (mkAsset None (Some hiveext.zero)) (contentFetcher "garbage")
    = Returned r
    /\ load_found r = false
    /\ Config (load_asset r) = Some hiveext.zero
    /\ load_log r = [].
Proof.
  destruct (sampleLoad (mkAsset None (Some hiveext.zero)) (contentFetcher "garbage"))
    as [r|] eqn:Hl; [|vm_compute in Hl; discriminate].
  exists r. split; [reflexivity|].
  apply (Load_keeps_descriptor_until_parsed
           pairPlatform ("", "") sampleFilename sampleUnmarshalStrict
           (mkAsset None (Some hiveext.zero)) (contentFetcher "garbage") r Hl).
  intros file aci Hf. injection Hf as <-. vm_compute. discriminate.
Defined.

Lemma Load_adopts_resolved_descriptor_witness :
  exists r : loaded,
    sampleLoad (mkAsset None None) (contentFetcher "untyped") = Returned r
    /\ load_asset r
       = mkAsset (Some {| asset.Filename := sampleFilename; asset.Data := "untyped" |})
           (Some (descriptorWith "OVNKubernetes"
                    [hiveext.mkClusterNetworkEntry "fd01::/48" 64]
                    ["172.30.0.0/16"])).
Proof.
  destruct (Load_adopts_resolved_descriptor
              pairPlatform ("", "") sampleFilename sampleUnmarshalStrict
              (mkAsset None None) (contentFetcher "untyped")
              {| asset.Filename := sampleFilename; asset.Data := "untyped" |}
              (descriptorWith "" [hiveext.mkClusterNetworkEntry "fd01::/48" 64]
                 ["172.30.0.0/16"])
              eq_refl eq_refl)
    as (r & d & Hl & Ha & Hd & _).
  exists r. split; [exact Hl|]. rewrite Ha, Hd. reflexivity.
Defined.

Lemma Load_rejects_IPv6_with_restricted_plugin_witness :
  exists (r : loaded) (err : error),
    sampleLoad (mkAsset None None) (contentFetcher "sdn-ipv6") = Returned r
    /\ load_found r = false
    /\ load_err r = Some err.
Proof.
  apply (Load_rejects_IPv6_with_restricted_plugin
           pairPlatform ("", "") sampleFilename sampleUnmarshalStrict
           (mkAsset None None) (contentFetcher "sdn-ipv6")
           {| asset.Filename := sampleFilename; asset.Data := "sdn-ipv6" |}
           (descriptorWith NetworkTypeOpenShiftSDN
              [hiveext.mkClusterNetworkEntry "fd01::/48" 64] [])
           eq_refl eq_refl eq_refl).
  left. eexists. split; [left; reflexivity|]. vm_compute. reflexivity.
Defined.

Lemma Generate_then_Load_witness :
  exists r : generated pairPlatform,
    sampleGenerate (mkAsset None None) typedScenarioConfig = Returned r
    /\ builtLoad typedScenarioConfig (mkAsset None None)
         (builtFetcher typedScenarioConfig)
       = Returned (mkLoaded (gen_asset r) [] true None).
Proof.
  destruct (sampleGenerate (mkAsset None None) typedScenarioConfig)
    as [r|] eqn:Hg; [|vm_compute in Hg; discriminate].
  assert (He : gen_err r = None)
    by (vm_compute in Hg; injection Hg as <-; reflexivity).
  exists r. split; [reflexivity|].
  apply (Generate_then_Load
           pairPlatform ("", "") pairVIPs sampleName sampleName "openshift-v4"
           sampleName sampleFilename sampleMarshal
           (fun _ => (builtDescriptor typedScenarioConfig, None))
           (mkAsset None None) (mkAsset None None) typedScenarioConfig _ r
           (builtFetcher typedScenarioConfig) eq_refl Hg He).
  - unfold builtFetcher. cbn [asset.FetchByName]. now rewrite Hg.
  - intros d Hd. unfold builtDescriptor. now rewrite Hg, Hd.
Defined.
